(** * martini-contrib/throttle: the access counter, the controller and the map store

    A shallow embedding of [throttle.go] and of the map store, with the
    properties of the access accounting proved on it.

    Conventions.
    - Go's [uint64] and [int64] are [Z] with the wrap-around written out
      ([u64], [i64]).
    - [time.Now()] reads a clock.  The clock is an oracle [clock : nat -> Time]
      giving the successive readings; the world carries the index of the next
      reading, so every call of [time.Now()] in the source is one reading.
    - A panic is an outcome of its own, distinct from a returned [error].
    - A goroutine started with [go] is a value returned beside the result of
      the function that starts it; its loop is run turn by turn.
    - The store holds [[]byte] values that the package only ever passes to and
      receives from [encoding/json]; they are modelled by the JSON document
      they spell (module [json]). *)

From Stdlib Require Import ZArith Lia List Bool.
From stdpp Require Import base option list gmap strings pretty.

#[local] Set Warnings "-register-all".
Local Open Scope Z_scope.

(** ** Machine integers *)

Definition u64 (z : Z) : Z := z mod 2 ^ 64.
Definition i64 (z : Z) : Z := (z + 2 ^ 63) mod 2 ^ 64 - 2 ^ 63.

Definition is_u64 (z : Z) : Prop := 0 <= z < 2 ^ 64.
Definition is_i64 (z : Z) : Prop := - 2 ^ 63 <= z < 2 ^ 63.

(** ** Package [time] *)

Module time.

(** [time.Duration] is an [int64] count of nanoseconds. *)
Definition Duration : Type := Z.

Definition minDuration : Duration := - 2 ^ 63.
Definition maxDuration : Duration := 2 ^ 63 - 1.

Definition Nanosecond : Duration := 1.
Definition Millisecond : Duration := 1000000.
Definition Second : Duration := 1000000000.
Definition Minute : Duration := 60 * Second.
Definition Hour : Duration := 60 * Minute.

(** A [time.Time]: the wall-clock instant in nanoseconds since
    0001-01-01T00:00:00Z (the zero [Time]) and the optional monotonic clock
    reading.  The [Location] is not modelled: it changes neither [Sub],
    [Add] nor comparison, and the package creates UTC times only.  The
    64-bit seconds field of the Go representation spans 292 billion years
    and is taken as unbounded. *)
Record Time : Type := mkTime { wall : Z; mono : option Z }.

Definition zero : Time := mkTime 0 None.

(** [t.UTC()]: same instant, monotonic reading stripped ([setLoc]). *)
Definition UTC (t : Time) : Time := mkTime (wall t) None.

Definition saturate (d : Z) : Duration :=
  if d <? minDuration then minDuration
  else if maxDuration <? d then maxDuration
  else d.

(** [t.Sub(u)]: on the monotonic readings when both have one, on the wall
    clock otherwise; saturating at the ends of [Duration]. *)
Definition Sub (t u : Time) : Duration :=
  match mono t, mono u with
  | Some a, Some b => saturate (a - b)
  | _, _ => saturate (wall t - wall u)
  end.

(** [t.Add(d)]: the monotonic reading follows, and is dropped when it would
    leave [int64]. *)
Definition Add (t : Time) (d : Duration) : Time :=
  mkTime (wall t + d)
         (match mono t with
          | Some m => if decide (is_i64 (m + d)) then Some (m + d) else None
          | None => None
          end).

(** [Time.MarshalJSON] prints RFC 3339 and fails unless the year is in
    [0, 9999]: the instants from 0000-01-01 (366 days before the zero time)
    up to 10000-01-01 (3652059 days after it). *)
Definition nsPerDay : Z := 86400 * Second.
Definition year0 : Z := - 366 * nsPerDay.
Definition year10000 : Z := 3652059 * nsPerDay.

Definition year_in_range (t : Time) : bool :=
  (year0 <=? wall t) && (wall t <? year10000).

End time.

(** ** Package [encoding/json] *)

Module json.

(** A number literal: an integer literal, by sign and magnitude (so that
    [-0] is told from [0]), or a literal with a fraction or an exponent. *)
Inductive number : Type :=
| Integer (neg : bool) (mag : N)
| Fractional.

(** A JSON document.  A string whose text is an RFC 3339 timestamp (what
    [Time.MarshalJSON] prints and [Time.UnmarshalJSON] accepts, to the
    nanosecond) is [Timestamp] of its instant; [String] is any other
    string.  The zone offset of the text is not kept (the package prints UTC
    only), so the year a text may carry, 0 to 9999, is taken in UTC. *)
Inductive value : Type :=
| Null
| Bool (b : bool)
| Number (n : number)
| String (s : string)
| Timestamp (ns : Z)
| Array (l : list value)
| Object (members : list (string * value)).

(** A [[]byte]: the first JSON document a [json.Decoder] reads from it, or
    [Malformed] when the scanner rejects the bytes (empty input included). *)
Inductive bytes : Type :=
| Malformed
| Text (v : value).

Definition number_of_Z (z : Z) : number :=
  Integer (z <? 0) (Z.to_N (Z.abs z)).

(** [strconv.ParseUint(lit, 10, 64)] on a number literal. *)
Definition ParseUint (n : number) : option Z :=
  match n with
  | Integer false m => if decide (Z.of_N m < 2 ^ 64) then Some (Z.of_N m) else None
  | _ => None
  end.

(** [strconv.ParseInt(lit, 10, 64)] on a number literal. *)
Definition ParseInt (n : number) : option Z :=
  match n with
  | Integer neg m =>
      let z := if neg then - Z.of_N m else Z.of_N m in
      if decide (is_i64 z) then Some z else None
  | Fractional => None
  end.

(** ASCII case folding of a member name (the decoder matches struct fields
    exactly first and by case folding next). *)
Definition fold_ascii (a : Ascii.ascii) : Ascii.ascii :=
  let n := Ascii.nat_of_ascii a in
  if ((97 <=? n) && (n <=? 122))%nat then Ascii.ascii_of_nat (n - 32) else a.

Fixpoint foldName (s : string) : string :=
  match s with
  | EmptyString => EmptyString
  | String.String a s' => String.String (fold_ascii a) (foldName s')
  end.

End json.

(** ** Outcomes and the world *)

(** Go's [error] values, by their message. *)
Definition error : Type := string.

(** What a function returns as [(T, error)]. *)
Inductive result (A : Type) : Type :=
| Ok (a : A)
| Err (e : error).
Arguments Ok {A} a.
Arguments Err {A} e.

(** How a call ends: it returns, it panics, or the goroutine blocks for ever
    on a mutex that nobody will release. *)
Inductive outcome (A : Type) : Type :=
| Return (a : A)
| Panic (msg : string)
| Blocked.
Arguments Return {A} a.
Arguments Panic {A} msg.
Arguments Blocked {A}.

(** The world of a computation: the index of the next clock reading, the
    controller's mutex and the state of the store. *)
Record world (S : Type) : Type := mkWorld { tick : nat; mu : bool; kv : S }.
Arguments mkWorld {S} tick mu kv.
Arguments tick {S} w.
Arguments mu {S} w.
Arguments kv {S} w.

Definition M (S A : Type) : Type := world S -> outcome A * world S.

Definition ret {S A} (a : A) : M S A := fun w => (Return a, w).

Definition bind {S A B} (m : M S A) (k : A -> M S B) : M S B :=
  fun w =>
    match m w with
    | (Return a, w') => k a w'
    | (Panic msg, w') => (Panic msg, w')
    | (Blocked, w') => (Blocked, w')
    end.

Definition panic {S A} (msg : string) : M S A := fun w => (Panic msg, w).

Definition get_kv {S} : M S S := fun w => (Return (kv w), w).
Definition put_kv {S} (s : S) : M S unit :=
  fun w => (Return tt, mkWorld (tick w) (mu w) s).

(** [sync.Mutex]. *)
Definition Lock {S} : M S unit :=
  fun w => if mu w then (Blocked, w) else (Return tt, mkWorld (tick w) true (kv w)).
Definition Unlock {S} : M S unit :=
  fun w => if mu w then (Return tt, mkWorld (tick w) false (kv w))
           else (Panic "sync: unlock of unlocked mutex", w).

(** [defer d] in front of [body]: [d] runs when [body] returns and when it
    panics, and the call ends as [body] did. *)
Definition defer {S A} (d : M S unit) (body : M S A) : M S A :=
  fun w =>
    match body w with
    | (Blocked, w') => (Blocked, w')
    | (o, w') =>
        match d w' with
        | (Return _, w'') => (o, w'')
        | (Panic msg, w'') => (Panic msg, w'')
        | (Blocked, w'') => (Blocked, w'')
        end
    end.

Declare Scope go_scope.
Delimit Scope go_scope with go.
Notation "x <- m ;; k" := (bind m (fun x => k))
  (at level 100, m at next level, right associativity) : go_scope.
Notation "m ;;; k" := (bind m (fun _ => k))
  (at level 100, right associativity) : go_scope.

Local Open Scope go_scope.

(** ** The access counter *)

(** type accessCount struct: Count uint64, Start time.Time,
    Duration time.Duration, with the JSON names count, start, duration. *)
Record accessCount : Type := mkAccessCount {
  Count : Z;
  Start : time.Time;
  Duration : time.Duration
}.

(** The values of the Go type: the fields within their machine types. *)
Definition wf_accessCount (r : accessCount) : Prop :=
  is_u64 (Count r) /\ is_i64 (Duration r).

(** [accessCount{}]. *)
Definition accessCount_zero : accessCount := mkAccessCount 0 time.zero 0.

Inductive field : Type := FCount | FStart | FDuration.

Definition fields : list field := [FCount; FStart; FDuration].

(** The Go name of a field, which [reflect]'s [FieldByName] looks up. *)
Definition field_name (f : field) : string :=
  match f with FCount => "Count" | FStart => "Start" | FDuration => "Duration" end.

(** The name in the field's json tag, which [encoding/json] uses. *)
Definition field_tag (f : field) : string :=
  match f with FCount => "count" | FStart => "start" | FDuration => "duration" end.

(** *** The counter through [encoding/json] *)

(** [json.Marshal(a)] for [a *accessCount]: an object with the members count,
    start and duration in the order of the fields; the only failure is
    [Time.MarshalJSON]'s. *)
Definition Marshal (a : accessCount) : result json.bytes :=
  if time.year_in_range (Start a) then
    Ok (json.Text (json.Object
          [("count"%string, json.Number (json.number_of_Z (Count a)));
           ("start"%string, json.Timestamp (time.wall (Start a)));
           ("duration"%string, json.Number (json.number_of_Z (Duration a)))]))
  else
    Err "json: error calling MarshalJSON for type time.Time: Time.MarshalJSON: year outside of range [0,9999]".

(** The field a member name decodes into: the field whose tag is the name,
    else the first field whose tag is the name up to case. *)
Definition field_of_member (k : string) : option field :=
  match List.find (fun f => String.eqb (field_tag f) k) fields with
  | Some f => Some f
  | None =>
      List.find (fun f => String.eqb (json.foldName (field_tag f)) (json.foldName k)) fields
  end.

(** Decoding one member of an object into the struct.  [null] leaves the field
    as it is; a value that does not fit the field is an error. *)
Definition decode_member (a : accessCount) (k : string) (v : json.value)
  : result accessCount :=
  match field_of_member k, v with
  | None, _ => Ok a
  | Some _, json.Null => Ok a
  | Some FCount, json.Number n =>
      match json.ParseUint n with
      | Some c => Ok (mkAccessCount c (Start a) (Duration a))
      | None => Err "json: cannot unmarshal number into Go struct field accessCount.count of type uint64"
      end
  | Some FCount, _ => Err "json: cannot unmarshal into Go struct field accessCount.count of type uint64"
  | Some FStart, json.Timestamp ns =>
      if time.year_in_range (time.mkTime ns None) then
        Ok (mkAccessCount (Count a) (time.mkTime ns None) (Duration a))
      else Err "parsing time: year out of range"
  | Some FStart, json.String _ => Err "parsing time: cannot parse"
  | Some FStart, _ => Err "Time.UnmarshalJSON: input is not a JSON string"
  | Some FDuration, json.Number n =>
      match json.ParseInt n with
      | Some d => Ok (mkAccessCount (Count a) (Start a) d)
      | None => Err "json: cannot unmarshal number into Go struct field accessCount.duration of type time.Duration"
      end
  | Some FDuration, _ => Err "json: cannot unmarshal into Go struct field accessCount.duration of type time.Duration"
  end.

Fixpoint decode_members (a : accessCount) (ms : list (string * json.value))
  : result accessCount :=
  match ms with
  | [] => Ok a
  | (k, v) :: ms' =>
      match decode_member a k v with
      | Ok a' => decode_members a' ms'
      | Err e => Err e
      end
  end.

(** [json.NewDecoder(buf).Decode(a)] for [a *accessCount]: members are stored
    in the order they are read, a repeated member overwrites, an unknown one
    is skipped, [null] changes nothing, and anything but an object or [null]
    is an error. *)
Definition Decode (a : accessCount) (b : json.bytes) : result accessCount :=
  match b with
  | json.Malformed => Err "invalid character looking for beginning of value"
  | json.Text json.Null => Ok a
  | json.Text (json.Object ms) => decode_members a ms
  | json.Text _ => Err "json: cannot unmarshal into Go value of type throttle.accessCount"
  end.

(** [Decode(&x)] for [x interface{}]: any document is accepted. *)
Definition Decode_any (b : json.bytes) : result json.value :=
  match b with
  | json.Malformed => Err "invalid character looking for beginning of value"
  | json.Text v => Ok v
  end.

(** ** The store interface *)

(** type KeyValueStorer interface: Get(key) ([]byte, error) and
    Set(key, value) error, on a store whose state is [S]. *)
Class KeyValueStorer (S : Type) : Type := {
  Store_Get : string -> S -> result json.bytes;
  Store_Set : string -> json.bytes -> S -> S * option error
}.

(** type Quota struct: Limit uint64, Within time.Duration. *)
Record Quota : Type := mkQuota { Limit : Z; Within : time.Duration }.

(** type controller struct: the mutex is the [mu] of the world and the store
    its [kv]; the quota is the controller's own. *)
Record controller : Type := mkController { quota : Quota }.

Section Program.

(** The successive readings of [time.Now()]. *)
Variable clock : nat -> time.Time.

Definition time_Now {S} : M S time.Time :=
  fun w => (Return (clock (tick w)), mkWorld (Datatypes.S (tick w)) (mu w) (kv w)).

(** func (r accessCount) IsFresh() bool *)
Definition IsFresh {S} (r : accessCount) : M S bool :=
  now <- time_Now ;;
  ret (time.Sub (time.UTC now) (Start r) <? Duration r).

(** func (r *accessCount) Increment(): the receiver is threaded through. *)
Definition Increment {S} (r : accessCount) : M S accessCount :=
  fresh <- IsFresh r ;;
  if fresh : bool then
    ret (mkAccessCount (u64 (Count r + 1)) (Start r) (Duration r))
  else
    let r1 := mkAccessCount 1 (Start r) (Duration r) in
    now <- time_Now ;;
    ret (mkAccessCount (Count r1) (time.UTC now) (Duration r1)).

(** func (r *accessCount) GetCount() uint64: the value returned and the
    receiver after the call. *)
Definition GetCount {S} (r : accessCount) : M S (Z * accessCount) :=
  fresh <- IsFresh r ;;
  if fresh : bool then ret (Count r, r) else ret (0, r).

(** func newAccessCount(duration time.Duration) *accessCount *)
Definition newAccessCount {S} (duration : time.Duration) : M S accessCount :=
  now <- time_Now ;;
  ret (mkAccessCount 0 (time.UTC now) duration).

(** func accessCountFromBytes(accessCountBytes []byte) *accessCount *)
Definition accessCountFromBytes {S} (accessCountBytes : json.bytes) : M S accessCount :=
  match Decode accessCount_zero accessCountBytes with
  | Err e => panic e
  | Ok a => ret a
  end.

Context {S : Type} `{KeyValueStorer S}.

(** func (c *controller) GetAccessCount(id string) (a *accessCount) *)
Definition GetAccessCount (c : controller) (id : string) : M S accessCount :=
  s <- get_kv ;;
  match Store_Get id s with
  | Ok accessCountBytes => accessCountFromBytes accessCountBytes
  | Err _ => newAccessCount (Within (quota c))
  end.

(** func (c *controller) SetAccessCount(id string, a *accessCount) *)
Definition SetAccessCount (c : controller) (id : string) (a : accessCount) : M S unit :=
  match Marshal a with
  | Err e => panic e
  | Ok marshalled =>
      s <- get_kv ;;
      match Store_Set id marshalled s with
      | (s', Some e) => (put_kv s' ;;; panic e)
      | (s', None) => put_kv s'
      end
  end.

(** func (c *controller) RegisterAccess(id string) *)
Definition RegisterAccess (c : controller) (id : string) : M S unit :=
  Lock ;;;
  defer Unlock
    (counter <- GetAccessCount c id ;;
     counter <- Increment counter ;;
     SetAccessCount c id counter).

(** func (c *controller) DeniesAccess(id string) bool *)
Definition DeniesAccess (c : controller) (id : string) : M S bool :=
  counter <- GetAccessCount c id ;;
  n <- GetCount counter ;;
  ret (Limit (quota c) <=? fst n).

(** func (c *controller) RetryAt(id string) time.Time *)
Definition RetryAt (c : controller) (id : string) : M S time.Time :=
  counter <- GetAccessCount c id ;;
  ret (time.Add (Start counter) (Within (quota c))).

(** func (c *controller) RemainingLimit(id string) uint64 *)
Definition RemainingLimit (c : controller) (id : string) : M S Z :=
  counter <- GetAccessCount c id ;;
  n <- GetCount counter ;;
  ret (u64 (Limit (quota c) - fst n)).

End Program.

(** func newController(quota *Quota, store KeyValueStorer) *controller: a
    controller with a mutex of its own, unlocked, on the given store. *)
Definition newController {S} (quota : Quota) (store : S) (t : nat)
  : controller * world S :=
  (mkController quota, mkWorld t false store).

(** ** Keys *)

(** [strconv.FormatInt(i, 10)]. *)
Definition FormatInt (i : Z) : string := pretty i.

(** [strings.Join(elems, sep)]. *)
Definition Join (elems : list string) (sep : string) : string := String.concat sep elems.

(** func (q *Quota) KeyId() string: the quotient of the two fields converted
    to [int64]; Go's [/] truncates towards zero, wraps at [int64] and panics
    on a zero divisor. *)
Definition KeyId (q : Quota) : outcome string :=
  if i64 (Limit q) =? 0 then Panic "runtime error: integer divide by zero"
  else Return (FormatInt (i64 (Z.quot (i64 (Within q)) (i64 (Limit q))))).

(** func makeKey(parts ...string) string *)
Definition makeKey (parts : list string) : string := Join parts "_".

(** ** The map store *)

(** type MapStore struct: the map and the binding.  The binding is a
    [FreshnessInformer]; every store of the package is made by
    [NewMapStore(accessCount{})], so it holds an [accessCount] by value.  The
    store's [RWMutex] brackets each single operation on the map, which is one
    atomic step here. *)
Record MapStore : Type := mkMapStore {
  data : gmap string json.bytes;
  binding : accessCount
}.

(** func (s *MapStore) Set(key string, value []byte) error *)
Definition MapStore_Set (key : string) (value : json.bytes) (s : MapStore)
  : MapStore * option error :=
  (mkMapStore (<[key := value]> (data s)) (binding s), None).

(** func (s *MapStore) Delete(key string) *)
Definition MapStore_Delete (key : string) (s : MapStore) : MapStore :=
  mkMapStore (delete key (data s)) (binding s).

(** func (s *MapStore) Get(key string) (value []byte, err error) *)
Definition MapStore_Get (key : string) (s : MapStore) : result json.bytes :=
  match data s !! key with
  | None => Err ("Throttle Map Store Error: Key " +:+ key +:+ " does not exist")
  | Some value => Ok value
  end.

#[export] Instance MapStore_KeyValueStorer : KeyValueStorer MapStore :=
  {| Store_Get := MapStore_Get; Store_Set := MapStore_Set |}.

(** *** [reflect] on the binding *)

(** A [reflect.Value] for a field of the binding: the field found ([None] is
    the zero Value) and whether the struct it was taken from is addressable. *)
Record Value : Type := mkValue { v_field : option field; v_addressable : bool }.

(** [reflect.ValueOf(s.binding).FieldByName(k)]: the binding is a struct held
    by value in an interface, so the Value is not addressable; the field is
    found by its Go name. *)
Definition FieldByName (k : string) : Value :=
  mkValue (List.find (fun f => String.eqb (field_name f) k) fields) false.

Definition IsValid (v : Value) : bool :=
  match v_field v with Some _ => true | None => false end.

(** [CanSet]: addressable and exported (the three fields are exported). *)
Definition CanSet (v : Value) : bool :=
  match v_field v with Some _ => v_addressable v | None => false end.

(** [field.Set(reflect.ValueOf(v))] for a [v] decoded into [interface{}] (nil,
    bool, float64, string, slice or map): none is assignable to [uint64],
    [time.Time] or [time.Duration], and [Set] panics. *)
Definition Value_Set {S} (fld : Value) (v : json.value) : M S unit :=
  panic "reflect.Set: value is not assignable to the type of the field".

Section Store.

Variable clock : nat -> time.Time.

(** The loop of [Read] over the decoded members. *)
Fixpoint Read_members (ms : list (string * json.value)) : M MapStore unit :=
  match ms with
  | [] => ret tt
  | (k, v) :: ms' =>
      let fld := FieldByName k in
      (if IsValid fld && CanSet fld then Value_Set fld v else ret tt) ;;;
      Read_members ms'
  end.

(** func (s *MapStore) Read(key string) (FreshnessInformer, error) *)
Definition MapStore_Read (key : string) : M MapStore (result accessCount) :=
  s <- get_kv ;;
  match MapStore_Get key s with
  | Err err => ret (Err err)
  | Ok byteArray =>
      match Decode_any byteArray with
      | Err err => ret (Err err)
      | Ok (json.Object ms) =>
          Read_members ms ;;;
          s <- get_kv ;;
          ret (Ok (binding s))
      | Ok _ => panic "interface conversion: interface {} is not map[string]interface {}"
      end
  end.

(** The loop of [Clean] over the keys. *)
Fixpoint Clean_keys (keys : list string) : M MapStore unit :=
  match keys with
  | [] => ret tt
  | key :: keys' =>
      r <- MapStore_Read key ;;
      match r with
      | Ok value =>
          fresh <- IsFresh clock value ;;
          (if negb fresh then (s <- get_kv ;; put_kv (MapStore_Delete key s))
           else ret tt) ;;;
          Clean_keys keys'
      | Err err => panic err
      end
  end.

(** func (s *MapStore) Clean(): the keys are visited in the order of the
    map's enumeration. *)
Definition MapStore_Clean : M MapStore unit :=
  s <- get_kv ;;
  Clean_keys (fst <$> map_to_list (data s)).

End Store.

(** type MapStoreError string, and func (err MapStoreError) Error() string *)
Definition MapStoreError : Type := string.

Definition MapStoreError_Error (err : MapStoreError) : string :=
  ("Throttle Map Store Error: " +:+ err)%string.

(** const defaultCleaningPeriod = 15 * time.Minute *)
Definition defaultCleaningPeriod : time.Duration := 15 * time.Minute.

(** type MapStoreOptions struct: CleaningPeriod time.Duration *)
Record MapStoreOptions : Type := mkMapStoreOptions { CleaningPeriod : time.Duration }.

(** func newMapStoreOptions(options []*MapStoreOptions) *MapStoreOptions: a
    pointer of the slice is [Some] of the options or [None] for nil, whose
    dereference panics. *)
Definition newMapStoreOptions (options : list (option MapStoreOptions))
  : outcome MapStoreOptions :=
  let o := mkMapStoreOptions defaultCleaningPeriod in
  match options with
  | [] => Return o
  | None :: _ => Panic "runtime error: invalid memory address or nil pointer dereference"
  | Some o0 :: _ =>
      if negb (CleaningPeriod o0 =? 0) then Return (mkMapStoreOptions (CleaningPeriod o0))
      else Return o
  end.

Section Sweeper.

Variable clock : nat -> time.Time.

(** One turn of the loop of [CleanEvery]: the receive [<-c] from the channel
    of [time.Tick(cleaningPeriod)], then [s.Clean()].  [time.Tick] returns a
    nil channel for a period that is not positive, and a receive from a nil
    channel blocks for ever. *)
Definition CleanEvery_turn (cleaningPeriod : time.Duration) : M MapStore unit :=
  if cleaningPeriod <=? 0 then (fun w => (Blocked, w)) else MapStore_Clean clock.

(** func (s *MapStore) CleanEvery(cleaningPeriod time.Duration): the loop has
    no exit.  With [ticks] ticks delivered by the channel it takes that many
    turns and is then blocked at the receive. *)
Fixpoint CleanEvery (cleaningPeriod : time.Duration) (ticks : nat) : M MapStore unit :=
  match ticks with
  | O => fun w => (Blocked, w)
  | Datatypes.S ticks' =>
      CleanEvery_turn cleaningPeriod ;;; CleanEvery cleaningPeriod ticks'
  end.

End Sweeper.

(** A goroutine the package starts with [go]: [s.CleanEvery(cleaningPeriod)]
    on the store just made. *)
Inductive goroutine : Type :=
| go_CleanEvery (cleaningPeriod : time.Duration).

(** func NewMapStore(binding FreshnessInformer, options ...*MapStoreOptions)
    *MapStore: the new store, and the goroutine started on it.  A nil first
    option panics in [newMapStoreOptions], before the goroutine is
    started. *)
Definition NewMapStore (binding : accessCount) (options : list (option MapStoreOptions))
  : outcome (MapStore * goroutine) :=
  let s := mkMapStore ∅ binding in
  match newMapStoreOptions options with
  | Return o => Return (s, go_CleanEvery (CleaningPeriod o))
  | Panic msg => Panic msg
  | Blocked => Blocked
  end.

(** ** The policy: options, headers and the handler *)

(** const StatusTooManyRequests = 429 and the defaults. *)
Definition StatusTooManyRequests : Z := 429.
Definition defaultStatusCode : Z := StatusTooManyRequests.
Definition defaultMessage : string := "Too Many Requests".
Definition defaultKeyPrefix : string := "throttle".
Definition forwardedForHeader : string := "X-FORWARDED-FOR".
Definition defaultDisabled : bool := false.

(** *** Package [net/http], as far as the policy uses it *)

(** [textproto.CanonicalMIMEHeaderKey]: a key made of token bytes has its
    first letter and every letter after a hyphen in upper case and the others
    in lower case; any other key is left as it is. *)
Definition is_lower (n : nat) : bool := ((97 <=? n) && (n <=? 122))%nat.
Definition is_upper (n : nat) : bool := ((65 <=? n) && (n <=? 90))%nat.
Definition is_digit (n : nat) : bool := ((48 <=? n) && (n <=? 57))%nat.

Definition validHeaderFieldByte (a : Ascii.ascii) : bool :=
  let n := Ascii.nat_of_ascii a in
  is_lower n || is_upper n || is_digit n ||
  existsb (Nat.eqb n) [33; 35; 36; 37; 38; 39; 42; 43; 45; 46; 94; 95; 96; 124; 126]%nat.

Fixpoint valid_key (s : string) : bool :=
  match s with
  | EmptyString => true
  | String.String a s' => validHeaderFieldByte a && valid_key s'
  end.

Fixpoint canonical_from (upper : bool) (s : string) : string :=
  match s with
  | EmptyString => EmptyString
  | String.String a s' =>
      let n := Ascii.nat_of_ascii a in
      let n' := if upper && is_lower n then (n - 32)%nat
                else if negb upper && is_upper n then (n + 32)%nat
                else n in
      String.String (Ascii.ascii_of_nat n') (canonical_from (n' =? 45)%nat s')
  end.

Definition CanonicalMIMEHeaderKey (s : string) : string :=
  if valid_key s then canonical_from true s else s.

(** type http.Header map[string][]string, with [Set] and [Get]. *)
Definition Header_Set (key value : string) (h : gmap string (list string))
  : gmap string (list string) :=
  <[CanonicalMIMEHeaderKey key := [value]]> h.

Definition Header_Get (h : gmap string (list string)) (key : string) : string :=
  match h !! CanonicalMIMEHeaderKey key with
  | Some (v :: _) => v
  | _ => EmptyString
  end.

(** The fields of [*http.Request] the package reads. *)
Record Request : Type := mkRequest {
  RemoteAddr : string;
  ReqHeader : gmap string (list string)
}.

(** type http.ResponseWriter interface: [Header().Set], [WriteHeader] and
    [Write], on a writer whose state is [R]; the last two may panic. *)
Class ResponseWriter (R : Type) : Type := {
  rw_Header_Set : string -> string -> R -> R;
  rw_WriteHeader : Z -> R -> outcome R;
  rw_Write : string -> R -> outcome R
}.

(** [httptest.ResponseRecorder], the writer of the package's tests: the
    status once written ([Code], [None] before), the body and the header
    map. *)
Record Recorder : Type := mkRecorder {
  Code : option Z;
  Body : string;
  HeaderMap : gmap string (list string)
}.

(** [httptest.NewRecorder()]. *)
Definition NewRecorder : Recorder := mkRecorder None EmptyString ∅.

(** [WriteHeader]: the first call counts; a code outside 100..999 panics. *)
Definition Recorder_WriteHeader (code : Z) (rw : Recorder) : outcome Recorder :=
  match Code rw with
  | Some _ => Return rw
  | None =>
      if (code <? 100) || (999 <? code) then Panic "invalid WriteHeader code"
      else Return (mkRecorder (Some code) (Body rw) (HeaderMap rw))
  end.

(** [Write]: writes the header with 200 when none was written, and appends to
    the body. *)
Definition Recorder_Write (buf : string) (rw : Recorder) : outcome Recorder :=
  let code := match Code rw with Some c => c | None => 200 end in
  Return (mkRecorder (Some code) (Body rw +:+ buf) (HeaderMap rw)).

#[export] Instance Recorder_ResponseWriter : ResponseWriter Recorder :=
  {| rw_Header_Set := fun key value rw =>
       mkRecorder (Code rw) (Body rw) (Header_Set key value (HeaderMap rw));
     rw_WriteHeader := Recorder_WriteHeader;
     rw_Write := Recorder_Write |}.

(** [strconv.FormatUint(i, 10)]. *)
Definition FormatUint (i : Z) : string := pretty i.

(** [t.Unix()]: the whole seconds since 1970-01-01T00:00:00Z, which is
    62135596800 seconds after the zero time. *)
Definition time_Unix (t : time.Time) : Z := time.wall t / time.Second - 62135596800.

(** *** Options *)

(** An interface value of type [KeyValueStorer] that is not nil: a type, its
    methods and a state. *)
Record Storer : Type := mkStorer {
  storer_type : Type;
  storer_methods : KeyValueStorer storer_type;
  storer_state : storer_type
}.

(** type accessMessage struct, and func newAccessMessage. *)
Record accessMessage : Type := mkAccessMessage {
  msg_StatusCode : Z;
  msg_Message : string
}.

Definition newAccessMessage (statusCode : Z) (message : string) : accessMessage :=
  mkAccessMessage statusCode message.

Section Policy.

(** [net.ParseIP(s)], as the [String()] of the address or [None] for nil, and
    [net.SplitHostPort]. *)
Variable ParseIP : string -> option string.
Variable SplitHostPort : string -> result (string * string).

Variable clock : nat -> time.Time.
Context {R : Type} `{ResponseWriter R}.

(** type Options struct.  A func or interface field is [None] when nil.  A
    skip function gets the writer, which it may write to, and the request. *)
Record Options : Type := mkOptions {
  StatusCode : Z;
  Message : string;
  IdentificationFunction : option (Request -> outcome string);
  KeyPrefix : string;
  Store : option Storer;
  Disabled : bool;
  SkipRegisterFunction : option (R -> Request -> outcome (bool * R));
  SkipAccessCheckFunction : option (R -> Request -> outcome (bool * R))
}.

(** func defaultIdentify(req *http.Request) string *)
Definition defaultIdentify (req : Request) : outcome string :=
  let by_address :=
    match SplitHostPort (RemoteAddr req) with
    | Err err => Panic err
    | Ok (ip, _) => Return ip
    end in
  let forwardedFor := Header_Get (ReqHeader req) forwardedForHeader in
  if negb (String.eqb forwardedFor EmptyString) then
    match ParseIP forwardedFor with
    | Some ipParsed => Return ipParsed
    | None => by_address
    end
  else by_address.

(** func defaultSkipRegister and func defaultSkipAccess *)
Definition defaultSkipRegister (resp : R) (req : Request) : outcome (bool * R) :=
  Return (false, resp).
Definition defaultSkipAccess (resp : R) (req : Request) : outcome (bool * R) :=
  Return (false, resp).

(** A [reflect.Value] of a field of [Options], by its kind. *)
Inductive option_value : Type :=
| VInt (i : Z)
| VString (str : string)
| VBool (b : bool)
| VIdentify (f : option (Request -> outcome string))
| VStore (st : option Storer)
| VSkip (f : option (R -> Request -> outcome (bool * R))).

(** func isNonEmptyOption(v reflect.Value) bool *)
Definition isNonEmptyOption (v : option_value) : bool :=
  match v with
  | VString str => negb (String.length str =? 0)%nat
  | VBool _ => true
  | VInt i => negb (i =? 0)
  | VIdentify f => match f with Some _ => true | None => false end
  | VStore st => match st with Some _ => true | None => false end
  | VSkip f => match f with Some _ => true | None => false end
  end.

(** [NumField()], [Field(i)] and [Field(i).Set(v)] on the struct. *)
Definition Options_NumField : nat := 8.

Definition Options_Field (o : Options) (i : nat) : option option_value :=
  match i with
  | 0 => Some (VInt (StatusCode o))
  | 1 => Some (VString (Message o))
  | 2 => Some (VIdentify (IdentificationFunction o))
  | 3 => Some (VString (KeyPrefix o))
  | 4 => Some (VStore (Store o))
  | 5 => Some (VBool (Disabled o))
  | 6 => Some (VSkip (SkipRegisterFunction o))
  | 7 => Some (VSkip (SkipAccessCheckFunction o))
  | _ => None
  end%nat.

Definition Options_Set (o : Options) (i : nat) (v : option_value) : option Options :=
  match i, v with
  | 0, VInt x => Some (mkOptions x (Message o) (IdentificationFunction o) (KeyPrefix o)
                         (Store o) (Disabled o) (SkipRegisterFunction o) (SkipAccessCheckFunction o))
  | 1, VString x => Some (mkOptions (StatusCode o) x (IdentificationFunction o) (KeyPrefix o)
                            (Store o) (Disabled o) (SkipRegisterFunction o) (SkipAccessCheckFunction o))
  | 2, VIdentify x => Some (mkOptions (StatusCode o) (Message o) x (KeyPrefix o)
                              (Store o) (Disabled o) (SkipRegisterFunction o) (SkipAccessCheckFunction o))
  | 3, VString x => Some (mkOptions (StatusCode o) (Message o) (IdentificationFunction o) x
                            (Store o) (Disabled o) (SkipRegisterFunction o) (SkipAccessCheckFunction o))
  | 4, VStore x => Some (mkOptions (StatusCode o) (Message o) (IdentificationFunction o) (KeyPrefix o)
                           x (Disabled o) (SkipRegisterFunction o) (SkipAccessCheckFunction o))
  | 5, VBool x => Some (mkOptions (StatusCode o) (Message o) (IdentificationFunction o) (KeyPrefix o)
                          (Store o) x (SkipRegisterFunction o) (SkipAccessCheckFunction o))
  | 6, VSkip x => Some (mkOptions (StatusCode o) (Message o) (IdentificationFunction o) (KeyPrefix o)
                          (Store o) (Disabled o) x (SkipAccessCheckFunction o))
  | 7, VSkip x => Some (mkOptions (StatusCode o) (Message o) (IdentificationFunction o) (KeyPrefix o)
                          (Store o) (Disabled o) (SkipRegisterFunction o) x)
  | _, _ => None
  end%nat.

(** The loop of [newOptions] over the fields [i], [i+1], ... of the given
    options: a field that is not empty is copied over the default.  The
    fields are those of a struct reached through a pointer, so [IsValid] and
    [CanSet] hold. *)
Fixpoint merge_fields (given o : Options) (i count : nat) : outcome Options :=
  match count with
  | O => Return o
  | Datatypes.S count' =>
      match Options_Field given i with
      | None => Panic "reflect: Field index out of range"
      | Some value =>
          if isNonEmptyOption value then
            match Options_Set o i value with
            | Some o' => merge_fields given o' (Datatypes.S i) count'
            | None => Panic "reflect.Set: value is not assignable to the type of the field"
            end
          else merge_fields given o (Datatypes.S i) count'
      end
  end.

(** A map store as an interface value. *)
Definition MapStore_Storer (s : MapStore) : Storer :=
  mkStorer MapStore MapStore_KeyValueStorer s.

(** [o.Store = NewMapStore(accessCount{})]: the options with the new store,
    and the goroutine that [NewMapStore] starts. *)
Definition with_new_store (o : Options) : outcome (Options * list goroutine) :=
  match NewMapStore accessCount_zero [] with
  | Return (s, g) =>
      Return (mkOptions (StatusCode o) (Message o) (IdentificationFunction o) (KeyPrefix o)
                        (Some (MapStore_Storer s)) (Disabled o)
                        (SkipRegisterFunction o) (SkipAccessCheckFunction o),
              [g])
  | Panic msg => Panic msg
  | Blocked => Blocked
  end.

(** func newOptions(options []*Options) *Options: an element of the slice is
    [Some] of the options it points to, or [None] for a nil pointer.  Beside
    the options, the goroutines started on the way: the sweeper of the store
    that [NewMapStore] makes when no store is given. *)
Definition newOptions (options : list (option Options))
  : outcome (Options * list goroutine) :=
  let o := mkOptions defaultStatusCode defaultMessage (Some defaultIdentify)
                     defaultKeyPrefix None defaultDisabled
                     (Some defaultSkipRegister) (Some defaultSkipAccess) in
  match options with
  | [] => with_new_store o
  | None :: _ => Panic "reflect: call of reflect.Value.NumField on zero Value"
  | Some given :: _ =>
      match merge_fields given o 0 Options_NumField with
      | Return o' =>
          match Store o' with
          | None => with_new_store o'
          | Some _ => Return (o', [])
          end
      | Panic msg => Panic msg
      | Blocked => Blocked
      end
  end.

Context {S : Type} `{KeyValueStorer S}.

(** Running what an outcome stands for inside a handler. *)
Definition lift {A} (o : outcome A) : M S A := fun w => (o, w).

(** Calling a func value: a nil one panics. *)
Definition call {A B} (f : option (A -> outcome B)) (a : A) : M S B :=
  match f with
  | Some g => lift (g a)
  | None => panic "runtime error: invalid memory address or nil pointer dereference"
  end.

(** func (o *Options) Identify, SkipRegister and SkipAccessCheck *)
Definition Identify (o : Options) (req : Request) : M S string :=
  call (IdentificationFunction o) req.

Definition SkipRegister (o : Options) (resp : R) (req : Request) : M S (bool * R) :=
  match SkipRegisterFunction o with
  | Some f => lift (f resp req)
  | None => panic "runtime error: invalid memory address or nil pointer dereference"
  end.

Definition SkipAccessCheck (o : Options) (resp : R) (req : Request) : M S (bool * R) :=
  match SkipAccessCheckFunction o with
  | Some f => lift (f resp req)
  | None => panic "runtime error: invalid memory address or nil pointer dereference"
  end.

(** func setRateLimitHeaders(resp, controller, id): the writer after the
    three headers are set. *)
Definition setRateLimitHeaders (resp : R) (c : controller) (id : string) : M S R :=
  let resp := rw_Header_Set "X-RateLimit-Limit" (FormatUint (Limit (quota c))) resp in
  t <- RetryAt clock c id ;;
  let resp := rw_Header_Set "X-RateLimit-Reset" (FormatInt (time_Unix t)) resp in
  n <- RemainingLimit clock c id ;;
  ret (rw_Header_Set "X-RateLimit-Remaining" (FormatUint n) resp).

(** The closure [Policy] returns when the options are not disabled: the
    writer after the request.  What a call had written before it panics is
    not kept. *)
Definition Policy_handler (quota : Quota) (o : Options) (c : controller)
    (resp : R) (req : Request) : M S R :=
  keyId <- lift (KeyId quota) ;;
  identity <- Identify o req ;;
  let id := makeKey [KeyPrefix o; keyId; identity] in
  resp <- setRateLimitHeaders resp c id ;;
  skip <- SkipAccessCheck o resp req ;;
  if fst skip : bool then ret (snd skip)
  else
    let resp := snd skip in
    denies <- DeniesAccess clock c id ;;
    if denies : bool then
      let msg := newAccessMessage (StatusCode o) (Message o) in
      resp <- lift (rw_WriteHeader (msg_StatusCode msg) resp) ;;
      lift (rw_Write (msg_Message msg) resp)
    else
      skip <- SkipRegister o resp req ;;
      let resp := snd skip in
      if negb (fst skip) then
        RegisterAccess clock c id ;;;
        setRateLimitHeaders resp c id
      else ret resp.

(** func Policy(quota *Quota, options ...*Options), after its first line
    [o := newOptions(options)]: the closure it returns.  The controller it
    makes works on the store of the world, which is [o.Store], with a mutex
    of its own. *)
Definition Policy (quota : Quota) (o : Options) : R -> Request -> M S R :=
  if Disabled o then fun resp req => ret resp
  else Policy_handler quota o (mkController quota).

End Policy.

(** * Vocabulary of the properties *)

(** The store that [NewMapStore(accessCount{})] returns, as an interface
    value, and the sweeper it starts, with the default period. *)
Definition default_Storer : Storer := MapStore_Storer (mkMapStore ∅ accessCount_zero).
Definition default_sweeper : goroutine := go_CleanEvery (15 * time.Minute).

(** The world after one more clock reading. *)
Definition tock {S} (w : world S) : world S :=
  mkWorld (Datatypes.S (tick w)) (mu w) (kv w).

(** What [IsFresh] computes from the reading it takes. *)
Definition fresh_at (now : time.Time) (r : accessCount) : bool :=
  time.Sub (time.UTC now) (Start r) <? Duration r.

(** What [Decode] produces is a value of the Go type whose start can be
    marshalled again. *)
Definition storable (a : accessCount) : Prop :=
  wf_accessCount a /\ time.year_in_range (Start a) = true /\
  time.mono (Start a) = None.

(** The world after [Store.Set(id, p)]. *)
Definition store_put (id : string) (p : json.bytes) (w : world MapStore)
  : world MapStore :=
  mkWorld (tick w) (mu w) (mkMapStore (<[id := p]> (data (kv w))) (binding (kv w))).

(** ** Sequences of accesses *)

(** [n] times: [RegisterAccess(id)], then [DeniesAccess(id)]; the answers in
    the order of the calls. *)
Fixpoint register_and_check (clock : nat -> time.Time) (c : controller)
    (id : string) (n : nat) : M MapStore (list bool) :=
  match n with
  | O => ret []
  | Datatypes.S n' =>
      RegisterAccess clock c id ;;;
      b <- DeniesAccess clock c id ;;
      bs <- register_and_check clock c id n' ;;
      ret (b :: bs)
  end.

(** The record under [id] decodes to counter [a], and the mutex is free. *)
Definition holds (id : string) (a : accessCount) (w : world MapStore) : Prop :=
  mu w = false /\
  exists p, data (kv w) !! id = Some p /\ Decode accessCount_zero p = Ok a.

(** ** Goroutines calling [RegisterAccess] on one controller *)


Section Goroutines.

Variable clock : nat -> time.Time.
Variables (c : controller) (id : string).






End Goroutines.







(** ** The invariant of the goroutines *)




(** ** Sample values *)

(** 2024-01-01T00:00:00Z: 738885 days after the zero time. *)
Definition sample_instant : Z := 738885 * time.nsPerDay.

(** A clock that advances by a millisecond from one reading to the next. *)
Definition sample_clock (n : nat) : time.Time :=
  time.mkTime (sample_instant + Z.of_nat n * time.Millisecond)
              (Some (Z.of_nat n * time.Millisecond)).

Definition sample_id : string := "throttle_5000000_1.2.3.4".

(** Two requests in ten milliseconds, on a new map store. *)
Definition sample_quota : Quota := mkQuota 2 (10 * time.Millisecond).
Definition sample_controller : controller :=
  fst (newController sample_quota (mkMapStore ∅ accessCount_zero) 0).
Definition sample_world : world MapStore :=
  snd (newController sample_quota (mkMapStore ∅ accessCount_zero) 0).

(** The bytes [json.Marshal] gives for a counter it can marshal. *)
Definition marshalled (a : accessCount) : json.bytes :=
  match Marshal a with
  | Ok b => b
  | Err _ => json.Malformed
  end.

(** A world whose store holds counter [a] under [sample_id], after [t]
    readings of the clock. *)
Definition world_with (a : accessCount) (t : nat) : world MapStore :=
  mkWorld t false (mkMapStore {[ sample_id := marshalled a ]} accessCount_zero).

(** A counter opened at the first reading of the sample clock. *)
Definition sample_counter (n : Z) (d : time.Duration) : accessCount :=
  mkAccessCount n (time.UTC (sample_clock 0)) d.

(** The separator of [makeKey], the underscore, as a character. *)
Definition separator : Ascii.ascii := Ascii.ascii_of_nat 95.

(** Whether a string has the separator in it. *)
Fixpoint has_separator (s : string) : bool :=
  match s with
  | EmptyString => false
  | String.String a s' => Ascii.eqb a separator || has_separator s'
  end.

(** A func or interface field after [newOptions]: the given one, or the
    default when the given one is nil. *)
Definition or_default {A : Type} (given : option A) (default : A) : option A :=
  match given with
  | Some a => Some a
  | None => Some default
  end.

(** The writer after the three rate limit headers are set. *)
Definition rate_headers {R : Type} `{ResponseWriter R}
    (limit reset remaining : Z) (resp : R) : R :=
  rw_Header_Set "X-RateLimit-Remaining" (FormatUint remaining)
    (rw_Header_Set "X-RateLimit-Reset" (FormatInt reset)
       (rw_Header_Set "X-RateLimit-Limit" (FormatUint limit) resp)).

(** The writer after a refusal: the status code, then the message. *)
Definition refusal {R : Type} `{ResponseWriter R}
    (code : Z) (message : string) (resp : R) : outcome R :=
  match rw_WriteHeader code resp with
  | Return resp' => rw_Write message resp'
  | Panic msg => Panic msg
  | Blocked => Blocked
  end.

(** [n] requests one after the other through the closure of [Policy], each
    with a new recorder as the tests have it; the recorders after the
    handler, in the order of the requests. *)
Fixpoint serve (clock : nat -> time.Time) (quota : Quota) (o : @Options Recorder)
    (req : Request) (n : nat) : M MapStore (list Recorder) :=
  match n with
  | O => ret []
  | Datatypes.S n' =>
      resp <- Policy clock quota o NewRecorder req ;;
      rest <- serve clock quota o req n' ;;
      ret (resp :: rest)
  end.

(** What the recorder of the [j]-th request of a window holds after the
    handler, under a limit, with the reset time of the window: the headers
    alone while the limit is not passed, then the refusal. *)
Definition expected_response (limit reset code : Z) (message : string) (j : nat)
  : Recorder :=
  if Z.of_nat j <=? limit then
    rate_headers limit reset (limit - Z.of_nat j) NewRecorder
  else
    mkRecorder (Some code) message
      (HeaderMap (rate_headers limit reset 0 NewRecorder)).

(** A computation that leaves the store and the mutex as they were, however
    it ends. *)
Definition quiet {S A : Type} (m : M S A) : Prop :=
  forall w, kv (snd (m w)) = kv w /\ mu (snd (m w)) = mu w.

(** Options that identify the request and skip nothing for it. *)
Definition plain_options {R : Type} (o : @Options R) (req : Request)
    (identity : string) : Prop :=
  Disabled o = false /\
  exists idf sa sr,
    IdentificationFunction o = Some idf /\ idf req = Return identity /\
    SkipAccessCheckFunction o = Some sa /\
    (forall resp, sa resp req = Return (false, resp)) /\
    SkipRegisterFunction o = Some sr /\
    (forall resp, sr resp req = Return (false, resp)).

(** ** Sample values of a request *)

(** A request from 1.2.3.4, port 5678, with no headers, and what
    [net.ParseIP] and [net.SplitHostPort] answer on its strings. *)
Definition sample_request : Request := mkRequest "1.2.3.4:5678" ∅.

Definition sample_ParseIP (s : string) : option string :=
  if String.eqb s "1.2.3.4" then Some s else None.

Definition sample_SplitHostPort (s : string) : result (string * string) :=
  if String.eqb s "1.2.3.4:5678" then Ok ("1.2.3.4"%string, "5678"%string)
  else Err "missing port in address".

(** The options of a policy without options, on a recorder. *)
Definition sample_options : @Options Recorder :=
  mkOptions defaultStatusCode defaultMessage
    (Some (defaultIdentify sample_ParseIP sample_SplitHostPort)) defaultKeyPrefix
    (Some default_Storer) defaultDisabled
    (Some defaultSkipRegister) (Some defaultSkipAccess).

(** The same options for requests that are never counted. *)
Definition sample_options_uncounted : @Options Recorder :=
  mkOptions defaultStatusCode defaultMessage
    (Some (defaultIdentify sample_ParseIP sample_SplitHostPort)) defaultKeyPrefix
    (Some default_Storer) defaultDisabled
    (Some (fun resp _ => Return (true, resp))) (Some defaultSkipAccess).

(** Two requests a second, and the key of the sample request under it. *)
Definition sample_quota_second : Quota := mkQuota 2 time.Second.

(** A store with a record that is not JSON under the sample key. *)
Definition sample_world_malformed : world MapStore :=
  mkWorld 0 false (mkMapStore {[ sample_id := json.Malformed ]} accessCount_zero).

(** ** A policy and the sweeper of its store *)

(** One turn of a goroutine the package started. *)
Definition goroutine_turn (clock : nat -> time.Time) (g : goroutine) : M MapStore unit :=
  match g with
  | go_CleanEvery cleaningPeriod => CleanEvery_turn clock cleaningPeriod
  end.

(** What happens next on a store: the handler serves a request, or the
    sweeper receives a tick and takes its turn. *)
Inductive event : Type :=
| ev_request
| ev_tick.

(** The events of a schedule one after the other, each run to its end before
    the next (a turn of the sweeper and a call of the handler do not overlap
    here); the recorders of the requests, in their order. *)
Fixpoint serve_events (clock : nat -> time.Time) (quota : Quota)
    (o : @Options Recorder) (req : Request) (g : goroutine) (evs : list event)
  : M MapStore (list Recorder) :=
  match evs with
  | [] => ret []
  | ev_request :: evs' =>
      resp <- Policy clock quota o NewRecorder req ;;
      rest <- serve_events clock quota o req g evs' ;;
      ret (resp :: rest)
  | ev_tick :: evs' =>
      goroutine_turn clock g ;;;
      serve_events clock quota o req g evs'
  end.

(** A store with the empty binding that holds nothing but JSON objects, and
    those under [id]. *)
Definition only_objects_at (id : string) (s : MapStore) : Prop :=
  binding s = accessCount_zero /\
  forall k v, data s !! k = Some v -> k = id /\ exists ms, v = json.Text (json.Object ms).

(** A computation that keeps a property of the store, however it ends. *)
Definition keeps {A : Type} (P : MapStore -> Prop) (m : M MapStore A) : Prop :=
  forall w, P (kv w) -> P (kv (snd (m w))).

(** The world holds counter [a] under [id] and nothing else. *)
Definition sole (id : string) (a : accessCount) (w : world MapStore) : Prop :=
  holds id a w /\ only_objects_at id (kv w).

(** The default options, disabled. *)
Definition sample_options_disabled : @Options Recorder :=
  mkOptions defaultStatusCode defaultMessage
    (Some (defaultIdentify sample_ParseIP sample_SplitHostPort)) defaultKeyPrefix
    (Some default_Storer) true
    (Some defaultSkipRegister) (Some defaultSkipAccess).

(** The keys still to visit are in the store, each with an object, and the
    binding is the empty counter. *)
Definition sweepable (keys : list string) (w : world MapStore) : Prop :=
  binding (kv w) = accessCount_zero /\
  forall k, k ∈ keys -> exists ms, data (kv w) !! k = Some (json.Text (json.Object ms)).

(** * Properties *)

(** ** The access counter *)

Section Counter.

Variable clock : nat -> time.Time.
Context {S : Type}.
Implicit Types (r : accessCount) (w : world S).

Lemma IsFresh_run r w :
  IsFresh clock r w = (Return (fresh_at (clock (tick w)) r), tock w).
Proof. reflexivity. Qed.

Lemma Increment_fresh r w :
  fresh_at (clock (tick w)) r = true ->
  Increment clock r w =
    (Return (mkAccessCount (u64 (Count r + 1)) (Start r) (Duration r)), tock w).
Proof. intros Hf. unfold Increment, bind. rewrite IsFresh_run, Hf. reflexivity. Qed.

Lemma Increment_stale r w :
  fresh_at (clock (tick w)) r = false ->
  Increment clock r w =
    (Return (mkAccessCount 1 (time.UTC (clock (Datatypes.S (tick w)))) (Duration r)),
     tock (tock w)).
Proof. intros Hf. unfold Increment, bind. rewrite IsFresh_run, Hf. reflexivity. Qed.

Lemma GetCount_run r w :
  GetCount clock r w =
    (Return (if fresh_at (clock (tick w)) r then Count r else 0, r), tock w).
Proof.
  unfold GetCount, bind. rewrite IsFresh_run.
  destruct (fresh_at _ r); reflexivity.
Qed.

Lemma newAccessCount_run d w :
  newAccessCount clock d w =
    (Return (mkAccessCount 0 (time.UTC (clock (tick w))) d), tock w).
Proof. reflexivity. Qed.

Lemma fresh_at_same_instant now now' r :
  time.wall now' = time.wall now ->
  fresh_at now' r = fresh_at now r.
Proof.
  intros Hw. unfold fresh_at, time.Sub, time.UTC. simpl. now rewrite Hw.
Qed.

Lemma fresh_at_own_start now d c :
  0 < d -> fresh_at now (mkAccessCount c (time.UTC now) d) = true.
Proof.
  intros Hd. unfold fresh_at, time.Sub, time.UTC. simpl.
  rewrite Z.sub_diag. unfold time.saturate, time.minDuration, time.maxDuration.
  simpl. lia.
Qed.

End Counter.

(** C5.  [Increment] on a counter whose duration is positive.  When the
    counter is fresh at the reading [Increment] takes, the count becomes the
    old count plus one (in [uint64]; it is the integer successor below the top
    of the type) and start and duration stay.  When it is stale, the count
    becomes 1 and the start the next reading of the clock, in UTC.  In both
    cases [IsFresh] answers true on the new counter at any reading of the same
    instant as the last one [Increment] took. *)
Theorem Increment_leaves_fresh
    (clock : nat -> time.Time) (S : Type) (r : accessCount) (w : world S) :
  0 < Duration r ->
  (fst (IsFresh clock r w) = Return true ->
     exists r',
       Increment clock r w = (Return r', tock w) /\
       Count r' = u64 (Count r + 1) /\
       (0 <= Count r < 2 ^ 64 - 1 -> Count r' = Count r + 1) /\
       Start r' = Start r /\ Duration r' = Duration r /\
       forall w2 : world S,
         time.wall (clock (tick w2)) = time.wall (clock (tick w)) ->
         fst (IsFresh clock r' w2) = Return true) /\
  (fst (IsFresh clock r w) = Return false ->
     exists r',
       Increment clock r w = (Return r', tock (tock w)) /\
       Count r' = 1 /\
       Start r' = time.UTC (clock (Datatypes.S (tick w))) /\
       Duration r' = Duration r /\
       forall w2 : world S,
         time.wall (clock (tick w2)) = time.wall (clock (Datatypes.S (tick w))) ->
         fst (IsFresh clock r' w2) = Return true).
Proof.
  intros Hd. split; intros Hf; rewrite IsFresh_run in Hf; simpl in Hf;
    injection Hf as Hf.
  - eexists. split; [apply Increment_fresh, Hf|]. cbn [Count Start Duration].
    repeat split; try reflexivity.
    + intros Hc. unfold u64. apply Z.mod_small. lia.
    + intros w2 Hw. rewrite IsFresh_run. cbn [fst]. f_equal.
      rewrite (fresh_at_same_instant _ _ _ Hw). exact Hf.
  - eexists. split; [apply Increment_stale, Hf|]. cbn [Count Start Duration].
    repeat split; try reflexivity.
    intros w2 Hw. rewrite IsFresh_run. cbn [fst]. f_equal.
    rewrite (fresh_at_same_instant _ _ _ Hw).
    apply fresh_at_own_start, Hd.
Qed.

(** C9.  [GetCount] returns the count field when [IsFresh] answers true at
    the reading it takes and 0 when it answers false, and the receiver is the
    same counter after the call. *)
Theorem GetCount_fresh_or_zero
    (clock : nat -> time.Time) (S : Type) (r : accessCount) (w : world S) :
  exists fresh : bool,
    IsFresh clock r w = (Return fresh, tock w) /\
    GetCount clock r w = (Return (if fresh then Count r else 0, r), tock w).
Proof.
  exists (fresh_at (clock (tick w)) r). split.
  - apply IsFresh_run.
  - apply GetCount_run.
Qed.

(** ** The counter through JSON *)

Lemma ParseUint_number_of_Z z :
  is_u64 z -> json.ParseUint (json.number_of_Z z) = Some z.
Proof.
  intros [H0 H1]. unfold json.ParseUint, json.number_of_Z.
  destruct (Z.ltb_spec z 0) as [?|_]; [lia|].
  rewrite Z2N.id by lia. rewrite Z.abs_eq by lia.
  destruct (decide (z < 2 ^ 64)); [reflexivity | lia].
Qed.

Lemma ParseInt_number_of_Z z :
  is_i64 z -> json.ParseInt (json.number_of_Z z) = Some z.
Proof.
  intros Hz. unfold json.ParseInt, json.number_of_Z.
  rewrite Z2N.id by lia.
  destruct (Z.ltb_spec z 0) as [Hn|Hn].
  - rewrite Z.abs_neq by lia. rewrite Z.opp_involutive.
    destruct (decide (is_i64 z)); [reflexivity | contradiction].
  - rewrite Z.abs_eq by lia.
    destruct (decide (is_i64 z)); [reflexivity | contradiction].
Qed.

Lemma year_in_range_UTC t : time.year_in_range (time.UTC t) = time.year_in_range t.
Proof. reflexivity. Qed.

Lemma decode_member_count b n c :
  json.ParseUint n = Some c ->
  decode_member b "count" (json.Number n) = Ok (mkAccessCount c (Start b) (Duration b)).
Proof. intros Hp. unfold decode_member. cbn. now rewrite Hp. Qed.

Lemma decode_member_start b ns :
  time.year_in_range (time.mkTime ns None) = true ->
  decode_member b "start" (json.Timestamp ns)
  = Ok (mkAccessCount (Count b) (time.mkTime ns None) (Duration b)).
Proof. intros Hy. unfold decode_member. cbn [field_of_member List.find fields field_tag String.eqb Ascii.eqb Bool.eqb]. now rewrite Hy. Qed.

Lemma decode_member_duration b n d :
  json.ParseInt n = Some d ->
  decode_member b "duration" (json.Number n) = Ok (mkAccessCount (Count b) (Start b) d).
Proof. intros Hp. unfold decode_member. cbn. now rewrite Hp. Qed.

(** Decoding what [Marshal] wrote, into any struct: the three fields are the
    ones marshalled, the start without its monotonic reading. *)
Lemma Decode_Marshal (a b : accessCount) :
  wf_accessCount a ->
  time.year_in_range (Start a) = true ->
  exists p,
    Marshal a = Ok p /\
    Decode b p = Ok (mkAccessCount (Count a) (time.UTC (Start a)) (Duration a)).
Proof.
  intros [Hc Hd] Hy. unfold Marshal. rewrite Hy. eexists. split; [reflexivity|].
  cbn [Decode decode_members].
  rewrite (decode_member_count _ _ _ (ParseUint_number_of_Z _ Hc)).
  rewrite decode_member_start by exact Hy.
  rewrite (decode_member_duration _ _ _ (ParseInt_number_of_Z _ Hd)).
  reflexivity.
Qed.

Lemma ParseUint_is_u64 n c : json.ParseUint n = Some c -> is_u64 c.
Proof.
  destruct n as [[|] m|]; cbn; try discriminate.
  destruct (decide (Z.of_N m < 2 ^ 64)); [|discriminate].
  intros [= <-]. unfold is_u64. lia.
Qed.

Lemma ParseInt_is_i64 n d : json.ParseInt n = Some d -> is_i64 d.
Proof.
  destruct n as [neg m|]; cbn; [|discriminate].
  destruct (decide (is_i64 (if neg then - Z.of_N m else Z.of_N m))); [|discriminate].
  intros [= <-]. assumption.
Qed.

Lemma decode_member_storable a k v a' :
  storable a -> decode_member a k v = Ok a' -> storable a'.
Proof.
  intros [[Hc Hd] [Hy Hm]]. unfold decode_member.
  destruct (field_of_member k) as [[| |]|];
    destruct v as [|b0|n|s0|ns|l|ms]; try discriminate;
    try (intros [= <-]; exact (conj (conj Hc Hd) (conj Hy Hm))).
  - destruct (json.ParseUint n) eqn:Hp; [|discriminate].
    intros [= <-]. pose proof (ParseUint_is_u64 _ _ Hp) as Hu.
    exact (conj (conj Hu Hd) (conj Hy Hm)).
  - destruct (time.year_in_range (time.mkTime ns None)) eqn:Hr; [|discriminate].
    intros [= <-]. exact (conj (conj Hc Hd) (conj Hr eq_refl)).
  - destruct (json.ParseInt n) eqn:Hp; [|discriminate].
    intros [= <-]. pose proof (ParseInt_is_i64 _ _ Hp) as Hi.
    exact (conj (conj Hc Hi) (conj Hy Hm)).
Qed.

Lemma decode_members_storable ms : forall a a',
  storable a -> decode_members a ms = Ok a' -> storable a'.
Proof.
  induction ms as [|[k v] ms IH]; intros a a' Ha; cbn [decode_members].
  - intros [= <-]. exact Ha.
  - destruct (decode_member a k v) as [a1|e] eqn:Hm; [|discriminate].
    apply IH. exact (decode_member_storable _ _ _ _ Ha Hm).
Qed.

Lemma storable_zero : storable accessCount_zero.
Proof.
  split; [split|split]; [unfold is_u64 | unfold is_i64 | vm_compute | ];
    try reflexivity; cbn; lia.
Qed.

Lemma storable_UTC a :
  storable a -> mkAccessCount (Count a) (time.UTC (Start a)) (Duration a) = a.
Proof.
  intros (_ & _ & Hm). destruct a as [c [wl mn] d]. cbn in *. now subst.
Qed.

Lemma is_u64_u64 z : is_u64 (u64 z).
Proof. unfold is_u64, u64. apply Z.mod_pos_bound. lia. Qed.

Lemma Decode_storable p a : Decode accessCount_zero p = Ok a -> storable a.
Proof.
  destruct p as [|v]; [discriminate|].
  destruct v; try discriminate; cbn [Decode].
  - intros [= <-]. apply storable_zero.
  - apply decode_members_storable, storable_zero.
Qed.

(** ** The controller on a map store *)

Section Controller.

Variable clock : nat -> time.Time.
Implicit Types (c : controller) (id : string) (w : world MapStore).

Lemma GetAccessCount_hit c id w p a :
  data (kv w) !! id = Some p ->
  Decode accessCount_zero p = Ok a ->
  GetAccessCount clock c id w = (Return a, w).
Proof.
  intros Hl Hd. unfold GetAccessCount, bind, get_kv. cbn [Store_Get MapStore_KeyValueStorer].
  unfold MapStore_Get. rewrite Hl. unfold accessCountFromBytes. rewrite Hd. reflexivity.
Qed.

Lemma GetAccessCount_miss c id w :
  data (kv w) !! id = None ->
  GetAccessCount clock c id w =
    (Return (mkAccessCount 0 (time.UTC (clock (tick w))) (Within (quota c))), tock w).
Proof.
  intros Hl. unfold GetAccessCount, bind, get_kv. cbn [Store_Get MapStore_KeyValueStorer].
  unfold MapStore_Get. rewrite Hl. reflexivity.
Qed.

Lemma SetAccessCount_run c id a p w :
  Marshal a = Ok p ->
  SetAccessCount c id a w = (Return tt, store_put id p w).
Proof.
  intros Hm. unfold SetAccessCount. rewrite Hm. reflexivity.
Qed.

Lemma store_put_lookup id p w : data (kv (store_put id p w)) !! id = Some p.
Proof. cbn. apply lookup_insert_eq. Qed.

Lemma store_put_lookup_ne id id' p w :
  id <> id' -> data (kv (store_put id p w)) !! id' = data (kv w) !! id'.
Proof. intros Hne. cbn. now apply lookup_insert_ne. Qed.

(** One [RegisterAccess] on a stored counter that is fresh at the reading
    [Increment] takes. *)
Lemma RegisterAccess_hit_fresh c id w p a :
  mu w = false ->
  data (kv w) !! id = Some p ->
  Decode accessCount_zero p = Ok a ->
  fresh_at (clock (tick w)) a = true ->
  exists p',
    RegisterAccess clock c id w = (Return tt, store_put id p' (tock w)) /\
    Decode accessCount_zero p' =
      Ok (mkAccessCount (u64 (Count a + 1)) (Start a) (Duration a)).
Proof.
  intros Hmu Hl Hd Hf.
  pose proof (Decode_storable _ _ Hd) as ([Hc Hdu] & Hy & Hm).
  set (a' := mkAccessCount (u64 (Count a + 1)) (Start a) (Duration a)).
  assert (Hs' : storable a').
  { split; [split|split]; [apply is_u64_u64 | exact Hdu | exact Hy | exact Hm]. }
  destruct (Decode_Marshal a' accessCount_zero (proj1 Hs') (proj1 (proj2 Hs')))
    as (p' & Hmar & Hdec).
  exists p'. split.
  - destruct w as [t m s]. cbn in Hmu, Hl. subst m.
    unfold RegisterAccess, bind, Lock, defer. cbn [mu tick kv].
    rewrite (GetAccessCount_hit c id _ p a) by assumption.
    rewrite Increment_fresh by exact Hf.
    fold a'. rewrite (SetAccessCount_run c id a' p') by exact Hmar.
    reflexivity.
  - rewrite Hdec. f_equal. apply (storable_UTC a' Hs').
Qed.


(** One [RegisterAccess] with no record under [id], the second reading
    falling within the window opened at the first. *)
Lemma RegisterAccess_miss c id w :
  mu w = false ->
  data (kv w) !! id = None ->
  is_i64 (Within (quota c)) ->
  time.year_in_range (clock (tick w)) = true ->
  fresh_at (clock (Datatypes.S (tick w)))
    (mkAccessCount 0 (time.UTC (clock (tick w))) (Within (quota c))) = true ->
  exists p',
    RegisterAccess clock c id w = (Return tt, store_put id p' (tock (tock w))) /\
    Decode accessCount_zero p' =
      Ok (mkAccessCount 1 (time.UTC (clock (tick w))) (Within (quota c))).
Proof.
  intros Hmu Hl Hwi Hy Hf.
  set (a' := mkAccessCount 1 (time.UTC (clock (tick w))) (Within (quota c))).
  assert (Hs' : storable a').
  { split; [split|split]; [unfold is_u64; cbn; lia | exact Hwi | exact Hy | reflexivity]. }
  destruct (Decode_Marshal a' accessCount_zero (proj1 Hs') (proj1 (proj2 Hs')))
    as (p' & Hmar & Hdec).
  exists p'. split.
  - destruct w as [t m s]. cbn in Hmu, Hl, Hf, a'. subst m.
    unfold RegisterAccess, bind, Lock, defer. cbn [mu tick kv].
    rewrite GetAccessCount_miss by exact Hl.
    rewrite Increment_fresh by exact Hf.
    cbn [Count Start Duration tick].
    change (u64 (0 + 1)) with 1.
    fold a'. rewrite (SetAccessCount_run c id a' p') by exact Hmar.
    reflexivity.
  - rewrite Hdec. f_equal.
Qed.

End Controller.

(** C6.  With no record under [id] in the map store, [GetAccessCount] returns
    (it neither panics nor hands the store's error on) a counter with count 0,
    start the reading of the clock it takes, in UTC, and duration the quota's
    window; the store is as it was. *)
Theorem GetAccessCount_miss_is_new_counter
    (clock : nat -> time.Time) (c : controller) (id : string) (w : world MapStore) :
  data (kv w) !! id = None ->
  (exists e, Store_Get id (kv w) = Err e) /\
  exists a w',
    GetAccessCount clock c id w = (Return a, w') /\
    Count a = 0 /\
    Start a = time.UTC (clock (tick w)) /\
    Duration a = Within (quota c) /\
    kv w' = kv w /\ tick w' = Datatypes.S (tick w).
Proof.
  intros Hl. split.
  - cbn. unfold MapStore_Get. rewrite Hl. eexists. reflexivity.
  - do 2 eexists. split; [apply GetAccessCount_miss, Hl|].
    repeat split.
Qed.

(** C7, as amended.  For a counter [v] of the Go type whose start lies in the
    years 0 to 9999, [SetAccessCount] stores bytes from which
    [accessCountFromBytes] returns a counter with the count of [v], the
    instant of [v]'s start (to the nanosecond; the monotonic reading is not
    serialized) and the duration of [v]. *)
Theorem stored_counter_round_trip
    (c : controller) (id : string) (v : accessCount) (w : world MapStore) :
  wf_accessCount v ->
  time.year_in_range (Start v) = true ->
  exists p v',
    SetAccessCount c id v w = (Return tt, store_put id p w) /\
    data (kv (store_put id p w)) !! id = Some p /\
    (forall (S : Type) (w' : world S), accessCountFromBytes p w' = (Return v', w')) /\
    Count v' = Count v /\
    time.wall (Start v') = time.wall (Start v) /\
    Duration v' = Duration v.
Proof.
  intros Hwf Hy.
  destruct (Decode_Marshal v accessCount_zero Hwf Hy) as (p & Hmar & Hdec).
  exists p. eexists. split; [apply SetAccessCount_run, Hmar|].
  split; [apply store_put_lookup|].
  split.
  - intros S w'. unfold accessCountFromBytes. rewrite Hdec. reflexivity.
  - repeat split.
Qed.

(** C8.  [RetryAt] is the start of the counter [GetAccessCount] returns plus
    the quota's window.  With a record stored under [id] it is the stored
    start plus the window, and a [RegisterAccess] that finds the stored
    counter fresh leaves that value as it was. *)
Theorem RetryAt_start_plus_window
    (clock : nat -> time.Time) (c : controller) (id : string)
    (w : world MapStore) (p : json.bytes) (a : accessCount) :
  data (kv w) !! id = Some p ->
  Decode accessCount_zero p = Ok a ->
  GetAccessCount clock c id w = (Return a, w) /\
  RetryAt clock c id w = (Return (time.Add (Start a) (Within (quota c))), w) /\
  (mu w = false ->
   fst (IsFresh clock a w) = Return true ->
   exists w',
     RegisterAccess clock c id w = (Return tt, w') /\
     RetryAt clock c id w' = (Return (time.Add (Start a) (Within (quota c))), w')).
Proof.
  intros Hl Hd.
  pose proof (GetAccessCount_hit clock c id w p a Hl Hd) as Hg.
  split; [exact Hg|]. split.
  - unfold RetryAt, bind. rewrite Hg. reflexivity.
  - intros Hmu Hf. rewrite IsFresh_run in Hf. cbn [fst] in Hf. injection Hf as Hf.
    destruct (RegisterAccess_hit_fresh clock c id w p a Hmu Hl Hd Hf) as (p' & Hr & Hd').
    eexists. split; [exact Hr|].
    unfold RetryAt, bind.
    rewrite (GetAccessCount_hit clock c id _ p' _ (store_put_lookup id p' _) Hd').
    reflexivity.
Qed.

(** C10.  With a stored counter that is fresh and whose count is above the
    limit, [RemainingLimit] returns limit minus count modulo 2^64, that is
    2^64 less the excess: it is above the limit itself, not zero. *)
Theorem RemainingLimit_wraps
    (clock : nat -> time.Time) (c : controller) (id : string)
    (w : world MapStore) (p : json.bytes) (a : accessCount) :
  is_u64 (Limit (quota c)) ->
  data (kv w) !! id = Some p ->
  Decode accessCount_zero p = Ok a ->
  fst (IsFresh clock a w) = Return true ->
  Limit (quota c) < Count a ->
  exists n,
    RemainingLimit clock c id w = (Return n, tock w) /\
    n = (Limit (quota c) - Count a) mod 2 ^ 64 /\
    n = 2 ^ 64 - (Count a - Limit (quota c)) /\
    Limit (quota c) < n < 2 ^ 64.
Proof.
  intros [HL0 HL1] Hl Hd Hf Hlt.
  rewrite IsFresh_run in Hf. cbn [fst] in Hf. injection Hf as Hf.
  pose proof (Decode_storable _ _ Hd) as ([[Hc0 Hc1] _] & _).
  eexists. split.
  - unfold RemainingLimit, bind.
    rewrite (GetAccessCount_hit clock c id w p a Hl Hd).
    rewrite GetCount_run, Hf. cbn [fst]. reflexivity.
  - assert (He : u64 (Limit (quota c) - Count a)
                 = 2 ^ 64 - (Count a - Limit (quota c))).
    { unfold u64.
      replace (Limit (quota c) - Count a)
        with (2 ^ 64 - (Count a - Limit (quota c)) + (-1) * 2 ^ 64) by ring.
      rewrite Z.mod_add by lia. apply Z.mod_small. lia. }
    split; [reflexivity|]. split; [exact He|]. rewrite He. lia.
Qed.

(** ** Keys *)

Lemma i64_small z : is_i64 z -> i64 z = z.
Proof. intros Hz. unfold i64, is_i64 in *. rewrite Z.mod_small by lia. lia. Qed.

Lemma i64_nonzero_u64 z : 0 < z < 2 ^ 64 -> i64 z <> 0.
Proof.
  intros Hz. unfold i64.
  destruct (Z_lt_dec z (2 ^ 63)).
  - rewrite Z.mod_small by lia. lia.
  - replace (z + 2 ^ 63) with (z - 2 ^ 63 + 1 * 2 ^ 64) by ring.
    rewrite Z.mod_add by lia. rewrite Z.mod_small by lia. lia.
Qed.

Lemma is_i64_i64 z : is_i64 (i64 z).
Proof.
  unfold is_i64, i64.
  pose proof (Z.mod_pos_bound (z + 2 ^ 63) (2 ^ 64) ltac:(lia)). lia.
Qed.

Lemma string_app_inv_tail (t : string) : forall s1 s2 : string,
  (s1 +:+ t = s2 +:+ t)%string -> s1 = s2.
Proof.
  assert (Hlen : forall s : string, String.length (s +:+ t) = (String.length s + String.length t)%nat).
  { induction s as [|a s IHs]; [reflexivity|].
    change (Datatypes.S (String.length (s +:+ t))
            = Datatypes.S (String.length s + String.length t)).
    now rewrite IHs. }
  induction s1 as [|a s1 IH]; intros [|b s2] Heq.
  - reflexivity.
  - apply (f_equal String.length) in Heq. rewrite !Hlen in Heq. cbn in Heq. lia.
  - apply (f_equal String.length) in Heq. rewrite !Hlen in Heq. cbn in Heq. lia.
  - cbn in Heq. injection Heq as -> Heq. f_equal. now apply IH.
Qed.

Lemma makeKey_three (prefix k identity : string) :
  makeKey [prefix; k; identity] = (prefix +:+ "_" +:+ k +:+ "_" +:+ identity)%string.
Proof. reflexivity. Qed.

Lemma makeKey_inj_middle (prefix k1 k2 identity : string) :
  makeKey [prefix; k1; identity] = makeKey [prefix; k2; identity] <-> k1 = k2.
Proof.
  split; [|now intros ->].
  rewrite !makeKey_three. intros Heq.
  apply (inj (String.app prefix)) in Heq.
  apply (inj (String.app "_")) in Heq.
  now apply string_app_inv_tail in Heq.
Qed.

(** The quotient [KeyId] prints, for a limit and a window of the Go types,
    both positive. *)
Lemma KeyId_quotient q :
  0 < Limit q < 2 ^ 64 -> 0 < Within q < 2 ^ 63 ->
  KeyId q = Return (FormatInt (Z.quot (Within q) (i64 (Limit q)))).
Proof.
  intros HL HW. unfold KeyId.
  pose proof (i64_nonzero_u64 _ HL) as Hnz.
  pose proof (is_i64_i64 (Limit q)) as Hr.
  destruct (Z.eqb_spec (i64 (Limit q)) 0) as [?|_]; [contradiction|].
  rewrite (i64_small (Within q)) by (unfold is_i64; lia).
  rewrite i64_small; [reflexivity|].
  unfold is_i64 in *.
  assert (Habs : Z.abs (Within q ÷ i64 (Limit q)) <= Z.abs (Within q)).
  { rewrite <- Z.quot_abs by exact Hnz.
    rewrite Z.quot_div_nonneg by lia.
    apply Z.div_le_upper_bound; [lia|]. nia. }
  lia.
Qed.

(** What [KeyId] tells apart.  For two quotas with positive limit and
    window, the key-ids are equal exactly when the truncated quotients of
    window by limit are equal; under one prefix and for one identity the
    store keys differ exactly when the key-ids do. *)
Theorem KeyId_equal_iff_same_quotient (q1 q2 : Quota) :
  0 < Limit q1 < 2 ^ 64 -> 0 < Within q1 < 2 ^ 63 ->
  0 < Limit q2 < 2 ^ 64 -> 0 < Within q2 < 2 ^ 63 ->
  exists k1 k2,
    KeyId q1 = Return k1 /\ KeyId q2 = Return k2 /\
    (k1 = k2 <->
     Z.quot (Within q1) (i64 (Limit q1)) = Z.quot (Within q2) (i64 (Limit q2))) /\
    forall prefix identity : string,
      makeKey [prefix; k1; identity] <> makeKey [prefix; k2; identity] <-> k1 <> k2.
Proof.
  intros HL1 HW1 HL2 HW2.
  do 2 eexists. split; [apply KeyId_quotient; assumption|].
  split; [apply KeyId_quotient; assumption|]. split.
  - unfold FormatInt. split; [apply (inj pretty) | now intros ->].
  - intros prefix identity. now rewrite makeKey_inj_middle.
Qed.

(** ** Sequences of accesses *)

Lemma fresh_at_within now r :
  0 < Duration r < 2 ^ 63 ->
  time.wall now - time.wall (Start r) < Duration r ->
  fresh_at now r = true.
Proof.
  intros Hd Hlt. unfold fresh_at, time.Sub, time.UTC. cbn [time.mono time.wall].
  unfold time.saturate, time.minDuration, time.maxDuration.
  apply Z.ltb_lt.
  destruct (Z.ltb_spec (time.wall now - time.wall (Start r)) (- 2 ^ 63)); [lia|].
  destruct (Z.ltb_spec (2 ^ 63 - 1) (time.wall now - time.wall (Start r))); lia.
Qed.

Section Sequence.

Variable clock : nat -> time.Time.
Variables (c : controller) (id : string).

Lemma holds_tock a w : holds id a w -> holds id a (tock w).
Proof. intros [Hmu Hp]. split; assumption. Qed.

Lemma DeniesAccess_holds a w :
  holds id a w ->
  fresh_at (clock (tick w)) a = true ->
  DeniesAccess clock c id w = (Return (Limit (quota c) <=? Count a), tock w).
Proof.
  intros (_ & p & Hl & Hd) Hf. unfold DeniesAccess, bind.
  rewrite (GetAccessCount_hit clock c id w p a Hl Hd).
  rewrite GetCount_run, Hf. reflexivity.
Qed.

Lemma RegisterAccess_holds a w :
  holds id a w ->
  fresh_at (clock (tick w)) a = true ->
  exists w',
    RegisterAccess clock c id w = (Return tt, w') /\
    tick w' = Datatypes.S (tick w) /\
    holds id (mkAccessCount (u64 (Count a + 1)) (Start a) (Duration a)) w'.
Proof.
  intros (Hmu & p & Hl & Hd) Hf.
  destruct (RegisterAccess_hit_fresh clock c id w p a Hmu Hl Hd Hf) as (p' & Hr & Hd').
  eexists. split; [exact Hr|]. split; [reflexivity|].
  split; [exact Hmu|]. exists p'. split; [apply store_put_lookup | exact Hd'].
Qed.

(** From a stored counter with count [k]: the answers of [n] more rounds,
    every reading falling within the window. *)
Lemma register_and_check_from (t0 : time.Time) (d : time.Duration) (n : nat) :
  0 < d < 2 ^ 63 ->
  forall (k : nat) (w : world MapStore),
    Z.of_nat k + Z.of_nat n < 2 ^ 64 ->
    holds id (mkAccessCount (Z.of_nat k) t0 d) w ->
    (forall i, (tick w <= i < tick w + 2 * n)%nat ->
               time.wall (clock i) - time.wall t0 < d) ->
    fst (register_and_check clock c id n w)
    = Return (List.map (fun j => Limit (quota c) <=? Z.of_nat j) (seq (Datatypes.S k) n)).
Proof.
  intros Hd. induction n as [|n IH]; intros k w Hk Hh Hclk; [reflexivity|].
  cbn [register_and_check seq List.map]. unfold bind at 1.
  destruct (RegisterAccess_holds _ w Hh) as (w1 & Hr & Ht1 & Hh1).
  { apply fresh_at_within; cbn [Duration Start]; [exact Hd|]. apply Hclk. lia. }
  rewrite Hr. cbn [Count Start Duration] in Hh1.
  assert (Hu : u64 (Z.of_nat k + 1) = Z.of_nat (Datatypes.S k)).
  { unfold u64. rewrite Z.mod_small by lia. lia. }
  rewrite Hu in Hh1.
  unfold bind at 1. rewrite (DeniesAccess_holds _ w1 Hh1).
  2:{ apply fresh_at_within; cbn [Duration Start]; [exact Hd|]. apply Hclk. lia. }
  cbn [Count]. unfold bind at 1.
  specialize (IH (Datatypes.S k) (tock w1)).
  destruct (register_and_check clock c id n (tock w1)) as [o w2] eqn:Hrec.
  cbn [fst] in IH. rewrite IH; [reflexivity | lia | apply holds_tock, Hh1 |].
  intros i Hi. apply Hclk. cbn [tock tick] in Hi. lia.
Qed.

End Sequence.

(** C1, as amended.  For an identity without a record, [n] rounds of
    [RegisterAccess] then [DeniesAccess], every reading of the clock falling
    within the window of the first: the answer after the [j]-th call is
    whether the limit is at most [j].  So [DeniesAccess] is false after each
    of the first [L-1] calls and true after the [L]-th and after every later
    one. *)
Theorem DeniesAccess_after_each_call
    (clock : nat -> time.Time) (c : controller) (id : string) (n : nat)
    (w : world MapStore) :
  0 < Within (quota c) < 2 ^ 63 ->
  mu w = false ->
  data (kv w) !! id = None ->
  time.year_in_range (clock (tick w)) = true ->
  Z.of_nat n < 2 ^ 64 ->
  (forall i, (tick w < i <= tick w + 2 * n)%nat ->
             time.wall (clock i) - time.wall (clock (tick w)) < Within (quota c)) ->
  fst (register_and_check clock c id n w)
  = Return (List.map (fun j => Limit (quota c) <=? Z.of_nat j) (seq 1 n)).
Proof.
  intros HW Hmu Hl Hy Hn Hclk. destruct n as [|n]; [reflexivity|].
  cbn [register_and_check seq List.map]. unfold bind at 1.
  set (a0 := mkAccessCount 0 (time.UTC (clock (tick w))) (Within (quota c))).
  assert (Hf0 : fresh_at (clock (Datatypes.S (tick w))) a0 = true).
  { apply fresh_at_within; cbn [Duration Start a0 time.UTC time.wall]; [exact HW|].
    apply Hclk. lia. }
  destruct (RegisterAccess_miss clock c id w Hmu Hl ltac:(unfold is_i64; lia) Hy Hf0)
    as (p' & Hr & Hd').
  rewrite Hr.
  set (w1 := store_put id p' (tock (tock w))).
  assert (Hh1 : holds id (mkAccessCount (Z.of_nat 1) (time.UTC (clock (tick w)))
                            (Within (quota c))) w1).
  { split; [exact Hmu|]. exists p'. split; [apply store_put_lookup | exact Hd']. }
  unfold bind at 1. rewrite (DeniesAccess_holds clock c id _ w1 Hh1).
  2:{ apply fresh_at_within; cbn [Duration Start time.UTC time.wall]; [exact HW|].
      apply Hclk. cbn. lia. }
  cbn [Count]. unfold bind at 1.
  pose proof (register_and_check_from clock c id (time.UTC (clock (tick w)))
                (Within (quota c)) n HW 1%nat (tock w1)) as Hfrom.
  destruct (register_and_check clock c id n (tock w1)) as [o w2] eqn:Hrec.
  cbn [fst] in Hfrom. rewrite Hfrom; [reflexivity | lia | apply holds_tock, Hh1 |].
  intros i Hi. cbn [time.UTC time.wall]. apply Hclk. cbn in Hi. lia.
Qed.

(** ** Goroutines calling [RegisterAccess] on one controller *)

(** *** Counting goroutines *)

Local Open Scope nat_scope.









Local Close Scope nat_scope.

(** *** The invariant of the goroutines *)







Section NoLostUpdate.

Variable clock : nat -> time.Time.
Variables (c : controller) (id : string).
Variable N : nat.
Variable w0 : world MapStore.
Variable base : accessCount.

Hypothesis Hmu0 : mu w0 = false.
Hypothesis Hbase : fst (GetAccessCount clock c id w0) = Return base.
Hypothesis Hdur : 0 < Duration base < 2 ^ 63.
Hypothesis Hyear : time.year_in_range (Start base) = true.
Hypothesis Hwin : forall i, (tick w0 <= i < tick w0 + 2 * N)%nat ->
  time.wall (clock i) - time.wall (Start base) < Duration base.







End NoLostUpdate.

(** *** No goroutine waits for ever, and every run ends *)

Section Progress.

Variable clock : nat -> time.Time.
Variables (c : controller) (id : string).











End Progress.


(** ** The sweep of the map store *)

Section Sweep.

Variable clock : nat -> time.Time.

(** No member of the decoded object reaches a field of the binding: the
    Value is not addressable, so [CanSet] is false. *)
Lemma Read_members_skip (ms : list (string * json.value)) (w : world MapStore) :
  Read_members ms w = (Return tt, w).
Proof.
  induction ms as [|[k v] ms IH]; [reflexivity|].
  cbn [Read_members]. unfold bind.
  replace (IsValid (FieldByName k) && CanSet (FieldByName k)) with false.
  - cbn. exact IH.
  - unfold CanSet, IsValid, FieldByName. cbn [v_field v_addressable].
    now destruct (List.find _ fields).
Qed.

(** [Read] of a stored object returns the binding as it is. *)
Lemma MapStore_Read_object key ms (w : world MapStore) :
  data (kv w) !! key = Some (json.Text (json.Object ms)) ->
  MapStore_Read key w = (Return (Ok (binding (kv w))), w).
Proof.
  intros Hl. unfold MapStore_Read, bind, get_kv, MapStore_Get.
  rewrite Hl. cbn [Decode_any]. rewrite Read_members_skip. reflexivity.
Qed.

(** The binding [accessCount{}] is not fresh at any reading after the zero
    time. *)
Lemma zero_binding_stale (now : time.Time) :
  0 <= time.wall now -> fresh_at now accessCount_zero = false.
Proof.
  intros Hn. unfold fresh_at, time.Sub. cbn.
  unfold time.saturate, time.minDuration, time.maxDuration.
  rewrite Z.sub_0_r.
  destruct (Z.ltb_spec (time.wall now) (- 2 ^ 63)); [lia|].
  destruct (Z.ltb_spec (2 ^ 63 - 1) (time.wall now)); lia.
Qed.

(** A store holding one record, of whatever counter, is empty after
    [Clean]. *)
Lemma Clean_single_record key ms t m :
  0 <= time.wall (clock t) ->
  MapStore_Clean clock
    (mkWorld t m (mkMapStore {[ key := json.Text (json.Object ms) ]} accessCount_zero))
  = (Return tt, mkWorld (Datatypes.S t) m (mkMapStore ∅ accessCount_zero)).
Proof.
  intros Hn. unfold MapStore_Clean, bind at 1, get_kv. cbn [kv data].
  rewrite map_to_list_singleton. cbn [fmap list_fmap fst Clean_keys].
  unfold bind at 1.
  rewrite (MapStore_Read_object key ms) by apply lookup_singleton_eq.
  cbn [kv binding]. unfold bind at 1. rewrite IsFresh_run. cbn [tick].
  rewrite (zero_binding_stale _ Hn). cbn [negb].
  unfold bind, get_kv, put_kv, MapStore_Delete, tock, ret. cbn.
  now rewrite delete_singleton_eq.
Qed.

End Sweep.

(** ** The claims on the sample values *)

Ltac machine_range :=
  unfold wf_accessCount, is_u64, is_i64, sample_counter, sample_controller,
    sample_quota, time.Hour, time.Minute, time.Second, time.Millisecond;
  cbn [Count Duration Limit Within quota fst newController];
  lia.


Lemma sample_clock_within (n : nat) (d : time.Duration) :
  Z.of_nat n * time.Millisecond < d ->
  time.wall (sample_clock n) - time.wall (sample_clock 0) < d.
Proof. unfold sample_clock. cbn [time.wall]. lia. Defined.

Lemma sample_clock_within_ten (i k : nat) :
  (tick sample_world < i <= tick sample_world + k)%nat -> (k < 10)%nat ->
  time.wall (sample_clock i) - time.wall (sample_clock (tick sample_world))
  < 10 * time.Millisecond.
Proof.
  change (tick sample_world) with 0%nat. intros Hi Hk.
  apply sample_clock_within. unfold time.Millisecond. lia.
Defined.

(** C1, the claim as stated fails: with limit 1 the first call already leaves
    [DeniesAccess] true, where the claim has it false after each of the first
    [L] calls. *)
Lemma DeniesAccess_true_after_first_call_of_limit_1 :
  let c := mkController (mkQuota 1 (10 * time.Millisecond)) in
  data (kv sample_world) !! sample_id = None /\
  (forall i, (tick sample_world < i <= tick sample_world + 2 * 2)%nat ->
     time.wall (sample_clock i) - time.wall (sample_clock (tick sample_world))
     < Within (quota c)) /\
  fst (register_and_check sample_clock c sample_id 2 sample_world)
  = Return [true; true].
Proof.
  cbv zeta. split; [reflexivity|]. split; [|vm_compute; reflexivity].
  intros i Hi. apply (sample_clock_within_ten i (2 * 2) Hi). cbn. lia.
Qed.

(** Limit 2 on the sample clock: false, true, true after the three calls. *)
Lemma DeniesAccess_after_each_call_witness :
  fst (register_and_check sample_clock sample_controller sample_id 3 sample_world)
  = Return [false; true; true].
Proof.
  apply (DeniesAccess_after_each_call sample_clock sample_controller sample_id 3 sample_world).
  - machine_range.
  - reflexivity.
  - reflexivity.
  - vm_compute. reflexivity.
  - cbn. lia.
  - intros i Hi. apply (sample_clock_within_ten i (2 * 3) Hi). cbn. lia.
Defined.

(** C2, at the failing input: the store holds one counter, opened at the
    reading before the sweep and lasting an hour.  [accessCountFromBytes]
    reads it back and [IsFresh] answers true on it at the reading of the
    sweep, yet [Read] hands [Clean] the empty binding and [Clean] deletes the
    record. *)
Theorem Clean_deletes_a_fresh_counter :
  let a := sample_counter 1 time.Hour in
  let w := world_with a 1 in
  data (kv w) !! sample_id = Some (marshalled a) /\
  accessCountFromBytes (marshalled a) w = (Return a, w) /\
  fst (IsFresh sample_clock a w) = Return true /\
  MapStore_Read sample_id w = (Return (Ok accessCount_zero), w) /\
  exists w',
    MapStore_Clean sample_clock w = (Return tt, w') /\
    data (kv w') !! sample_id = None.
Proof.
  cbv zeta. split; [reflexivity|]. split; [vm_compute; reflexivity|].
  split; [vm_compute; reflexivity|]. split.
  - apply (MapStore_Read_object sample_id
             [("count"%string, json.Number (json.number_of_Z 1));
              ("start"%string, json.Timestamp (time.wall (sample_clock 0)));
              ("duration"%string, json.Number (json.number_of_Z time.Hour))]).
    reflexivity.
  - eexists. split.
    + apply (Clean_single_record sample_clock sample_id
               [("count"%string, json.Number (json.number_of_Z 1));
                ("start"%string, json.Timestamp (time.wall (sample_clock 0)));
                ("duration"%string, json.Number (json.number_of_Z time.Hour))] 1%nat false).
      vm_compute. discriminate.
    + reflexivity.
Qed.

(** C3, at the failing input: one request a second and two requests in two
    seconds are distinct quotas with the same key-id, hence the same store
    key for one identity, where the source has one counter per policy and
    user.  One access registered under the second policy is counted by the
    first: the first policy then denies a user it has not seen. *)
Lemma KeyId_collision :
  let q1 := mkQuota 1 time.Second in
  let q2 := mkQuota 2 (2 * time.Second) in
  let id := "throttle_1000000000_1.2.3.4"%string in
  q1 <> q2 /\
  KeyId q1 = Return "1000000000"%string /\
  KeyId q2 = Return "1000000000"%string /\
  makeKey ["throttle"; "1000000000"; "1.2.3.4"]%string = id /\
  fst (DeniesAccess sample_clock (mkController q1) id sample_world) = Return false /\
  fst (RegisterAccess sample_clock (mkController q2) id sample_world) = Return tt /\
  fst (DeniesAccess sample_clock (mkController q1) id
         (snd (RegisterAccess sample_clock (mkController q2) id sample_world)))
  = Return true.
Proof.
  cbv zeta. split; [discriminate|]. repeat split; vm_compute; reflexivity.
Qed.

(** One request a second and three requests a second have different keys. *)
Lemma KeyId_equal_iff_same_quotient_witness :
  exists k1 k2,
    KeyId (mkQuota 1 time.Second) = Return k1 /\
    KeyId (mkQuota 3 time.Second) = Return k2 /\
    makeKey ["throttle"; k1; "1.2.3.4"]%string <> makeKey ["throttle"; k2; "1.2.3.4"]%string.
Proof.
  destruct (KeyId_equal_iff_same_quotient (mkQuota 1 time.Second) (mkQuota 3 time.Second))
    as (k1 & k2 & H1 & H2 & Hq & Hk);
    try (cbn [Limit Within]; unfold time.Second; lia).
  exists k1, k2. split; [exact H1|]. split; [exact H2|].
  apply Hk. intros Heq. apply Hq in Heq. vm_compute in Heq. discriminate.
Defined.


(** A fresh counter with count 3 on the sample clock. *)
Lemma Increment_leaves_fresh_witness :
  0 < Duration (sample_counter 3 (10 * time.Millisecond)) /\
  exists r',
    Increment sample_clock (sample_counter 3 (10 * time.Millisecond)) (world_with accessCount_zero 1)
    = (Return r', tock (world_with accessCount_zero 1)) /\
    Count r' = 4.
Proof.
  assert (Hd : 0 < Duration (sample_counter 3 (10 * time.Millisecond))).
  { machine_range. }
  split; [exact Hd|].
  destruct (Increment_leaves_fresh sample_clock MapStore
              (sample_counter 3 (10 * time.Millisecond)) (world_with accessCount_zero 1) Hd)
    as [Hfresh _].
  destruct (Hfresh eq_refl) as (r' & Hrun & Hc & _).
  exists r'. split; [exact Hrun|]. rewrite Hc. reflexivity.
Defined.

(** The sample world has no record. *)
Lemma GetAccessCount_miss_is_new_counter_witness :
  data (kv sample_world) !! sample_id = None /\
  exists a w',
    GetAccessCount sample_clock sample_controller sample_id sample_world = (Return a, w') /\
    Count a = 0 /\ Duration a = 10 * time.Millisecond.
Proof.
  split; [reflexivity|].
  destruct (GetAccessCount_miss_is_new_counter sample_clock sample_controller sample_id
              sample_world eq_refl)
    as (_ & a & w' & Hrun & Hc & _ & Hd & _).
  exists a, w'. split; [exact Hrun|]. split; [exact Hc | exact Hd].
Defined.

(** C7, the claim as stated fails: a counter whose start is in the year 10000
    is a value of the type, and [SetAccessCount] panics on it, so there are
    no bytes to read back. *)
Lemma year_10000_is_not_serialized :
  let v := mkAccessCount 5 (time.mkTime time.year10000 None) (10 * time.Millisecond) in
  wf_accessCount v /\
  (forall p, Marshal v <> Ok p) /\
  fst (SetAccessCount sample_controller sample_id v sample_world)
  = Panic "json: error calling MarshalJSON for type time.Time: Time.MarshalJSON: year outside of range [0,9999]" /\
  data (kv (snd (SetAccessCount sample_controller sample_id v sample_world))) !! sample_id = None.
Proof.
  cbv zeta. split; [|split; [|split]].
  - machine_range.
  - intros p. vm_compute. discriminate.
  - vm_compute. reflexivity.
  - reflexivity.
Qed.

(** A counter started at a reading of the sample clock, monotonic reading
    included. *)
Lemma stored_counter_round_trip_witness :
  let v := mkAccessCount 5 (sample_clock 0) (10 * time.Millisecond) in
  wf_accessCount v /\
  time.year_in_range (Start v) = true /\
  exists p v',
    SetAccessCount sample_controller sample_id v sample_world
    = (Return tt, store_put sample_id p sample_world) /\
    accessCountFromBytes p sample_world = (Return v', sample_world) /\
    Count v' = 5 /\
    time.wall (Start v') = sample_instant /\
    Duration v' = 10 * time.Millisecond.
Proof.
  cbv zeta.
  assert (Hwf : wf_accessCount (mkAccessCount 5 (sample_clock 0) (10 * time.Millisecond))).
  { machine_range. }
  split; [exact Hwf|]. split; [vm_compute; reflexivity|].
  destruct (stored_counter_round_trip sample_controller sample_id
              (mkAccessCount 5 (sample_clock 0) (10 * time.Millisecond)) sample_world Hwf)
    as (p & v' & Hset & _ & Hget & Hc & Hs & Hd); [vm_compute; reflexivity|].
  exists p, v'. split; [exact Hset|]. split; [apply Hget|].
  split; [exact Hc|]. split; [|exact Hd].
  rewrite Hs. vm_compute. reflexivity.
Defined.

(** A record with count 1 under the sample quota. *)
Lemma RetryAt_start_plus_window_witness :
  let a := sample_counter 1 (10 * time.Millisecond) in
  let w := world_with a 2 in
  data (kv w) !! sample_id = Some (marshalled a) /\
  Decode accessCount_zero (marshalled a) = Ok a /\
  RetryAt sample_clock sample_controller sample_id w
  = (Return (time.mkTime (sample_instant + 10 * time.Millisecond) None), w) /\
  exists w',
    RegisterAccess sample_clock sample_controller sample_id w = (Return tt, w') /\
    RetryAt sample_clock sample_controller sample_id w'
    = (Return (time.mkTime (sample_instant + 10 * time.Millisecond) None), w').
Proof.
  cbv zeta.
  assert (Hl : data (kv (world_with (sample_counter 1 (10 * time.Millisecond)) 2)) !! sample_id
               = Some (marshalled (sample_counter 1 (10 * time.Millisecond)))) by reflexivity.
  assert (Hd : Decode accessCount_zero (marshalled (sample_counter 1 (10 * time.Millisecond)))
               = Ok (sample_counter 1 (10 * time.Millisecond))) by (vm_compute; reflexivity).
  split; [exact Hl|]. split; [exact Hd|].
  destruct (RetryAt_start_plus_window sample_clock sample_controller sample_id _ _ _ Hl Hd)
    as (_ & Hretry & Hkeep).
  split; [exact Hretry|].
  exact (Hkeep eq_refl eq_refl).
Defined.

(** Count 3 under limit 2: the remaining limit is 2^64 - 1. *)
Lemma RemainingLimit_wraps_witness :
  let a := sample_counter 3 (10 * time.Millisecond) in
  let w := world_with a 2 in
  is_u64 (Limit (quota sample_controller)) /\
  Limit (quota sample_controller) < Count a /\
  RemainingLimit sample_clock sample_controller sample_id w
  = (Return 18446744073709551615, tock w).
Proof.
  cbv zeta.
  assert (HL : is_u64 (Limit (quota sample_controller))) by machine_range.
  split; [exact HL|]. split; [machine_range|].
  destruct (RemainingLimit_wraps sample_clock sample_controller sample_id
              (world_with (sample_counter 3 (10 * time.Millisecond)) 2)
              (marshalled (sample_counter 3 (10 * time.Millisecond)))
              (sample_counter 3 (10 * time.Millisecond)) HL)
    as (n & Hrun & _ & Hn & _).
  - reflexivity.
  - vm_compute. reflexivity.
  - reflexivity.
  - machine_range.
  - rewrite Hrun. rewrite Hn. reflexivity.
Defined.

(** * Further properties of the controller *)

Section AnyStore.

Variable clock : nat -> time.Time.
Context {S : Type} `{KeyValueStorer S}.
Implicit Types (c : controller) (id : string) (w : world S).

Lemma GetAccessCount_leaves_world c id w :
  exists o w',
    GetAccessCount clock c id w = (o, w') /\ o <> Blocked /\
    mu w' = mu w /\ kv w' = kv w.
Proof.
  unfold GetAccessCount, bind, get_kv.
  destruct (Store_Get id (kv w)) as [b|e].
  - unfold accessCountFromBytes. destruct (Decode accessCount_zero b) as [a|e];
      do 2 eexists; (split; [reflexivity|]); repeat split; discriminate.
  - do 2 eexists. split; [reflexivity|]. repeat split. discriminate.
Qed.

Lemma Increment_leaves_world (a : accessCount) w :
  exists a' w',
    Increment clock a w = (Return a', w') /\ mu w' = mu w /\ kv w' = kv w.
Proof.
  destruct (fresh_at (clock (tick w)) a) eqn:Hf.
  - rewrite (Increment_fresh clock a w Hf). do 2 eexists. repeat split.
  - rewrite (Increment_stale clock a w Hf). do 2 eexists. repeat split.
Qed.

Lemma SetAccessCount_keeps_mutex c id (a : accessCount) w :
  exists o w',
    SetAccessCount c id a w = (o, w') /\ o <> Blocked /\ mu w' = mu w.
Proof.
  unfold SetAccessCount. destruct (Marshal a) as [b|e].
  - unfold bind, get_kv. destruct (Store_Set id b (kv w)) as [s' [e|]];
      do 2 eexists; (split; [reflexivity|]); split; try discriminate; reflexivity.
  - do 2 eexists. split; [reflexivity|]. split; [discriminate | reflexivity].
Qed.

End AnyStore.

(** X1.  Whatever the store is and whatever it holds, a call of
    [RegisterAccess] that finds the mutex free ends, by returning or by
    panicking, with the mutex free again; one that finds it taken blocks and
    changes nothing. *)
Theorem RegisterAccess_releases_mutex
    (clock : nat -> time.Time) (S : Type) (KV : KeyValueStorer S)
    (c : controller) (id : string) (w : world S) :
  (mu w = false ->
   exists o w',
     RegisterAccess clock c id w = (o, w') /\ o <> Blocked /\ mu w' = false) /\
  (mu w = true -> RegisterAccess clock c id w = (Blocked, w)).
Proof.
  split; intros Hmu.
  - destruct w as [t m s]. cbn in Hmu. subst m.
    unfold RegisterAccess, bind at 1, defer, Lock. cbn [mu tick kv].
    set (w1 := mkWorld t true s).
    destruct (GetAccessCount_leaves_world clock c id w1) as (o1 & w2 & Hg & Hnb1 & Hmu2 & _).
    unfold bind at 1. rewrite Hg.
    destruct o1 as [a|msg|]; [| |contradiction].
    + destruct (Increment_leaves_world clock a w2) as (a' & w3 & Hi & Hmu3 & _).
      unfold bind at 1. rewrite Hi.
      destruct (SetAccessCount_keeps_mutex c id a' w3) as (o3 & w4 & Hs & Hnb3 & Hmu4).
      rewrite Hs.
      assert (Hm4 : mu w4 = true) by (rewrite Hmu4, Hmu3, Hmu2; reflexivity).
      destruct o3 as [[]|msg|]; [| |contradiction];
        unfold Unlock; rewrite Hm4; do 2 eexists;
        (split; [reflexivity|]); split; try discriminate; reflexivity.
    + assert (Hm2 : mu w2 = true) by (rewrite Hmu2; reflexivity).
      unfold Unlock. rewrite Hm2. do 2 eexists.
      split; [reflexivity|]. split; [discriminate | reflexivity].
  - unfold RegisterAccess, bind, Lock. rewrite Hmu. reflexivity.
Qed.

Lemma SetAccessCount_writes_one_key c id (a : accessCount) (w : world MapStore) :
  exists o w',
    SetAccessCount c id a w = (o, w') /\ o <> Blocked /\ mu w' = mu w /\
    (kv w' = kv w \/
     exists ms, kv w' = mkMapStore (<[id := json.Text (json.Object ms)]> (data (kv w)))
                                   (binding (kv w))).
Proof.
  unfold SetAccessCount, Marshal. destruct (time.year_in_range (Start a)).
  - do 2 eexists. split; [reflexivity|]. split; [discriminate|].
    split; [reflexivity|]. right. eexists. reflexivity.
  - do 2 eexists. split; [reflexivity|]. split; [discriminate|].
    split; [reflexivity|]. now left.
Qed.

(** The store after [RegisterAccess(id)]: as before, or with one value put
    under [id], a JSON object. *)
Lemma RegisterAccess_store (clock : nat -> time.Time) c id (w : world MapStore) o w' :
  RegisterAccess clock c id w = (o, w') ->
  kv w' = kv w \/
  exists ms, kv w' = mkMapStore (<[id := json.Text (json.Object ms)]> (data (kv w)))
                                (binding (kv w)).
Proof.
  destruct w as [t m s].
  unfold RegisterAccess, bind at 1, defer, Lock. cbn [mu tick kv].
  destruct m; [intros [= <- <-]; now left|].
  set (w1 := mkWorld t true s).
  destruct (GetAccessCount_leaves_world clock c id w1) as (o1 & w2 & Hg & Hnb1 & Hmu2 & Hkv2).
  unfold bind at 1. rewrite Hg.
  assert (Hm2 : mu w2 = true) by (rewrite Hmu2; reflexivity).
  destruct o1 as [a|msg|]; [| |contradiction].
  - destruct (Increment_leaves_world clock a w2) as (a' & w3 & Hi & Hmu3 & Hkv3).
    unfold bind at 1. rewrite Hi.
    destruct (SetAccessCount_writes_one_key c id a' w3) as (o3 & w4 & Hs & Hnb3 & Hmu4 & Hkv4).
    rewrite Hs.
    assert (Hm4 : mu w4 = true) by (rewrite Hmu4, Hmu3; exact Hm2).
    rewrite Hkv3, Hkv2 in Hkv4. cbn [kv w1] in Hkv4.
    destruct o3 as [[]|msg|]; [| |contradiction];
      unfold Unlock; rewrite Hm4; intros [= <- <-]; cbn [kv]; exact Hkv4.
  - unfold Unlock. rewrite Hm2. intros [= <- <-]. cbn [kv]. left. exact Hkv2.
Qed.

(** X2.  On a map store, [RegisterAccess(id)] leaves every other key as it
    was, and the binding too, also when it panics. *)
Theorem RegisterAccess_touches_one_key
    (clock : nat -> time.Time) (c : controller) (id id' : string)
    (w : world MapStore) :
  id <> id' ->
  data (kv (snd (RegisterAccess clock c id w))) !! id' = data (kv w) !! id' /\
  binding (kv (snd (RegisterAccess clock c id w))) = binding (kv w).
Proof.
  intros Hne. destruct (RegisterAccess clock c id w) as [o w'] eqn:Hrun.
  cbn [snd]. destruct (RegisterAccess_store clock c id w o w' Hrun) as [->|[b ->]].
  - split; reflexivity.
  - cbn [data binding]. split; [now apply lookup_insert_ne | reflexivity].
Qed.

(** X3.  The window is half open.  For a counter whose duration is an
    [int64] above the least one, [IsFresh] answers true exactly when the
    reading is less than the duration after the start on the wall clock: at
    start plus duration the counter is already stale, and a reading before
    the start finds it fresh.  [Sub]'s saturation does not change the
    answer. *)
Theorem IsFresh_iff_within_window
    (clock : nat -> time.Time) (S : Type) (r : accessCount) (w : world S) :
  - 2 ^ 63 < Duration r < 2 ^ 63 ->
  (fst (IsFresh clock r w) = Return true <->
   time.wall (clock (tick w)) < time.wall (Start r) + Duration r) /\
  snd (IsFresh clock r w) = tock w.
Proof.
  intros Hd. rewrite IsFresh_run. cbn [fst snd]. split; [|reflexivity].
  unfold fresh_at, time.Sub, time.UTC. cbn [time.mono time.wall].
  set (d := time.wall (clock (tick w)) - time.wall (Start r)).
  assert (Hiff : (time.saturate d <? Duration r) = true <-> d < Duration r).
  { rewrite Z.ltb_lt. unfold time.saturate, time.minDuration, time.maxDuration.
    destruct (Z.ltb_spec d (- 2 ^ 63)); [lia|].
    destruct (Z.ltb_spec (2 ^ 63 - 1) d); lia. }
  split; intros Hx.
  - injection Hx as Hx. apply Hiff in Hx. subst d. lia.
  - f_equal. apply Hiff. subst d. lia.
Qed.

Section Queries.

Variable clock : nat -> time.Time.
Implicit Types (c : controller) (id : string) (w : world MapStore).

Lemma DeniesAccess_hit c id w p a :
  data (kv w) !! id = Some p ->
  Decode accessCount_zero p = Ok a ->
  DeniesAccess clock c id w
  = (Return (Limit (quota c) <=? (if fresh_at (clock (tick w)) a then Count a else 0)),
     tock w).
Proof.
  intros Hl Hd. unfold DeniesAccess, bind.
  rewrite (GetAccessCount_hit clock c id w p a Hl Hd), GetCount_run. reflexivity.
Qed.

Lemma RemainingLimit_hit c id w p a :
  data (kv w) !! id = Some p ->
  Decode accessCount_zero p = Ok a ->
  RemainingLimit clock c id w
  = (Return (u64 (Limit (quota c) - (if fresh_at (clock (tick w)) a then Count a else 0))),
     tock w).
Proof.
  intros Hl Hd. unfold RemainingLimit, bind.
  rewrite (GetAccessCount_hit clock c id w p a Hl Hd), GetCount_run. reflexivity.
Qed.

End Queries.

(** X4.  Once the stored counter is stale, the quota is whole again without
    any write: [DeniesAccess] returns false (for a positive limit) and
    [RemainingLimit] returns the limit, whatever count is stored. *)
Theorem stale_counter_counts_for_nothing
    (clock : nat -> time.Time) (c : controller) (id : string)
    (w : world MapStore) (p : json.bytes) (a : accessCount) :
  0 < Limit (quota c) < 2 ^ 64 ->
  data (kv w) !! id = Some p ->
  Decode accessCount_zero p = Ok a ->
  fst (IsFresh clock a w) = Return false ->
  DeniesAccess clock c id w = (Return false, tock w) /\
  RemainingLimit clock c id w = (Return (Limit (quota c)), tock w).
Proof.
  intros HL Hl Hd Hf. rewrite IsFresh_run in Hf. cbn [fst] in Hf. injection Hf as Hf.
  split.
  - rewrite (DeniesAccess_hit clock c id w p a Hl Hd), Hf.
    destruct (Z.leb_spec (Limit (quota c)) 0); [lia | reflexivity].
  - rewrite (RemainingLimit_hit clock c id w p a Hl Hd), Hf.
    rewrite Z.sub_0_r. unfold u64. now rewrite Z.mod_small by lia.
Qed.

(** X5.  While the stored counter is fresh and its count is at most the
    limit, [RemainingLimit] is limit minus count exactly, and [DeniesAccess]
    answers true exactly when nothing remains (both asked at readings where
    the counter is fresh). *)
Theorem DeniesAccess_iff_nothing_remains
    (clock : nat -> time.Time) (c : controller) (id : string)
    (w w2 : world MapStore) (p : json.bytes) (a : accessCount) :
  Limit (quota c) < 2 ^ 64 ->
  data (kv w) !! id = Some p ->
  Decode accessCount_zero p = Ok a ->
  kv w2 = kv w ->
  fst (IsFresh clock a w) = Return true ->
  fst (IsFresh clock a w2) = Return true ->
  Count a <= Limit (quota c) ->
  exists n b,
    RemainingLimit clock c id w = (Return n, tock w) /\
    DeniesAccess clock c id w2 = (Return b, tock w2) /\
    n = Limit (quota c) - Count a /\
    (b = true <-> n = 0).
Proof.
  intros HL Hl Hd Hkv Hf Hf2 Hle.
  rewrite IsFresh_run in Hf, Hf2. cbn [fst] in Hf, Hf2.
  injection Hf as Hf. injection Hf2 as Hf2.
  pose proof (Decode_storable _ _ Hd) as ([[Hc0 Hc1] _] & _).
  assert (Hl2 : data (kv w2) !! id = Some p) by (rewrite Hkv; exact Hl).
  do 2 eexists.
  split; [rewrite (RemainingLimit_hit clock c id w p a Hl Hd), Hf; reflexivity|].
  split; [rewrite (DeniesAccess_hit clock c id w2 p a Hl2 Hd), Hf2; reflexivity|].
  split.
  - unfold u64. apply Z.mod_small. lia.
  - unfold u64. rewrite Z.mod_small by lia. rewrite Z.leb_le. lia.
Qed.

(** X6.  A record that does not decode into a counter (bytes that are not
    JSON, a document that is not an object, a member of the wrong type) makes
    every operation of the controller on that identity panic with the
    decoder's message; the store is left as it was and, for
    [RegisterAccess], the mutex is free again. *)
Theorem undecodable_record_panics
    (clock : nat -> time.Time) (c : controller) (id : string)
    (w : world MapStore) (p : json.bytes) (e : error) :
  data (kv w) !! id = Some p ->
  Decode accessCount_zero p = Err e ->
  GetAccessCount clock c id w = (Panic e, w) /\
  DeniesAccess clock c id w = (Panic e, w) /\
  RetryAt clock c id w = (Panic e, w) /\
  RemainingLimit clock c id w = (Panic e, w) /\
  (mu w = false -> RegisterAccess clock c id w = (Panic e, w)).
Proof.
  intros Hl Hd.
  assert (Hg : forall w1 : world MapStore, kv w1 = kv w ->
                 GetAccessCount clock c id w1 = (Panic e, w1)).
  { intros w1 Hkv. unfold GetAccessCount, bind, get_kv.
    cbn [Store_Get MapStore_KeyValueStorer]. unfold MapStore_Get.
    rewrite Hkv, Hl. unfold accessCountFromBytes. rewrite Hd. reflexivity. }
  split; [now apply Hg|].
  split; [unfold DeniesAccess, bind; now rewrite Hg|].
  split; [unfold RetryAt, bind; now rewrite Hg|].
  split; [unfold RemainingLimit, bind; now rewrite Hg|].
  intros Hmu. destruct w as [t m s]. cbn in Hmu. subst m.
  unfold RegisterAccess, bind at 1, defer, Lock. cbn [mu tick kv].
  unfold bind at 1. rewrite Hg by reflexivity. reflexivity.
Qed.

(** * Further properties of the keys *)

Lemma pretty_N_char_not_separator (x : N) :
  Ascii.eqb (pretty_N_char x) separator = false.
Proof. unfold pretty_N_char. repeat case_match; reflexivity. Qed.

Lemma pretty_N_go_separator (x : N) : forall s : string,
  has_separator (pretty_N_go x s) = has_separator s.
Proof.
  induction (N.lt_wf_0 x) as [x _ IH]; intros s.
  assert (x = 0 \/ 0 < x)%N as [->|Hpos] by lia.
  - now rewrite pretty_N_go_0.
  - rewrite pretty_N_go_step by exact Hpos.
    rewrite IH by (now apply N.div_lt).
    cbn [has_separator]. now rewrite pretty_N_char_not_separator.
Qed.

Lemma has_separator_app (s1 s2 : string) :
  has_separator (s1 +:+ s2) = has_separator s1 || has_separator s2.
Proof.
  induction s1 as [|a s1 IH]; [reflexivity|].
  change (has_separator (String.String a (s1 +:+ s2))
          = has_separator (String.String a s1) || has_separator s2).
  cbn [has_separator]. rewrite IH. now rewrite orb_assoc.
Qed.

(** A decimal numeral has no separator in it. *)
Lemma FormatInt_no_separator (z : Z) : has_separator (FormatInt z) = false.
Proof.
  assert (HN : forall n : N, has_separator (pretty n) = false).
  { intros n. unfold pretty, pretty_N. case_decide; [reflexivity|].
    now rewrite pretty_N_go_separator. }
  unfold FormatInt, pretty, pretty_Z. destruct z as [|x|x].
  - reflexivity.
  - apply (HN (N.pos x)).
  - change (pretty x) with (pretty (N.pos x)).
    rewrite has_separator_app, (HN (N.pos x)). reflexivity.
Qed.

(** Two strings without separator, each followed by the separator and a
    rest: they are equal as soon as the whole is. *)
Lemma separator_splits (r1 r2 : string) : forall k1 k2 : string,
  has_separator k1 = false -> has_separator k2 = false ->
  (k1 +:+ "_" +:+ r1 = k2 +:+ "_" +:+ r2)%string ->
  k1 = k2 /\ r1 = r2.
Proof.
  induction k1 as [|a k1 IH]; intros [|b k2] H1 H2 Heq; simpl in Heq.
  - injection Heq as Heq. split; [reflexivity | exact Heq].
  - injection Heq as Hb _. subst b. simpl in H2. discriminate.
  - injection Heq as Ha _. subst a. simpl in H1. discriminate.
  - injection Heq as Hab Heq. subst b. simpl in H1, H2.
    apply orb_false_iff in H1 as [_ H1]. apply orb_false_iff in H2 as [_ H2].
    destruct (IH k2 H1 H2 Heq) as [-> ->]. split; reflexivity.
Qed.

(** X7.  Under one key prefix, the store key tells both the policy's key-id
    and the identity: for quotas with positive limit and window, the keys of
    two requests are equal exactly when the key-ids are equal and the
    identities are equal.  So two identities never share an entry under one
    policy, and policies whose quotients differ share no entry at all,
    whatever the identities are. *)
Theorem makeKey_tells_policy_and_identity
    (q1 q2 : Quota) (prefix identity1 identity2 : string) :
  0 < Limit q1 < 2 ^ 64 -> 0 < Within q1 < 2 ^ 63 ->
  0 < Limit q2 < 2 ^ 64 -> 0 < Within q2 < 2 ^ 63 ->
  exists k1 k2,
    KeyId q1 = Return k1 /\ KeyId q2 = Return k2 /\
    (makeKey [prefix; k1; identity1] = makeKey [prefix; k2; identity2]
     <-> k1 = k2 /\ identity1 = identity2).
Proof.
  intros HL1 HW1 HL2 HW2.
  do 2 eexists. split; [apply KeyId_quotient; assumption|].
  split; [apply KeyId_quotient; assumption|].
  split; [|intros [-> ->]; reflexivity].
  rewrite !makeKey_three. intros Heq.
  apply (inj (String.app prefix)) in Heq.
  apply (inj (String.app "_")) in Heq.
  apply separator_splits in Heq; [exact Heq | apply FormatInt_no_separator ..].
Qed.


(** * Further properties of the map store *)

(** X9.  [Set] never fails; [Get] then returns the value last set under the
    key, and what is under any other key is as before. *)
Theorem MapStore_Get_after_Set
    (s : MapStore) (key key' : string) (value : json.bytes) :
  snd (MapStore_Set key value s) = None /\
  MapStore_Get key (fst (MapStore_Set key value s)) = Ok value /\
  (key <> key' ->
   MapStore_Get key' (fst (MapStore_Set key value s)) = MapStore_Get key' s) /\
  binding (fst (MapStore_Set key value s)) = binding s.
Proof.
  unfold MapStore_Set, MapStore_Get. cbn [fst snd data binding].
  split; [reflexivity|]. split; [now rewrite lookup_insert_eq|].
  split; [|reflexivity]. intros Hne. now rewrite lookup_insert_ne.
Qed.

(** X10.  After [Delete], [Get] of the key returns the error whose message is
    "Throttle Map Store Error: Key <key> does not exist"; the other keys are
    as before, and deleting a key that is not there changes nothing. *)
Theorem MapStore_Get_after_Delete (s : MapStore) (key key' : string) :
  MapStore_Get key (MapStore_Delete key s)
  = Err (MapStoreError_Error ("Key " +:+ key +:+ " does not exist")) /\
  (key <> key' -> MapStore_Get key' (MapStore_Delete key s) = MapStore_Get key' s) /\
  (data s !! key = None -> MapStore_Delete key s = s).
Proof.
  unfold MapStore_Delete, MapStore_Get. cbn [data]. split; [|split].
  - now rewrite lookup_delete_eq.
  - intros Hne. now rewrite lookup_delete_ne.
  - intros Hnone. destruct s as [d b]. cbn in *. f_equal. now apply delete_id.
Qed.

Lemma classic_object (v : json.value) :
  (exists ms, v = json.Object ms) \/ (forall ms, v <> json.Object ms).
Proof. destruct v; try (right; discriminate). left. eauto. Qed.

Lemma MapStore_Read_missing key (w : world MapStore) :
  data (kv w) !! key = None ->
  MapStore_Read key w
  = (Return (Err (MapStoreError_Error ("Key " +:+ key +:+ " does not exist"))), w).
Proof. intros Hl. unfold MapStore_Read, bind, get_kv, MapStore_Get. now rewrite Hl. Qed.

Lemma MapStore_Read_malformed key (w : world MapStore) :
  data (kv w) !! key = Some json.Malformed ->
  MapStore_Read key w
  = (Return (Err "invalid character looking for beginning of value"), w).
Proof. intros Hl. unfold MapStore_Read, bind, get_kv, MapStore_Get. now rewrite Hl. Qed.

Lemma MapStore_Read_not_object key v (w : world MapStore) :
  data (kv w) !! key = Some (json.Text v) ->
  (forall ms, v <> json.Object ms) ->
  MapStore_Read key w
  = (Panic "interface conversion: interface {} is not map[string]interface {}", w).
Proof.
  intros Hl Hno. unfold MapStore_Read, bind, get_kv, MapStore_Get. rewrite Hl.
  cbn [Decode_any]. destruct v; try reflexivity. now destruct (Hno members).
Qed.

(** X11.  [Read] never changes the store.  It returns [Get]'s error for a
    missing key and the decoder's for bytes that are not JSON, and it panics
    on a document that is not an object.  When it returns a value, the record
    is an object and the value is the store's binding as it is, whatever the
    object's members are. *)
Theorem MapStore_Read_returns_the_binding (key : string) (w : world MapStore) :
  snd (MapStore_Read key w) = w /\
  (data (kv w) !! key = None ->
   fst (MapStore_Read key w) = Return (Err (MapStoreError_Error ("Key " +:+ key +:+ " does not exist")))) /\
  (data (kv w) !! key = Some json.Malformed ->
   exists e, fst (MapStore_Read key w) = Return (Err e)) /\
  (forall v, data (kv w) !! key = Some (json.Text v) ->
   (forall ms, v <> json.Object ms) ->
   exists msg, fst (MapStore_Read key w) = Panic msg) /\
  (forall a, fst (MapStore_Read key w) = Return (Ok a) ->
   a = binding (kv w) /\ exists ms, data (kv w) !! key = Some (json.Text (json.Object ms))).
Proof.
  destruct (data (kv w) !! key) as [[|v]|] eqn:Hl.
  - rewrite (MapStore_Read_malformed key w Hl). cbn [fst snd].
    split; [reflexivity|]. split; [discriminate|]. split; [eauto|].
    split; [discriminate|]. discriminate.
  - destruct (classic_object v) as [[ms ->]|Hno].
    + rewrite (MapStore_Read_object key ms w Hl). cbn [fst snd].
      split; [reflexivity|]. split; [discriminate|]. split; [discriminate|]. split.
      * intros v [= <-] Hno. now destruct (Hno ms).
      * intros a [= <-]. split; [reflexivity | eauto].
    + rewrite (MapStore_Read_not_object key v w Hl Hno). cbn [fst snd].
      split; [reflexivity|]. split; [discriminate|]. split; [discriminate|].
      split; [eauto | discriminate].
  - rewrite (MapStore_Read_missing key w Hl). cbn [fst snd].
    split; [reflexivity|]. split; [reflexivity|]. split; [discriminate|].
    split; [discriminate|]. discriminate.
Qed.

(** *** The sweep, on any store *)

Section SweepAll.

Variable clock : nat -> time.Time.

Lemma Clean_keys_deletes_all (keys : list string) : forall w : world MapStore,
  (forall i, (tick w <= i)%nat -> 0 <= time.wall (clock i)) ->
  sweepable keys w ->
  NoDup keys ->
  exists m',
    Clean_keys clock keys w
    = (Return tt, mkWorld (tick w + length keys) (mu w) (mkMapStore m' accessCount_zero)) /\
    forall k, m' !! k = if decide (k ∈ keys) then None else data (kv w) !! k.
Proof.
  induction keys as [|key keys IH]; intros w Hclk [Hb Hobj] Hnd.
  - exists (data (kv w)). split.
    + cbn [Clean_keys length]. unfold ret. rewrite Nat.add_0_r.
      destruct w as [t m [d b]]. cbn in *. now subst b.
    + intros k. case_decide as Hin; [|reflexivity]. now apply elem_of_nil in Hin.
  - apply NoDup_cons in Hnd as [Hnotin Hnd].
    destruct (Hobj key ltac:(apply elem_of_cons; now left)) as (ms & Hl).
    cbn [Clean_keys]. unfold bind at 1.
    rewrite (MapStore_Read_object key ms w Hl). rewrite Hb.
    unfold bind at 1. rewrite IsFresh_run.
    rewrite (zero_binding_stale _ (Hclk (tick w) ltac:(lia))). cbn [negb].
    unfold bind at 1. unfold bind at 1, get_kv, put_kv. cbn [tock tick mu kv].
    set (w1 := mkWorld (Datatypes.S (tick w)) (mu w) (MapStore_Delete key (kv w))).
    destruct (IH w1) as (m' & Hrun & Hm').
    + intros i Hi. apply Hclk. cbn in Hi. lia.
    + split; [exact Hb|]. intros k Hk.
      destruct (Hobj k ltac:(apply elem_of_cons; now right)) as (ms' & Hl').
      exists ms'. cbn [w1 kv MapStore_Delete data].
      rewrite lookup_delete_ne; [exact Hl'|]. intros ->. contradiction.
    + exact Hnd.
    + exists m'. split.
      * rewrite Hrun. cbn [w1 tick mu length]. do 2 f_equal. lia.
      * intros k. rewrite Hm'. cbn [w1 kv MapStore_Delete data].
        destruct (decide (k = key)) as [->|Hne].
        -- rewrite lookup_delete_eq.
           rewrite (decide_True (P := key ∈ key :: keys)) by (apply elem_of_cons; now left).
           now case_decide.
        -- rewrite lookup_delete_ne by congruence.
           case_decide as Hin.
           ++ now rewrite decide_True by (apply elem_of_cons; now right).
           ++ rewrite decide_False; [reflexivity|].
              rewrite elem_of_cons. intros [?|?]; contradiction.
Qed.

(** The keys still to visit are in the store. *)
Lemma Clean_keys_panics (keys : list string) : forall w : world MapStore,
  (forall i, (tick w <= i)%nat -> 0 <= time.wall (clock i)) ->
  binding (kv w) = accessCount_zero ->
  (forall k, k ∈ keys -> is_Some (data (kv w) !! k)) ->
  NoDup keys ->
  (exists k v, k ∈ keys /\ data (kv w) !! k = Some v /\
               forall ms, v <> json.Text (json.Object ms)) ->
  exists msg w', Clean_keys clock keys w = (Panic msg, w').
Proof.
  induction keys as [|key keys IH]; intros w Hclk Hb Hin Hnd (kb & vb & Hkb & Hlb & Hvb).
  - now apply elem_of_nil in Hkb.
  - apply NoDup_cons in Hnd as [Hnotin Hnd].
    destruct (Hin key ltac:(apply elem_of_cons; now left)) as (v & Hl).
    cbn [Clean_keys]. unfold bind at 1.
    destruct v as [|v].
    { rewrite (MapStore_Read_malformed key w Hl). unfold panic. eauto. }
    destruct (classic_object v) as [[ms ->]|Hno].
    2:{ rewrite (MapStore_Read_not_object key v w Hl Hno). eauto. }
    rewrite (MapStore_Read_object key ms w Hl). rewrite Hb.
    unfold bind at 1. rewrite IsFresh_run.
    rewrite (zero_binding_stale _ (Hclk (tick w) ltac:(lia))). cbn [negb].
    unfold bind at 1. unfold bind at 1, get_kv, put_kv. cbn [tock tick mu kv].
    assert (Hkb' : kb ∈ keys).
    { apply elem_of_cons in Hkb as [->|?]; [|assumption].
      rewrite Hl in Hlb. injection Hlb as <-. now destruct (Hvb ms). }
    apply IH.
    + intros i Hi. apply Hclk. cbn in Hi. lia.
    + exact Hb.
    + intros k Hk. cbn [kv MapStore_Delete data].
      rewrite lookup_delete_ne; [apply Hin, elem_of_cons; now right|].
      intros ->. contradiction.
    + exact Hnd.
    + exists kb, vb. split; [exact Hkb'|]. split; [|exact Hvb].
      cbn [kv MapStore_Delete data]. rewrite lookup_delete_ne; [exact Hlb|].
      intros ->. contradiction.
Qed.

End SweepAll.

(** X12.  What a sweep does to a store made by [NewMapStore(accessCount{})],
    at readings of the clock not before the zero time.  When every record is
    a JSON object, [Clean] returns and the store is empty: each record is
    deleted, whatever counter it holds, one reading of the clock a record.
    When some record is not a JSON object, [Clean] panics. *)
Theorem Clean_empties_the_store_or_panics
    (clock : nat -> time.Time) (w : world MapStore) :
  binding (kv w) = accessCount_zero ->
  (forall i, (tick w <= i)%nat -> 0 <= time.wall (clock i)) ->
  ((forall k v, data (kv w) !! k = Some v -> exists ms, v = json.Text (json.Object ms)) ->
   MapStore_Clean clock w
   = (Return tt, mkWorld (tick w + size (data (kv w))) (mu w) (mkMapStore ∅ accessCount_zero))) /\
  ((exists k v, data (kv w) !! k = Some v /\ forall ms, v <> json.Text (json.Object ms)) ->
   exists msg w', MapStore_Clean clock w = (Panic msg, w')).
Proof.
  intros Hb Hclk.
  assert (Hkeys : forall k, k ∈ (map_to_list (data (kv w))).*1 <-> is_Some (data (kv w) !! k)).
  { intros k. rewrite list_elem_of_fmap. split.
    - intros ([k' v] & -> & Hin). apply elem_of_map_to_list in Hin. cbn. eauto.
    - intros [v Hv]. exists (k, v). split; [reflexivity|]. now apply elem_of_map_to_list. }
  split.
  - intros Hall. unfold MapStore_Clean, bind at 1, get_kv.
    destruct (Clean_keys_deletes_all clock (map_to_list (data (kv w))).*1 w Hclk)
      as (m' & Hrun & Hm').
    + split; [exact Hb|]. intros k Hk. apply Hkeys in Hk as [v Hv].
      destruct (Hall k v Hv) as (ms & ->). eauto.
    + apply NoDup_fst_map_to_list.
    + rewrite Hrun. rewrite length_fmap, length_map_to_list.
      do 2 f_equal. f_equal.
      apply map_eq. intros k. rewrite Hm', lookup_empty.
      case_decide as Hin; [reflexivity|].
      destruct (data (kv w) !! k) eqn:Hk; [|reflexivity].
      exfalso. apply Hin, Hkeys. eauto.
  - intros (k & v & Hl & Hv). unfold MapStore_Clean, bind at 1, get_kv.
    apply Clean_keys_panics; try assumption.
    + intros k' Hk'. now apply Hkeys.
    + apply NoDup_fst_map_to_list.
    + exists k, v. split; [apply Hkeys; eauto|]. split; assumption.
Qed.

(** X13.  The period of the sweep is never zero: [newMapStoreOptions] gives
    15 minutes when there are no options or when the first one has period 0,
    and the period of the first one otherwise; further options are not
    looked at, and a nil first option panics. *)
Theorem newMapStoreOptions_period (options : list (option MapStoreOptions)) :
  (forall o, newMapStoreOptions options = Return o ->
     CleaningPeriod o <> 0 /\
     (CleaningPeriod o = 15 * time.Minute \/
      exists o0 rest, options = Some o0 :: rest /\ CleaningPeriod o = CleaningPeriod o0)) /\
  (forall o0 rest, options = Some o0 :: rest ->
     newMapStoreOptions options
     = Return (mkMapStoreOptions
                 (if CleaningPeriod o0 =? 0 then 15 * time.Minute else CleaningPeriod o0))) /\
  (forall rest, options = None :: rest -> exists msg, newMapStoreOptions options = Panic msg).
Proof.
  split; [|split].
  - intros o. destruct options as [|[o0|] rest]; cbn [newMapStoreOptions].
    + intros [= <-]. cbn. split; [discriminate | now left].
    + destruct (Z.eqb_spec (CleaningPeriod o0) 0) as [Hz|Hz]; cbn [negb];
        intros [= <-]; cbn [CleaningPeriod].
      * split; [discriminate | now left].
      * split; [exact Hz | right; eauto].
    + discriminate.
  - intros o0 rest ->. cbn [newMapStoreOptions].
    now destruct (Z.eqb_spec (CleaningPeriod o0) 0).
  - intros rest ->. eexists. reflexivity.
Qed.

(** * Properties of the options *)

Section OptionsProperties.

Variable ParseIP : string -> option string.
Variable SplitHostPort : string -> result (string * string).
Context {R : Type}.

(** The loop over the fields, in closed form. *)
Lemma newOptions_first (given : @Options R) (rest : list (option (@Options R))) :
  newOptions ParseIP SplitHostPort (Some given :: rest)
  = Return (mkOptions
      (if StatusCode given =? 0 then defaultStatusCode else StatusCode given)
      (if (String.length (Message given) =? 0)%nat then defaultMessage else Message given)
      (or_default (IdentificationFunction given) (defaultIdentify ParseIP SplitHostPort))
      (if (String.length (KeyPrefix given) =? 0)%nat then defaultKeyPrefix else KeyPrefix given)
      (or_default (Store given) default_Storer)
      (Disabled given)
      (or_default (SkipRegisterFunction given) defaultSkipRegister)
      (or_default (SkipAccessCheckFunction given) defaultSkipAccess),
    match Store given with Some _ => [] | None => [default_sweeper] end).
Proof.
  destruct given as [sc msg idf kp st dis sr sa].
  unfold newOptions, Options_NumField. cbn [merge_fields Options_Field
    StatusCode Message IdentificationFunction KeyPrefix Store Disabled
    SkipRegisterFunction SkipAccessCheckFunction isNonEmptyOption Options_Set].
  destruct (sc =? 0); destruct (String.length msg =? 0)%nat; destruct idf;
    destruct (String.length kp =? 0)%nat; destruct st; destruct sr; destruct sa;
    reflexivity.
Qed.

End OptionsProperties.

(** X14.  What [newOptions] does with the options it is given.  Only the
    first one is looked at; a nil one panics.  Each field of the result is
    the given field when that one is not empty (a number other than 0, a
    string that is not empty, a func or a store that is not nil) and the
    default otherwise, except [Disabled], which is always the given one.
    With no options the result is the defaults: status 429, message "Too
    Many Requests", prefix "throttle", a new map store, not disabled. *)
Theorem newOptions_overrides_defaults
    (ParseIP : string -> option string)
    (SplitHostPort : string -> result (string * string))
    (R : Type) (options : list (option (@Options R))) :
  (options = [] ->
   newOptions ParseIP SplitHostPort options
   = Return (mkOptions 429 "Too Many Requests" (Some (defaultIdentify ParseIP SplitHostPort))
               "throttle" (Some default_Storer) false
               (Some defaultSkipRegister) (Some defaultSkipAccess),
             [go_CleanEvery (15 * time.Minute)])) /\
  (forall rest, options = None :: rest ->
   exists msg, newOptions ParseIP SplitHostPort options = Panic msg) /\
  (forall given rest, options = Some given :: rest ->
   newOptions ParseIP SplitHostPort options
   = Return (mkOptions
       (if StatusCode given =? 0 then 429 else StatusCode given)
       (if String.eqb (Message given) "" then "Too Many Requests"%string else Message given)
       (or_default (IdentificationFunction given) (defaultIdentify ParseIP SplitHostPort))
       (if String.eqb (KeyPrefix given) "" then "throttle"%string else KeyPrefix given)
       (or_default (Store given) default_Storer)
       (Disabled given)
       (or_default (SkipRegisterFunction given) defaultSkipRegister)
       (or_default (SkipAccessCheckFunction given) defaultSkipAccess),
     match Store given with
     | Some _ => []
     | None => [go_CleanEvery (15 * time.Minute)]
     end)).
Proof.
  split; [|split].
  - intros ->. reflexivity.
  - intros rest ->. eexists. reflexivity.
  - intros given rest ->. rewrite newOptions_first.
    assert (Hlen : forall str : string,
              (String.length str =? 0)%nat = String.eqb str "").
    { intros [|a str]; reflexivity. }
    rewrite !Hlen. reflexivity.
Qed.

(** X15.  Whatever options are given, the options [newOptions] returns are
    complete: the three funcs and the store are not nil, and the status
    code, the message and the key prefix are not empty.  So the handler never
    calls a nil func. *)
Theorem newOptions_is_complete
    (ParseIP : string -> option string)
    (SplitHostPort : string -> result (string * string))
    (R : Type) (options : list (option (@Options R))) (o : @Options R)
    (started : list goroutine) :
  newOptions ParseIP SplitHostPort options = Return (o, started) ->
  StatusCode o <> 0 /\ Message o <> ""%string /\ KeyPrefix o <> ""%string /\
  is_Some (IdentificationFunction o) /\ is_Some (Store o) /\
  is_Some (SkipRegisterFunction o) /\ is_Some (SkipAccessCheckFunction o).
Proof.
  destruct options as [|[given|] rest].
  - intros [= <- _]. cbn. repeat split; try discriminate; eauto.
  - rewrite newOptions_first. intros [= <- _].
    cbn [StatusCode Message IdentificationFunction KeyPrefix Store
         SkipRegisterFunction SkipAccessCheckFunction].
    assert (Hs : forall (A : Type) (x : option A) d, is_Some (or_default x d)).
    { intros A [a|] d; cbn; eauto. }
    assert (Hstr : forall str d : string, d <> ""%string ->
              (if (String.length str =? 0)%nat then d else str) <> ""%string).
    { intros [|a str] d Hd; cbn; [exact Hd | discriminate]. }
    repeat split; try apply Hs.
    + destruct (Z.eqb_spec (StatusCode given) 0); [discriminate | assumption].
    + apply Hstr. discriminate.
    + apply Hstr. discriminate.
  - discriminate.
Qed.

(** * Properties of the handler *)

Section HandlerSteps.

Variable clock : nat -> time.Time.
Context {R : Type} `{ResponseWriter R}.
Variables (c : controller) (id : string).
Implicit Types (w : world MapStore) (resp : R).

Lemma RetryAt_hit w p a :
  data (kv w) !! id = Some p ->
  Decode accessCount_zero p = Ok a ->
  RetryAt clock c id w = (Return (time.Add (Start a) (Within (quota c))), w).
Proof.
  intros Hl Hd. unfold RetryAt, bind.
  now rewrite (GetAccessCount_hit clock c id w p a Hl Hd).
Qed.

Lemma setRateLimitHeaders_hit resp w p a :
  data (kv w) !! id = Some p ->
  Decode accessCount_zero p = Ok a ->
  setRateLimitHeaders clock resp c id w
  = (Return (rate_headers (Limit (quota c))
               (time_Unix (time.Add (Start a) (Within (quota c))))
               (u64 (Limit (quota c) - (if fresh_at (clock (tick w)) a then Count a else 0)))
               resp),
     tock w).
Proof.
  intros Hl Hd. unfold setRateLimitHeaders. unfold bind at 1.
  rewrite (RetryAt_hit w p a Hl Hd). unfold bind at 1.
  rewrite (RemainingLimit_hit clock c id w p a Hl Hd). reflexivity.
Qed.

Lemma RetryAt_miss w :
  data (kv w) !! id = None ->
  RetryAt clock c id w
  = (Return (time.Add (time.UTC (clock (tick w))) (Within (quota c))), tock w).
Proof.
  intros Hl. unfold RetryAt, bind.
  now rewrite (GetAccessCount_miss clock c id w Hl).
Qed.

Lemma RemainingLimit_miss w :
  data (kv w) !! id = None ->
  RemainingLimit clock c id w = (Return (u64 (Limit (quota c))), tock (tock w)).
Proof.
  intros Hl. unfold RemainingLimit. unfold bind at 1.
  rewrite (GetAccessCount_miss clock c id w Hl).
  unfold bind at 1. rewrite GetCount_run. cbn [Count fst].
  replace (if fresh_at _ _ then 0 else 0) with 0 by (now destruct (fresh_at _ _)).
  rewrite Z.sub_0_r. reflexivity.
Qed.

Lemma setRateLimitHeaders_miss resp w :
  data (kv w) !! id = None ->
  setRateLimitHeaders clock resp c id w
  = (Return (rate_headers (Limit (quota c))
               (time_Unix (time.Add (time.UTC (clock (tick w))) (Within (quota c))))
               (u64 (Limit (quota c)))
               resp),
     tock (tock (tock w))).
Proof.
  intros Hl. unfold setRateLimitHeaders. unfold bind at 1.
  rewrite (RetryAt_miss w Hl). unfold bind at 1.
  rewrite (RemainingLimit_miss (tock w) Hl). reflexivity.
Qed.

Lemma DeniesAccess_miss w :
  data (kv w) !! id = None ->
  DeniesAccess clock c id w = (Return (Limit (quota c) <=? 0), tock (tock w)).
Proof.
  intros Hl. unfold DeniesAccess. unfold bind at 1.
  rewrite (GetAccessCount_miss clock c id w Hl).
  unfold bind at 1. rewrite GetCount_run. cbn [Count fst].
  replace (if fresh_at _ _ then 0 else 0) with 0 by (now destruct (fresh_at _ _)).
  reflexivity.
Qed.

End HandlerSteps.

Section HandlerCases.

Variable clock : nat -> time.Time.
Context {R : Type} `{ResponseWriter R}.
Variables (q : Quota) (o : @Options R) (req : Request).
Variables (keyId identity : string).
Variable idf : Request -> outcome string.
Variables sa sr : R -> Request -> outcome (bool * R).

Hypothesis HkeyId : KeyId q = Return keyId.
Hypothesis Hidf : IdentificationFunction o = Some idf.
Hypothesis Hident : idf req = Return identity.
Hypothesis Hsa : SkipAccessCheckFunction o = Some sa.
Hypothesis Hcheck : forall resp, sa resp req = Return (false, resp).
Hypothesis Hsr : SkipRegisterFunction o = Some sr.
Hypothesis Hcount : forall resp, sr resp req = Return (false, resp).

Let c : controller := mkController q.
Let id : string := makeKey [KeyPrefix o; keyId; identity].

Implicit Types (w : world MapStore) (resp : R).

(** The handler once the key is made. *)
Lemma handler_with_key resp w :
  Policy_handler clock q o c resp req w
  = (resp <- setRateLimitHeaders clock resp c id ;;
     skip <- SkipAccessCheck o resp req ;;
     if fst skip : bool then ret (snd skip)
     else
       let resp := snd skip in
       denies <- DeniesAccess clock c id ;;
       if denies : bool then
         let msg := newAccessMessage (StatusCode o) (Message o) in
         resp <- lift (rw_WriteHeader (msg_StatusCode msg) resp) ;;
         lift (rw_Write (msg_Message msg) resp)
       else
         skip <- SkipRegister o resp req ;;
         let resp := snd skip in
         if negb (fst skip) then
           RegisterAccess clock c id ;;;
           setRateLimitHeaders clock resp c id
         else ret resp) w.
Proof.
  unfold Policy_handler. unfold bind at 1, lift at 1. rewrite HkeyId.
  unfold bind at 1, Identify, call. rewrite Hidf. unfold lift at 1. rewrite Hident.
  reflexivity.
Qed.

(** The access check is not skipped. *)
Lemma SkipAccessCheck_false resp w :
  SkipAccessCheck o resp req w = (Return (false, resp), w).
Proof. unfold SkipAccessCheck. rewrite Hsa. unfold lift. now rewrite Hcheck. Qed.

(** The request is counted. *)
Lemma SkipRegister_false resp w :
  SkipRegister o resp req w = (Return (false, resp), w).
Proof. unfold SkipRegister. rewrite Hsr. unfold lift. now rewrite Hcount. Qed.

Lemma handler_refuses resp w p a :
  data (kv w) !! id = Some p ->
  Decode accessCount_zero p = Ok a ->
  fresh_at (clock (tick w)) a = true ->
  fresh_at (clock (Datatypes.S (tick w))) a = true ->
  Limit q <= Count a ->
  Policy_handler clock q o c resp req w
  = (refusal (StatusCode o) (Message o)
       (rate_headers (Limit q)
          (time_Unix (time.Add (Start a) (Within q)))
          (u64 (Limit q - Count a)) resp),
     tock (tock w)).
Proof.
  intros Hl Hd Hf0 Hf1 Hle. rewrite handler_with_key. unfold bind at 1.
  rewrite (setRateLimitHeaders_hit clock c id resp w p a Hl Hd), Hf0.
  unfold bind at 1. rewrite SkipAccessCheck_false. cbn [fst snd].
  unfold bind at 1.
  rewrite (DeniesAccess_hit clock c id (tock w) p a Hl Hd).
  change (tick (tock w)) with (Datatypes.S (tick w)).
  rewrite Hf1. change (quota c) with q.
  destruct (Z.leb_spec (Limit q) (Count a)) as [_|?]; [|lia].
  unfold bind, lift, refusal, newAccessMessage. cbn [msg_StatusCode msg_Message].
  destruct (rw_WriteHeader (StatusCode o) _) as [r2|msg|]; reflexivity.
Qed.

Lemma handler_admits resp w a :
  holds id a w ->
  (forall i, (tick w <= i < tick w + 4)%nat -> fresh_at (clock i) a = true) ->
  Count a < Limit q ->
  exists w',
    Policy_handler clock q o c resp req w
    = (Return (rate_headers (Limit q)
                 (time_Unix (time.Add (Start a) (Within q)))
                 (u64 (Limit q - u64 (Count a + 1)))
                 (rate_headers (Limit q)
                    (time_Unix (time.Add (Start a) (Within q)))
                    (u64 (Limit q - Count a)) resp)),
       w') /\
    holds id (mkAccessCount (u64 (Count a + 1)) (Start a) (Duration a)) w' /\
    tick w' = (tick w + 4)%nat.
Proof.
  intros Hh Hf Hlt. pose proof Hh as (Hmu & p & Hl & Hd).
  rewrite handler_with_key. unfold bind at 1.
  rewrite (setRateLimitHeaders_hit clock c id resp w p a Hl Hd).
  rewrite (Hf (tick w)) by lia.
  unfold bind at 1. rewrite SkipAccessCheck_false. cbn [fst snd].
  unfold bind at 1.
  rewrite (DeniesAccess_hit clock c id (tock w) p a Hl Hd).
  change (tick (tock w)) with (Datatypes.S (tick w)).
  rewrite (Hf (Datatypes.S (tick w))) by lia.
  change (quota c) with q.
  destruct (Z.leb_spec (Limit q) (Count a)) as [?|_]; [lia|].
  unfold bind at 1. rewrite SkipRegister_false. cbn [fst snd negb].
  set (w2 := tock (tock w)).
  assert (Hh2 : holds id a w2) by (split; [exact Hmu | eauto]).
  destruct (RegisterAccess_holds clock c id a w2 Hh2) as (w3 & Hr & Ht3 & Hh3).
  { apply Hf. cbn. lia. }
  unfold bind at 1. rewrite Hr.
  destruct Hh3 as (Hmu3 & p3 & Hl3 & Hd3).
  rewrite (setRateLimitHeaders_hit clock c id _ w3 p3 _ Hl3 Hd3).
  cbn [Start Duration Count]. rewrite Ht3.
  change (tick w2) with (Datatypes.S (Datatypes.S (tick w))).
  assert (Hf3 : fresh_at (clock (Datatypes.S (Datatypes.S (Datatypes.S (tick w)))))
                  (mkAccessCount (u64 (Count a + 1)) (Start a) (Duration a)) = true).
  { rewrite <- (Hf (Datatypes.S (Datatypes.S (Datatypes.S (tick w))))) by lia. reflexivity. }
  rewrite Hf3. change (quota c) with q.
  eexists. split; [reflexivity|]. split.
  - split; [exact Hmu3|]. exists p3. split; assumption.
  - cbn [tock tick]. rewrite Ht3. cbn. lia.
Qed.

(** The first request of an identity without a record. *)
Lemma handler_first_request resp w :
  mu w = false ->
  data (kv w) !! id = None ->
  0 < Limit q ->
  0 < Within q < 2 ^ 63 ->
  time.year_in_range (clock (tick w + 5)) = true ->
  (forall i, (tick w + 5 < i < tick w + 8)%nat ->
             time.wall (clock i) - time.wall (clock (tick w + 5)) < Within q) ->
  exists w',
    Policy_handler clock q o c resp req w
    = (Return (rate_headers (Limit q)
                 (time_Unix (time.Add (time.UTC (clock (tick w + 5))) (Within q)))
                 (u64 (Limit q - 1))
                 (rate_headers (Limit q)
                    (time_Unix (time.Add (time.UTC (clock (tick w))) (Within q)))
                    (u64 (Limit q)) resp)),
       w') /\
    holds id (mkAccessCount 1 (time.UTC (clock (tick w + 5))) (Within q)) w' /\
    tick w' = (tick w + 8)%nat.
Proof.
  intros Hmu Hl HL HW Hy Hclk.
  rewrite handler_with_key. unfold bind at 1.
  rewrite (setRateLimitHeaders_miss clock c id resp w Hl).
  unfold bind at 1. rewrite SkipAccessCheck_false. cbn [fst snd].
  unfold bind at 1.
  rewrite (DeniesAccess_miss clock c id (tock (tock (tock w))) Hl).
  change (quota c) with q.
  destruct (Z.leb_spec (Limit q) 0) as [?|_]; [lia|].
  unfold bind at 1. rewrite SkipRegister_false. cbn [fst snd negb].
  set (w5 := tock (tock (tock (tock (tock w))))).
  assert (Ht5 : tick w5 = (tick w + 5)%nat) by (cbn; lia).
  destruct (RegisterAccess_miss clock c id w5) as (p' & Hr & Hd').
  - exact Hmu.
  - exact Hl.
  - unfold is_i64. change (quota c) with q. lia.
  - rewrite Ht5. exact Hy.
  - change (quota c) with q.
    apply fresh_at_within; cbn [Duration Start time.UTC time.wall]; [exact HW|].
    change (tick w5) with (Datatypes.S (Datatypes.S (Datatypes.S (Datatypes.S (Datatypes.S (tick w)))))).
    replace (Datatypes.S (Datatypes.S (Datatypes.S (Datatypes.S (Datatypes.S (tick w))))))
      with (tick w + 5)%nat by lia.
    replace (Datatypes.S (tick w + 5)) with (tick w + 6)%nat by lia.
    apply Hclk. lia.
  - unfold bind at 1. rewrite Hr. rewrite Ht5 in Hd'. change (quota c) with q in Hd'.
    set (w7 := store_put id p' (tock (tock w5))).
    rewrite (setRateLimitHeaders_hit clock c id _ w7 p' _ (store_put_lookup id p' _) Hd').
    cbn [Start Count].
    assert (Ht7 : tick w7 = (tick w + 7)%nat) by (cbn; lia).
    assert (Hf7 : fresh_at (clock (tick w7))
                    (mkAccessCount 1 (time.UTC (clock (tick w + 5))) (Within q)) = true).
    { apply fresh_at_within; cbn [Duration Start time.UTC time.wall]; [exact HW|].
      rewrite Ht7. apply Hclk. lia. }
    rewrite Hf7. change (quota c) with q. eexists. split; [reflexivity|]. split.
    + split; [exact Hmu|]. exists p'. split; [apply store_put_lookup | exact Hd'].
    + cbn. lia.
Qed.

End HandlerCases.

(** *** What the handler leaves alone *)

Section Quiet.

Variable clock : nat -> time.Time.
Context {S : Type} `{KeyValueStorer S}.

Lemma quiet_ret {A} (a : A) : quiet (ret (S := S) a).
Proof. intros w. split; reflexivity. Qed.

Lemma quiet_panic {A} (msg : string) : quiet (panic (S := S) (A := A) msg).
Proof. intros w. split; reflexivity. Qed.

Lemma quiet_lift {A} (o : outcome A) : quiet (lift (S := S) o).
Proof. intros w. split; reflexivity. Qed.

Lemma quiet_bind {A B} (m : M S A) (k : A -> M S B) :
  quiet m -> (forall a, quiet (k a)) -> quiet (bind m k).
Proof.
  intros Hm Hk w. unfold bind. specialize (Hm w).
  destruct (m w) as [[a|msg|] w1]; cbn [snd] in *; [|exact Hm|exact Hm].
  destruct (Hk a w1) as [Hkv Hmu]. destruct Hm as [Hkv1 Hmu1].
  split; congruence.
Qed.

Lemma quiet_bind_value {A B} (m : M S A) (k : A -> M S B) :
  quiet m ->
  (forall w a w', m w = (Return a, w') ->
     kv (snd (k a w')) = kv w' /\ mu (snd (k a w')) = mu w') ->
  quiet (bind m k).
Proof.
  intros Hm Hk w. unfold bind. specialize (Hm w). specialize (Hk w).
  destruct (m w) as [[a|msg|] w1]; cbn [snd] in *; [|exact Hm|exact Hm].
  destruct (Hk a w1 eq_refl) as [Hkv Hmu]. destruct Hm as [Hkv1 Hmu1].
  split; congruence.
Qed.

Lemma quiet_time_Now : quiet (time_Now (S := S) clock).
Proof. intros w. split; reflexivity. Qed.

Lemma quiet_GetCount (a : accessCount) : quiet (GetCount (S := S) clock a).
Proof.
  unfold GetCount, IsFresh. repeat (apply quiet_bind; [|intros ?]);
    try apply quiet_time_Now; try apply quiet_ret.
  destruct a0; apply quiet_ret.
Qed.

Lemma quiet_GetAccessCount c id : quiet (GetAccessCount clock c id).
Proof.
  intros w. destruct (GetAccessCount_leaves_world clock c id w)
    as (o & w' & -> & _ & Hmu & Hkv). split; assumption.
Qed.

Lemma quiet_DeniesAccess c id : quiet (DeniesAccess clock c id).
Proof.
  unfold DeniesAccess. apply quiet_bind; [apply quiet_GetAccessCount|intros a].
  apply quiet_bind; [apply quiet_GetCount | intros n; apply quiet_ret].
Qed.

Lemma quiet_RetryAt c id : quiet (RetryAt clock c id).
Proof.
  unfold RetryAt. apply quiet_bind; [apply quiet_GetAccessCount|intros a].
  apply quiet_ret.
Qed.

Lemma quiet_RemainingLimit c id : quiet (RemainingLimit clock c id).
Proof.
  unfold RemainingLimit. apply quiet_bind; [apply quiet_GetAccessCount|intros a].
  apply quiet_bind; [apply quiet_GetCount | intros n; apply quiet_ret].
Qed.

Context {R : Type} `{ResponseWriter R}.

Lemma quiet_setRateLimitHeaders (resp : R) c id :
  quiet (setRateLimitHeaders clock resp c id).
Proof.
  unfold setRateLimitHeaders. apply quiet_bind; [apply quiet_RetryAt|intros t].
  apply quiet_bind; [apply quiet_RemainingLimit | intros n; apply quiet_ret].
Qed.

Lemma quiet_SkipAccessCheck (o : @Options R) resp req :
  quiet (SkipAccessCheck (S := S) o resp req).
Proof.
  unfold SkipAccessCheck. destruct (SkipAccessCheckFunction o);
    [apply quiet_lift | apply quiet_panic].
Qed.

Lemma quiet_SkipRegister (o : @Options R) resp req :
  quiet (SkipRegister (S := S) o resp req).
Proof.
  unfold SkipRegister. destruct (SkipRegisterFunction o);
    [apply quiet_lift | apply quiet_panic].
Qed.

Lemma quiet_Identify (o : @Options R) req : quiet (Identify (S := S) o req).
Proof.
  unfold Identify, call. destruct (IdentificationFunction o);
    [apply quiet_lift | apply quiet_panic].
Qed.

End Quiet.

(** X16.  The handler writes to the store only when it counts a request.
    The closure of a disabled policy leaves the whole world and the writer
    as they were, whatever the other options are.  And whatever the store is
    and holds, if the access check is skipped for the request, or the
    request is not to be counted, the handler of a policy that is not
    disabled leaves the store and the controller's mutex as they were,
    however it ends. *)
Theorem Policy_handler_writes_only_when_counting
    (clock : nat -> time.Time) (S : Type) (KV : KeyValueStorer S)
    (R : Type) (RW : ResponseWriter R)
    (q : Quota) (o : @Options R) (c : controller) (resp : R) (req : Request)
    (w : world S) :
  (Disabled o = true -> Policy clock q o resp req w = (Return resp, w)) /\
  (((exists sa, SkipAccessCheckFunction o = Some sa /\
                forall r b r', sa r req = Return (b, r') -> b = true) \/
    (exists sr, SkipRegisterFunction o = Some sr /\
                forall r b r', sr r req = Return (b, r') -> b = true)) ->
   kv (snd (Policy_handler clock q o c resp req w)) = kv w /\
   mu (snd (Policy_handler clock q o c resp req w)) = mu w).
Proof.
  split; [intros Hd; unfold Policy; rewrite Hd; reflexivity|].
  intros Hskip.
  assert (Hq : quiet (Policy_handler (S := S) clock q o c resp req)).
  { unfold Policy_handler.
    apply quiet_bind; [apply quiet_lift | intros keyId].
    apply quiet_bind; [apply quiet_Identify | intros identity].
    apply quiet_bind; [apply quiet_setRateLimitHeaders | intros resp1].
    apply quiet_bind_value; [apply quiet_SkipAccessCheck|].
    intros w1 [b r2] w2 Hsa. cbn [fst snd].
    destruct b; [split; reflexivity|].
    destruct Hskip as [(sa & Hsaf & Hsat)|(sr & Hsrf & Hsrt)].
    - exfalso. unfold SkipAccessCheck in Hsa. rewrite Hsaf in Hsa. unfold lift in Hsa.
      injection Hsa as Hsa _. apply Hsat in Hsa. discriminate.
    - refine ((_ : quiet _) w2).
      apply quiet_bind; [apply quiet_DeniesAccess | intros denies].
      destruct denies.
      + apply quiet_bind; [apply quiet_lift | intros r3; apply quiet_lift].
      + apply quiet_bind_value; [apply quiet_SkipRegister|].
        intros w3 [b r4] w4 Hsr. cbn [fst snd].
        unfold SkipRegister in Hsr. rewrite Hsrf in Hsr. unfold lift in Hsr.
        injection Hsr as Hsr _. apply Hsrt in Hsr. subst b.
        split; reflexivity. }
  exact (Hq w).
Qed.

(** *** The handler on a recorder *)

Lemma rate_headers_Recorder (l r n : Z) (rw : Recorder) :
  rate_headers l r n rw
  = mkRecorder (Code rw) (Body rw)
      (<["X-Ratelimit-Remaining"%string := [FormatUint n]]>
         (<["X-Ratelimit-Reset"%string := [FormatInt r]]>
            (<["X-Ratelimit-Limit"%string := [FormatUint l]]> (HeaderMap rw)))).
Proof. reflexivity. Qed.

(** Setting the three headers again replaces what the first time had set. *)
Lemma rate_headers_overwrite (l r n l0 r0 n0 : Z) (rw : Recorder) :
  rate_headers l r n (rate_headers l0 r0 n0 rw) = rate_headers l r n rw.
Proof.
  rewrite !rate_headers_Recorder. cbn [Code Body HeaderMap]. f_equal.
  apply map_eq. intros k. rewrite !lookup_insert.
  repeat case_decide; reflexivity.
Qed.

Lemma refusal_Recorder (code : Z) (message : string) (rw : Recorder) :
  100 <= code <= 999 -> Code rw = None ->
  refusal code message rw
  = Return (mkRecorder (Some code) (Body rw +:+ message) (HeaderMap rw)).
Proof.
  intros Hc Hn. unfold refusal. cbn [rw_WriteHeader rw_Write Recorder_ResponseWriter].
  unfold Recorder_WriteHeader. rewrite Hn.
  destruct (Z.ltb_spec code 100); [lia|]. destruct (Z.ltb_spec 999 code); [lia|].
  reflexivity.
Qed.

(** X17.  A request of an identity whose stored counter is fresh and has
    reached the limit is refused: the recorder gets the three headers, the
    status code of the options and their message, and the store and the mutex
    are as they were.  The options identify the request and skip nothing,
    the status code is one a recorder accepts, and nothing was written
    before. *)
Theorem Policy_refuses_at_the_limit
    (clock : nat -> time.Time) (q : Quota) (o : @Options Recorder)
    (req : Request) (keyId identity : string) (rw : Recorder)
    (w : world MapStore) (p : json.bytes) (a : accessCount) :
  KeyId q = Return keyId ->
  plain_options o req identity ->
  data (kv w) !! makeKey [KeyPrefix o; keyId; identity] = Some p ->
  Decode accessCount_zero p = Ok a ->
  fst (IsFresh clock a w) = Return true ->
  fst (IsFresh clock a (tock w)) = Return true ->
  Limit q <= Count a ->
  100 <= StatusCode o <= 999 ->
  Code rw = None ->
  Policy clock q o rw req w
  = (Return (mkRecorder (Some (StatusCode o)) (Body rw +:+ Message o)
               (HeaderMap (rate_headers (Limit q)
                             (time_Unix (time.Add (Start a) (Within q)))
                             (u64 (Limit q - Count a)) rw))),
     tock (tock w)).
Proof.
  intros HkeyId (Hdis & idf & sa & sr & Hidf & Hident & Hsa & Hcheck & Hsr & Hcount)
    Hl Hd Hf0 Hf1 Hle Hcode Hnone.
  rewrite IsFresh_run in Hf0, Hf1. cbn [fst tock tick] in Hf0, Hf1.
  injection Hf0 as Hf0. injection Hf1 as Hf1.
  unfold Policy. rewrite Hdis.
  rewrite (handler_refuses clock q o req keyId identity idf sa
             HkeyId Hidf Hident Hsa Hcheck rw w p a Hl Hd Hf0 Hf1 Hle).
  rewrite refusal_Recorder; [reflexivity | exact Hcode | exact Hnone].
Qed.

(** X18.  A request of an identity whose stored counter is fresh and below
    the limit is admitted and counted: the handler writes neither a status
    nor a body, the remaining header is the limit less the new count, and the
    stored count is one higher, start and duration unchanged; the mutex is
    free afterwards. *)
Theorem Policy_admits_below_the_limit
    (clock : nat -> time.Time) (q : Quota) (o : @Options Recorder)
    (req : Request) (keyId identity : string) (rw : Recorder)
    (w : world MapStore) (p : json.bytes) (a : accessCount) :
  KeyId q = Return keyId ->
  plain_options o req identity ->
  mu w = false ->
  data (kv w) !! makeKey [KeyPrefix o; keyId; identity] = Some p ->
  Decode accessCount_zero p = Ok a ->
  (forall i, (tick w <= i < tick w + 4)%nat ->
             time.wall (clock i) - time.wall (Start a) < Duration a) ->
  0 < Duration a ->
  Count a < Limit q < 2 ^ 64 ->
  exists w',
    Policy clock q o rw req w
    = (Return (rate_headers (Limit q)
                 (time_Unix (time.Add (Start a) (Within q)))
                 (Limit q - (Count a + 1)) rw),
       w') /\
    mu w' = false /\ tick w' = (tick w + 4)%nat /\
    fst (GetAccessCount clock (mkController q) (makeKey [KeyPrefix o; keyId; identity]) w')
    = Return (mkAccessCount (Count a + 1) (Start a) (Duration a)).
Proof.
  intros HkeyId (Hdis & idf & sa & sr & Hidf & Hident & Hsa & Hcheck & Hsr & Hcount)
    Hmu Hl Hd Hclk Hdur HL.
  pose proof (Decode_storable _ _ Hd) as ([[Hc0 Hc1] [_ Hd1]] & _).
  assert (Hh : holds (makeKey [KeyPrefix o; keyId; identity]) a w)
    by (split; [exact Hmu | eauto]).
  destruct (handler_admits clock q o req keyId identity idf sa sr
              HkeyId Hidf Hident Hsa Hcheck Hsr Hcount rw w a Hh)
    as (w' & Hrun & (Hmu' & p' & Hl' & Hd') & Ht').
  { intros i Hi. apply fresh_at_within; [lia | now apply Hclk]. }
  { lia. }
  assert (Hu : u64 (Count a + 1) = Count a + 1).
  { unfold u64. apply Z.mod_small. lia. }
  rewrite Hu in Hrun, Hd'.
  exists w'. split; [|split; [exact Hmu' | split; [exact Ht'|]]].
  - unfold Policy. rewrite Hdis, Hrun. rewrite rate_headers_overwrite.
    do 3 f_equal. unfold u64. apply Z.mod_small. lia.
  - now rewrite (GetAccessCount_hit clock _ _ w' p' _ Hl' Hd').
Qed.

(** *** Requests one after the other *)

Lemma serve_step (clock : nat -> time.Time) (q : Quota) (o : @Options Recorder)
    (req : Request) (n : nat) (w w' : world MapStore) (r : Recorder)
    (rs : list Recorder) :
  Policy clock q o NewRecorder req w = (Return r, w') ->
  fst (serve clock q o req n w') = Return rs ->
  fst (serve clock q o req (Datatypes.S n) w) = Return (r :: rs).
Proof.
  intros Hp Hs. cbn [serve]. unfold bind at 1. rewrite Hp.
  unfold bind at 1. destruct (serve clock q o req n w') as [out w''].
  cbn [fst] in Hs. subst out. reflexivity.
Qed.

Section Window.

Variable clock : nat -> time.Time.
Variables (q : Quota) (o : @Options Recorder) (req : Request).
Variables (keyId identity : string).
Variable t0 : time.Time.

Hypothesis HkeyId : KeyId q = Return keyId.
Hypothesis Hplain : plain_options o req identity.
Hypothesis Hlimit : 0 < Limit q < 2 ^ 64.
Hypothesis Hwithin : 0 < Within q < 2 ^ 63.
Hypothesis Hcode : 100 <= StatusCode o <= 999.

(** Inside a window that began at [t0] with [j - 1] requests counted, or the
    limit when that is less, the next [n] requests get the responses of the
    [j]-th request on. *)
Lemma serve_inside_window (n : nat) :
  forall (j : nat) (w : world MapStore),
    (1 <= j)%nat ->
    holds (makeKey [KeyPrefix o; keyId; identity])
      (mkAccessCount (Z.min (Z.of_nat j - 1) (Limit q)) t0 (Within q)) w ->
    (forall i, (tick w <= i < tick w + 4 * n)%nat ->
               time.wall (clock i) - time.wall t0 < Within q) ->
    fst (serve clock q o req n w)
    = Return (map (expected_response (Limit q)
                     (time_Unix (time.Add t0 (Within q)))
                     (StatusCode o) (Message o))
                (seq j n)).
Proof.
  induction n as [|n IH]; intros j w Hj Hh Hclk; [reflexivity|].
  cbn [seq map].
  set (a := mkAccessCount (Z.min (Z.of_nat j - 1) (Limit q)) t0 (Within q)) in *.
  assert (Hfresh : forall i, (tick w <= i < tick w + 4)%nat ->
                             fresh_at (clock i) a = true).
  { intros i Hi. apply fresh_at_within; [exact Hwithin|].
    apply Hclk. lia. }
  destruct Hplain as (Hdis & idf & sa & sr & Hidf & Hident & Hsa & Hcheck & Hsr & Hcount).
  destruct (Z.leb_spec (Z.of_nat j) (Limit q)) as [Hle|Hgt].
  - (* admitted *)
    destruct (handler_admits clock q o req keyId identity idf sa sr
                HkeyId Hidf Hident Hsa Hcheck Hsr Hcount NewRecorder w a Hh Hfresh)
      as (w' & Hrun & Hh' & Ht').
    { cbn [a Count]. lia. }
    cbn [a Count Start Duration] in Hrun, Hh'.
    assert (Hmin : Z.min (Z.of_nat j - 1) (Limit q) = Z.of_nat j - 1) by lia.
    rewrite Hmin in Hrun, Hh'.
    replace (Z.of_nat j - 1 + 1) with (Z.of_nat j) in Hrun, Hh' by lia.
    assert (Hu : u64 (Z.of_nat j) = Z.of_nat j).
    { unfold u64. apply Z.mod_small. lia. }
    rewrite Hu in Hrun, Hh'. rewrite rate_headers_overwrite in Hrun.
    assert (Hu' : u64 (Limit q - Z.of_nat j) = Limit q - Z.of_nat j).
    { unfold u64. apply Z.mod_small. lia. }
    rewrite Hu' in Hrun.
    apply (serve_step clock q o req n w w').
    + unfold Policy. rewrite Hdis, Hrun. do 2 f_equal.
      unfold expected_response.
      destruct (Z.leb_spec (Z.of_nat j) (Limit q)); [reflexivity | lia].
    + apply IH; [lia | |].
      * replace (Z.min (Z.of_nat (Datatypes.S j) - 1) (Limit q)) with (Z.of_nat j) by lia.
        exact Hh'.
      * intros i Hi. apply Hclk. lia.
  - (* refused *)
    destruct Hh as (Hmu & p & Hl & Hd).
    assert (Hmin : Z.min (Z.of_nat j - 1) (Limit q) = Limit q) by lia.
    pose proof (handler_refuses clock q o req keyId identity idf sa
                  HkeyId Hidf Hident Hsa Hcheck NewRecorder w p a Hl Hd
                  (Hfresh (tick w) ltac:(lia))
                  (Hfresh (Datatypes.S (tick w)) ltac:(lia))) as Hrun.
    cbn [a Count Start Duration] in Hrun. rewrite Hmin in Hrun.
    specialize (Hrun ltac:(lia)).
    replace (Limit q - Limit q) with 0 in Hrun by lia.
    change (u64 0) with 0 in Hrun.
    rewrite refusal_Recorder in Hrun; [|exact Hcode|reflexivity].
    apply (serve_step clock q o req n w (tock (tock w))).
    + unfold Policy. rewrite Hdis, Hrun. do 2 f_equal.
      unfold expected_response.
      destruct (Z.leb_spec (Z.of_nat j) (Limit q)); [lia | reflexivity].
    + apply IH; [lia | |].
      * replace (Z.min (Z.of_nat (Datatypes.S j) - 1) (Limit q)) with (Limit q) by lia.
        split; [exact Hmu|]. exists p. split; [exact Hl|].
        unfold a in Hd. rewrite Hmin in Hd. exact Hd.
      * intros i Hi. apply Hclk. cbn [tock tick] in Hi. lia.
Qed.

End Window.

(** From an empty store: the first request opens the window, the others
    run inside it. *)
Lemma serve_from_empty_store
    (clock : nat -> time.Time) (q : Quota) (o : @Options Recorder)
    (req : Request) (keyId identity : string) (n : nat) (w : world MapStore) :
  KeyId q = Return keyId ->
  plain_options o req identity ->
  0 < Limit q < 2 ^ 64 ->
  0 < Within q < 2 ^ 63 ->
  100 <= StatusCode o <= 999 ->
  mu w = false ->
  data (kv w) !! makeKey [KeyPrefix o; keyId; identity] = None ->
  time.year_in_range (clock (tick w + 5)%nat) = true ->
  (forall i, (tick w + 5 < i < tick w + 8 + 4 * n)%nat ->
             time.wall (clock i) - time.wall (clock (tick w + 5)%nat) < Within q) ->
  fst (serve clock q o req (Datatypes.S n) w)
  = Return (map (expected_response (Limit q)
                   (time_Unix (time.Add (time.UTC (clock (tick w + 5)%nat)) (Within q)))
                   (StatusCode o) (Message o))
              (seq 1 (Datatypes.S n))).
Proof.
  intros HkeyId Hplain HL HW Hcode Hmu Hl Hy Hclk.
  pose proof Hplain as
    (Hdis & idf & sa & sr & Hidf & Hident & Hsa & Hcheck & Hsr & Hcount).
  destruct (handler_first_request clock q o req keyId identity idf sa sr
              HkeyId Hidf Hident Hsa Hcheck Hsr Hcount NewRecorder w Hmu Hl
              ltac:(lia) HW Hy)
    as (w' & Hrun & Hh' & Ht').
  { intros i Hi. apply Hclk. lia. }
  rewrite rate_headers_overwrite in Hrun.
  assert (Hu : u64 (Limit q - 1) = Limit q - 1).
  { unfold u64. apply Z.mod_small. lia. }
  rewrite Hu in Hrun.
  cbn [seq map].
  apply (serve_step clock q o req n w w').
  - unfold Policy. rewrite Hdis, Hrun. do 2 f_equal.
    unfold expected_response. change (Z.of_nat 1) with 1.
    destruct (Z.leb_spec 1 (Limit q)); [reflexivity | lia].
  - apply (serve_inside_window clock q o req keyId identity
             (time.UTC (clock (tick w + 5)%nat)) HkeyId Hplain HL HW Hcode).
    + lia.
    + replace (Z.min (Z.of_nat 2 - 1) (Limit q)) with 1 by lia. exact Hh'.
    + intros i Hi. cbn [time.UTC time.wall]. apply Hclk. lia.
Qed.

(** X19.  Requests of one identity, one after the other from an empty store
    and all inside the window that the first of them opens: the first
    [Limit] of them are admitted, the [j]-th with the remaining header at
    [Limit - j] and with neither status nor body written, and every later
    one is refused with the status code and the message of the options and
    the remaining header at 0; all carry the same reset time, the start of
    the window plus [Within]. *)
Theorem Policy_admits_limit_requests_then_refuses
    (clock : nat -> time.Time) (q : Quota) (o : @Options Recorder)
    (req : Request) (keyId identity : string) (n : nat) (w : world MapStore) :
  KeyId q = Return keyId ->
  plain_options o req identity ->
  0 < Limit q < 2 ^ 64 ->
  0 < Within q < 2 ^ 63 ->
  100 <= StatusCode o <= 999 ->
  mu w = false ->
  data (kv w) !! makeKey [KeyPrefix o; keyId; identity] = None ->
  time.year_in_range (clock (tick w + 5)%nat) = true ->
  (forall i, (tick w + 5 < i < tick w + 8 + 4 * n)%nat ->
             time.wall (clock i) - time.wall (clock (tick w + 5)%nat) < Within q) ->
  fst (serve clock q o req (Datatypes.S n) w)
  = Return (map (expected_response (Limit q)
                   (time_Unix (time.Add (time.UTC (clock (tick w + 5)%nat)) (Within q)))
                   (StatusCode o) (Message o))
              (seq 1 (Datatypes.S n))).
Proof.
  intros HkeyId Hplain HL HW Hcode Hmu Hl Hy Hclk.
  now apply (serve_from_empty_store clock q o req keyId identity n w).
Qed.

(** *** The policy of the defaults *)

Lemma keeps_quiet {A} (P : MapStore -> Prop) (m : M MapStore A) :
  quiet m -> keeps P m.
Proof. intros Hq w HP. destruct (Hq w) as [-> _]. exact HP. Qed.

Lemma keeps_bind {A B} (P : MapStore -> Prop) (m : M MapStore A) (k : A -> M MapStore B) :
  keeps P m -> (forall a, keeps P (k a)) -> keeps P (bind m k).
Proof.
  intros Hm Hk w HP. unfold bind. specialize (Hm w HP).
  destruct (m w) as [[a|msg|] w1]; cbn [snd] in *; [|exact Hm|exact Hm].
  now apply Hk.
Qed.

Lemma keeps_RegisterAccess (clock : nat -> time.Time) c id :
  keeps (only_objects_at id) (RegisterAccess clock c id).
Proof.
  intros w [Hb Hobj]. destruct (RegisterAccess clock c id w) as [out w'] eqn:Hrun.
  cbn [snd]. destruct (RegisterAccess_store clock c id w out w' Hrun) as [->|[ms ->]].
  - split; assumption.
  - split; [exact Hb|]. cbn [data]. intros k v Hl.
    destruct (decide (k = id)) as [->|Hne].
    + rewrite lookup_insert_eq in Hl. injection Hl as <-. eauto.
    + rewrite lookup_insert_ne in Hl by congruence. eauto.
Qed.

Lemma sole_store id a (w : world MapStore) :
  sole id a w ->
  mu w = false /\
  exists ms, kv w = mkMapStore {[ id := json.Text (json.Object ms) ]} accessCount_zero.
Proof.
  intros [(Hmu & p & Hl & _) [Hb Hobj]]. split; [exact Hmu|].
  destruct (Hobj id p Hl) as (_ & ms & ->). exists ms.
  destruct (kv w) as [d b]. cbn [data binding] in *. subst b. f_equal.
  apply map_eq. intros k. destruct (decide (k = id)) as [->|Hne].
  - now rewrite lookup_singleton_eq.
  - rewrite lookup_singleton_ne by congruence.
    destruct (d !! k) as [v|] eqn:Hk; [|reflexivity].
    destruct (Hobj k v Hk) as [-> _]. contradiction.
Qed.

Section HandlerStore.

Variable clock : nat -> time.Time.
Variables (q : Quota) (o : @Options Recorder) (req : Request).
Variables (keyId identity : string).

Hypothesis HkeyId : KeyId q = Return keyId.
Hypothesis Hplain : plain_options o req identity.

(** The handler writes nothing but JSON objects, and under its own key. *)
Lemma Policy_keeps (resp : Recorder) :
  keeps (only_objects_at (makeKey [KeyPrefix o; keyId; identity]))
        (Policy clock q o resp req).
Proof.
  destruct Hplain as (Hdis & idf & sa & sr & Hidf & Hident & Hsa & Hcheck & Hsr & Hcount).
  intros w HP. unfold Policy. rewrite Hdis.
  rewrite (handler_with_key clock q o req keyId identity idf HkeyId Hidf Hident).
  revert w HP.
  match goal with
  | |- forall w, _ (kv w) -> _ (kv (snd (?m w))) =>
      change (keeps (only_objects_at (makeKey [KeyPrefix o; keyId; identity])) m)
  end.
  apply keeps_bind; [apply keeps_quiet, quiet_setRateLimitHeaders | intros r1].
  apply keeps_bind; [apply keeps_quiet, quiet_SkipAccessCheck | intros [b r2]].
  cbn [fst snd]. destruct b; [apply keeps_quiet, quiet_ret|].
  apply keeps_bind; [apply keeps_quiet, quiet_DeniesAccess | intros denies].
  destruct denies.
  - apply keeps_quiet. apply quiet_bind; [apply quiet_lift | intros r3; apply quiet_lift].
  - apply keeps_bind; [apply keeps_quiet, quiet_SkipRegister | intros [b r4]].
    cbn [fst snd]. destruct b; cbn [negb]; [apply keeps_quiet, quiet_ret|].
    apply keeps_bind; [apply keeps_RegisterAccess | intros []].
    apply keeps_quiet, quiet_setRateLimitHeaders.
Qed.

Hypothesis Hlimit : 0 < Limit q < 2 ^ 64.
Hypothesis Hwithin : 0 < Within q < 2 ^ 63.
Hypothesis Hcode : 100 <= StatusCode o <= 999.

(** [serve_inside_window], with the world the requests leave. *)
Lemma serve_inside_window_world (t0 : time.Time) (n : nat) :
  forall (j : nat) (w : world MapStore),
    (1 <= j)%nat ->
    sole (makeKey [KeyPrefix o; keyId; identity])
      (mkAccessCount (Z.min (Z.of_nat j - 1) (Limit q)) t0 (Within q)) w ->
    (forall i, (tick w <= i < tick w + 4 * n)%nat ->
               time.wall (clock i) - time.wall t0 < Within q) ->
    exists w',
      serve clock q o req n w
      = (Return (map (expected_response (Limit q)
                        (time_Unix (time.Add t0 (Within q)))
                        (StatusCode o) (Message o))
                   (seq j n)), w') /\
      sole (makeKey [KeyPrefix o; keyId; identity])
        (mkAccessCount (Z.min (Z.of_nat (j + n) - 1) (Limit q)) t0 (Within q)) w' /\
      (tick w <= tick w' <= tick w + 4 * n)%nat.
Proof.
  induction n as [|n IH]; intros j w Hj Hs Hclk.
  { exists w. split; [reflexivity|]. split; [|lia].
    now replace (j + 0)%nat with j by lia. }
  cbn [seq map].
  set (id := makeKey [KeyPrefix o; keyId; identity]) in *.
  set (a := mkAccessCount (Z.min (Z.of_nat j - 1) (Limit q)) t0 (Within q)) in *.
  destruct Hs as [Hh Hobj].
  assert (Hfresh : forall i, (tick w <= i < tick w + 4)%nat ->
                             fresh_at (clock i) a = true).
  { intros i Hi. apply fresh_at_within; [exact Hwithin|]. apply Hclk. lia. }
  pose proof (Policy_keeps NewRecorder w Hobj) as Hkeep.
  destruct Hplain as (Hdis & idf & sa & sr & Hidf & Hident & Hsa & Hcheck & Hsr & Hcount).
  destruct (Z.leb_spec (Z.of_nat j) (Limit q)) as [Hle|Hgt].
  - (* admitted *)
    destruct (handler_admits clock q o req keyId identity idf sa sr
                HkeyId Hidf Hident Hsa Hcheck Hsr Hcount NewRecorder w a Hh Hfresh)
      as (w1 & Hrun & Hh1 & Ht1).
    { cbn [a Count]. lia. }
    cbn [a Count Start Duration] in Hrun, Hh1.
    assert (Hmin : Z.min (Z.of_nat j - 1) (Limit q) = Z.of_nat j - 1) by lia.
    rewrite Hmin in Hrun, Hh1.
    replace (Z.of_nat j - 1 + 1) with (Z.of_nat j) in Hrun, Hh1 by lia.
    assert (Hu : u64 (Z.of_nat j) = Z.of_nat j).
    { unfold u64. apply Z.mod_small. lia. }
    rewrite Hu in Hrun, Hh1. rewrite rate_headers_overwrite in Hrun.
    assert (Hu' : u64 (Limit q - Z.of_nat j) = Limit q - Z.of_nat j).
    { unfold u64. apply Z.mod_small. lia. }
    rewrite Hu' in Hrun.
    assert (Hp : Policy clock q o NewRecorder req w
                 = (Return (expected_response (Limit q) (time_Unix (time.Add t0 (Within q)))
                              (StatusCode o) (Message o) j), w1)).
    { unfold Policy. rewrite Hdis, Hrun. do 2 f_equal.
      unfold expected_response.
      destruct (Z.leb_spec (Z.of_nat j) (Limit q)); [reflexivity | lia]. }
    rewrite Hp in Hkeep. cbn [snd] in Hkeep.
    destruct (IH (Datatypes.S j) w1) as (w' & Hserve & Hs' & Ht').
    + lia.
    + split; [|exact Hkeep].
      replace (Z.min (Z.of_nat (Datatypes.S j) - 1) (Limit q)) with (Z.of_nat j) by lia.
      exact Hh1.
    + intros i Hi. apply Hclk. lia.
    + exists w'. split; [|split].
      * cbn [serve]. unfold bind at 1. rewrite Hp. unfold bind at 1. rewrite Hserve.
        reflexivity.
      * now replace (j + Datatypes.S n)%nat with (Datatypes.S j + n)%nat by lia.
      * lia.
  - (* refused *)
    pose proof Hh as (Hmu & p & Hl & Hd).
    assert (Hmin : Z.min (Z.of_nat j - 1) (Limit q) = Limit q) by lia.
    pose proof (handler_refuses clock q o req keyId identity idf sa
                  HkeyId Hidf Hident Hsa Hcheck NewRecorder w p a Hl Hd
                  (Hfresh (tick w) ltac:(lia))
                  (Hfresh (Datatypes.S (tick w)) ltac:(lia))) as Hrun.
    cbn [a Count Start Duration] in Hrun. rewrite Hmin in Hrun.
    specialize (Hrun ltac:(lia)).
    replace (Limit q - Limit q) with 0 in Hrun by lia.
    change (u64 0) with 0 in Hrun.
    rewrite refusal_Recorder in Hrun; [|exact Hcode|reflexivity].
    assert (Hp : Policy clock q o NewRecorder req w
                 = (Return (expected_response (Limit q) (time_Unix (time.Add t0 (Within q)))
                              (StatusCode o) (Message o) j), tock (tock w))).
    { unfold Policy. rewrite Hdis, Hrun. do 2 f_equal.
      unfold expected_response.
      destruct (Z.leb_spec (Z.of_nat j) (Limit q)); [lia | reflexivity]. }
    destruct (IH (Datatypes.S j) (tock (tock w))) as (w' & Hserve & Hs' & Ht').
    + lia.
    + replace (Z.min (Z.of_nat (Datatypes.S j) - 1) (Limit q)) with (Limit q) by lia.
      split; [|exact Hobj].
      split; [exact Hmu|]. exists p. split; [exact Hl|].
      unfold a in Hd. rewrite Hmin in Hd. exact Hd.
    + intros i Hi. apply Hclk. cbn [tock tick] in Hi. lia.
    + exists w'. split; [|split].
      * cbn [serve]. unfold bind at 1. rewrite Hp. unfold bind at 1. rewrite Hserve.
        reflexivity.
      * now replace (j + Datatypes.S n)%nat with (Datatypes.S j + n)%nat by lia.
      * cbn [tock tick] in Ht'. lia.
Qed.

(** [serve_from_empty_store] on a store that is empty, with the world the
    requests leave. *)
Lemma serve_from_empty_world (n : nat) (w : world MapStore) :
  mu w = false ->
  kv w = mkMapStore ∅ accessCount_zero ->
  time.year_in_range (clock (tick w + 5)%nat) = true ->
  (forall i, (tick w + 5 < i < tick w + 8 + 4 * n)%nat ->
             time.wall (clock i) - time.wall (clock (tick w + 5)%nat) < Within q) ->
  exists w' a,
    serve clock q o req (Datatypes.S n) w
    = (Return (map (expected_response (Limit q)
                      (time_Unix (time.Add (time.UTC (clock (tick w + 5)%nat)) (Within q)))
                      (StatusCode o) (Message o))
                 (seq 1 (Datatypes.S n))), w') /\
    sole (makeKey [KeyPrefix o; keyId; identity]) a w' /\
    (tick w + 8 <= tick w' <= tick w + 8 + 4 * n)%nat.
Proof.
  intros Hmu Hkv Hy Hclk.
  set (id := makeKey [KeyPrefix o; keyId; identity]).
  assert (Hobj : only_objects_at id (kv w)).
  { rewrite Hkv. split; [reflexivity|]. intros k v Hl. cbn [data] in Hl.
    now rewrite lookup_empty in Hl. }
  assert (Hl : data (kv w) !! id = None) by (rewrite Hkv; apply lookup_empty).
  pose proof (Policy_keeps NewRecorder w Hobj) as Hkeep.
  pose proof Hplain as
    (Hdis & idf & sa & sr & Hidf & Hident & Hsa & Hcheck & Hsr & Hcount).
  destruct (handler_first_request clock q o req keyId identity idf sa sr
              HkeyId Hidf Hident Hsa Hcheck Hsr Hcount NewRecorder w Hmu Hl
              ltac:(lia) Hwithin Hy)
    as (w1 & Hrun & Hh1 & Ht1).
  { intros i Hi. apply Hclk. lia. }
  rewrite rate_headers_overwrite in Hrun.
  assert (Hu : u64 (Limit q - 1) = Limit q - 1).
  { unfold u64. apply Z.mod_small. lia. }
  rewrite Hu in Hrun.
  assert (Hp : Policy clock q o NewRecorder req w
               = (Return (expected_response (Limit q)
                            (time_Unix (time.Add (time.UTC (clock (tick w + 5)%nat)) (Within q)))
                            (StatusCode o) (Message o) 1), w1)).
  { unfold Policy. rewrite Hdis, Hrun. do 2 f_equal.
    unfold expected_response. change (Z.of_nat 1) with 1.
    destruct (Z.leb_spec 1 (Limit q)); [reflexivity | lia]. }
  rewrite Hp in Hkeep. cbn [snd] in Hkeep.
  destruct (serve_inside_window_world (time.UTC (clock (tick w + 5)%nat)) n 2 w1)
    as (w' & Hserve & Hs' & Ht').
  - lia.
  - split; [|exact Hkeep].
    replace (Z.min (Z.of_nat 2 - 1) (Limit q)) with 1 by lia. exact Hh1.
  - intros i Hi. cbn [time.UTC time.wall]. apply Hclk. lia.
  - exists w'. eexists. split; [|split; [exact Hs'|lia]].
    cbn [serve seq map]. unfold bind at 1. rewrite Hp. unfold bind at 1.
    rewrite Hserve. reflexivity.
Qed.

End HandlerStore.

(** Requests at the head of a schedule. *)
Lemma serve_events_requests (clock : nat -> time.Time) (q : Quota)
    (o : @Options Recorder) (req : Request) (g : goroutine) (evs : list event)
    (k : nat) :
  forall (w w1 : world MapStore) (rs rs' : list Recorder),
    serve clock q o req k w = (Return rs, w1) ->
    fst (serve_events clock q o req g evs w1) = Return rs' ->
    fst (serve_events clock q o req g (replicate k ev_request ++ evs) w)
    = Return (rs ++ rs').
Proof.
  induction k as [|k IH]; intros w w1 rs rs' Hs He.
  - cbn in Hs. injection Hs as <- <-. exact He.
  - cbn [serve] in Hs. unfold bind at 1 in Hs.
    cbn [replicate app serve_events]. unfold bind at 1.
    destruct (Policy clock q o NewRecorder req w) as [[r|msg|] w0]; try discriminate.
    unfold bind at 1 in Hs. unfold bind at 1.
    destruct (serve clock q o req k w0) as [[rs0|msg|] w1'] eqn:Hk; try discriminate.
    cbn in Hs. injection Hs as <- <-.
    specialize (IH w0 w1' rs0 rs' Hk He).
    destruct (serve_events clock q o req g (replicate k ev_request ++ evs) w0)
      as [out w2]. cbn [fst] in IH. subst out. reflexivity.
Qed.

(** The sweeper's turn on a store with one record, and the requests after
    it. *)
Lemma serve_events_tick (clock : nat -> time.Time) (q : Quota)
    (o : @Options Recorder) (req : Request) (evs : list event)
    (id : string) (ms : list (string * json.value)) (t : nat) :
  0 <= time.wall (clock t) ->
  serve_events clock q o req default_sweeper (ev_tick :: evs)
    (mkWorld t false (mkMapStore {[ id := json.Text (json.Object ms) ]} accessCount_zero))
  = serve_events clock q o req default_sweeper evs
      (mkWorld (Datatypes.S t) false (mkMapStore ∅ accessCount_zero)).
Proof.
  intros Hn. cbn [serve_events]. unfold bind at 1.
  change (goroutine_turn clock default_sweeper) with (MapStore_Clean clock).
  now rewrite (Clean_single_record clock id ms t false Hn).
Qed.

(** X20.  The policy without options, on the store that [newOptions] makes
    for it, together with the sweeper that [NewMapStore] starts on that
    store (period 15 minutes).  Requests carry no forwarded-for header and
    come from an address [host:port], so they are identified by the host;
    all readings of the clock fall inside one window.  As long as the
    sweeper takes no turn between the requests, the first [Limit] of them
    are admitted and the later ones are refused with status 429 and the
    message [Too Many Requests].  A turn of the sweeper between two requests
    empties the store, so the requests after it are counted from 1 again in
    a new window, although the old window has not ended. *)
Theorem default_Policy_counts_between_sweeps
    (ParseIP : string -> option string)
    (SplitHostPort : string -> result (string * string))
    (clock : nat -> time.Time) (q : Quota) (req : Request)
    (keyId host port : string) (n m t : nat) :
  KeyId q = Return keyId ->
  Header_Get (ReqHeader req) forwardedForHeader = EmptyString ->
  SplitHostPort (RemoteAddr req) = Ok (host, port) ->
  0 < Limit q < 2 ^ 64 ->
  0 < Within q < 2 ^ 63 ->
  (forall i, (t <= i < t + 4 * (n + m) + 17)%nat ->
             time.year_in_range (clock i) = true /\ 0 <= time.wall (clock i)) ->
  (forall i j, (t <= i <= j)%nat -> (j < t + 4 * (n + m) + 17)%nat ->
               time.wall (clock j) - time.wall (clock i) < Within q) ->
  exists (o : @Options Recorder) (s : MapStore) (g : goroutine),
    NewMapStore accessCount_zero [] = Return (s, g) /\
    g = go_CleanEvery (15 * time.Minute) /\
    newOptions ParseIP SplitHostPort [] = Return (o, [g]) /\
    Store o = Some (MapStore_Storer s) /\
    fst (serve_events clock q o req g (replicate (Datatypes.S n) ev_request)
           (mkWorld t false s))
    = Return (map (expected_response (Limit q)
                     (time_Unix (time.Add (time.UTC (clock (t + 5)%nat)) (Within q)))
                     StatusTooManyRequests "Too Many Requests")
                (seq 1 (Datatypes.S n))) /\
    exists t' : nat,
      (t + 8 < t' <= t + 9 + 4 * n)%nat /\
      fst (serve_events clock q o req g
             (replicate (Datatypes.S n) ev_request
              ++ ev_tick :: replicate (Datatypes.S m) ev_request)
             (mkWorld t false s))
      = Return (map (expected_response (Limit q)
                       (time_Unix (time.Add (time.UTC (clock (t + 5)%nat)) (Within q)))
                       StatusTooManyRequests "Too Many Requests")
                  (seq 1 (Datatypes.S n))
                ++ map (expected_response (Limit q)
                          (time_Unix (time.Add (time.UTC (clock (t' + 5)%nat)) (Within q)))
                          StatusTooManyRequests "Too Many Requests")
                     (seq 1 (Datatypes.S m))).
Proof.
  intros HkeyId Hfwd Hsplit HL HW Hclock Hwin.
  set (o := mkOptions defaultStatusCode defaultMessage
              (Some (defaultIdentify ParseIP SplitHostPort)) defaultKeyPrefix
              (Some default_Storer) defaultDisabled
              (Some (@defaultSkipRegister Recorder))
              (Some (@defaultSkipAccess Recorder))).
  assert (Hplain : plain_options o req host).
  { split; [reflexivity|].
    exists (defaultIdentify ParseIP SplitHostPort), defaultSkipAccess, defaultSkipRegister.
    repeat split.
    unfold defaultIdentify. rewrite Hfwd, Hsplit. reflexivity. }
  assert (Hcode : 100 <= StatusCode o <= 999).
  { cbn [o StatusCode]. unfold defaultStatusCode, StatusTooManyRequests. lia. }
  exists o, (mkMapStore ∅ accessCount_zero), default_sweeper.
  split; [reflexivity|]. split; [reflexivity|]. split; [reflexivity|].
  split; [reflexivity|].
  set (w := mkWorld t false (mkMapStore ∅ accessCount_zero)).
  destruct (serve_from_empty_world clock q o req keyId host HkeyId Hplain HL HW Hcode n w)
    as (w1 & a & Hserve & Hsole & Ht1); [reflexivity | reflexivity | | |].
  { apply Hclock. cbn. lia. }
  { intros i Hi. cbn [w tick] in Hi |- *. apply Hwin; lia. }
  cbn [w tick] in Hserve, Ht1.
  change (StatusCode o) with StatusTooManyRequests in Hserve.
  change (Message o) with "Too Many Requests"%string in Hserve.
  split.
  - rewrite <- (app_nil_r (replicate (Datatypes.S n) ev_request)).
    rewrite <- (app_nil_r (map _ _)).
    now apply (serve_events_requests clock q o req default_sweeper [] (Datatypes.S n) w w1).
  - exists (Datatypes.S (tick w1)). split; [lia|].
    apply (serve_events_requests clock q o req default_sweeper _ (Datatypes.S n) w w1);
      [exact Hserve|].
    destruct (sole_store _ _ _ Hsole) as (Hmu1 & ms & Hkv1).
    destruct w1 as [t1 m1 s1]. cbn [mu kv tick] in *. subst m1 s1.
    rewrite serve_events_tick by (apply Hclock; lia).
    set (w2 := mkWorld (Datatypes.S t1) false (mkMapStore ∅ accessCount_zero)).
    destruct (serve_from_empty_world clock q o req keyId host HkeyId Hplain HL HW Hcode m w2)
      as (w3 & a3 & Hserve3 & _ & _); [reflexivity | reflexivity | | |].
    { apply Hclock. cbn. lia. }
    { intros i Hi. cbn [w2 tick] in Hi |- *. apply Hwin; lia. }
    cbn [w2 tick] in Hserve3.
    change (StatusCode o) with StatusTooManyRequests in Hserve3.
    change (Message o) with "Too Many Requests"%string in Hserve3.
    rewrite <- (app_nil_r (replicate (Datatypes.S m) ev_request)).
    rewrite <- (app_nil_r (map _ (seq 1 (Datatypes.S m)))).
    now apply (serve_events_requests clock q o req default_sweeper []
                 (Datatypes.S m) w2 w3).
Qed.


(** * Properties of the sweeper *)

Section SweeperProperties.

Variable clock : nat -> time.Time.

(** A sweep of a store whose records are all JSON objects. *)
Lemma MapStore_Clean_objects (w : world MapStore) :
  binding (kv w) = accessCount_zero ->
  (forall i, (tick w <= i)%nat -> 0 <= time.wall (clock i)) ->
  (forall k v, data (kv w) !! k = Some v -> exists ms, v = json.Text (json.Object ms)) ->
  MapStore_Clean clock w
  = (Return tt, mkWorld (tick w + size (data (kv w))) (mu w) (mkMapStore ∅ accessCount_zero)).
Proof.
  intros Hb Hclk Hall.
  assert (Hkeys : forall k, k ∈ (map_to_list (data (kv w))).*1 <-> is_Some (data (kv w) !! k)).
  { intros k. rewrite list_elem_of_fmap. split.
    - intros ([k' v] & -> & Hin). apply elem_of_map_to_list in Hin. cbn. eauto.
    - intros [v Hv]. exists (k, v). split; [reflexivity|]. now apply elem_of_map_to_list. }
  unfold MapStore_Clean, bind at 1, get_kv.
  destruct (Clean_keys_deletes_all clock (map_to_list (data (kv w))).*1 w Hclk)
    as (m' & Hrun & Hm').
  - split; [exact Hb|]. intros k Hk. apply Hkeys in Hk as [v Hv].
    destruct (Hall k v Hv) as (ms & ->). eauto.
  - apply NoDup_fst_map_to_list.
  - rewrite Hrun. rewrite length_fmap, length_map_to_list.
    do 2 f_equal. f_equal.
    apply map_eq. intros k. rewrite Hm', lookup_empty.
    case_decide as Hin; [reflexivity|].
    destruct (data (kv w) !! k) eqn:Hk; [|reflexivity].
    exfalso. apply Hin, Hkeys. eauto.
Qed.

(** With nothing in the store a turn of the sweeper reads no clock. *)
Lemma CleanEvery_empty (cleaningPeriod : time.Duration) (n : nat) (w : world MapStore) :
  0 < cleaningPeriod ->
  data (kv w) = ∅ ->
  CleanEvery clock cleaningPeriod n w = (Blocked, w).
Proof.
  intros Hp He. induction n as [|n IH]; [reflexivity|].
  cbn [CleanEvery]. unfold bind at 1, CleanEvery_turn.
  destruct (Z.leb_spec cleaningPeriod 0); [lia|].
  unfold MapStore_Clean, bind at 1, get_kv. rewrite He, map_to_list_empty.
  cbn [fmap list_fmap Clean_keys]. unfold ret. exact IH.
Qed.

Lemma CleanEvery_does_not_return (cleaningPeriod : time.Duration) (n : nat) :
  forall (w : world MapStore) r, fst (CleanEvery clock cleaningPeriod n w) <> Return r.
Proof.
  induction n as [|n IH]; intros w r; [discriminate|].
  cbn [CleanEvery]. unfold bind at 1.
  destruct (CleanEvery_turn clock cleaningPeriod w) as [[[]|msg|] w1];
    [apply IH | discriminate | discriminate].
Qed.

End SweeperProperties.

(** X21.  The sweeper that [NewMapStore] starts.  The store returned is empty
    and holds the binding given; the goroutine is [CleanEvery] with the
    period of [newMapStoreOptions], which is never 0.  [CleanEvery] never
    returns, however many ticks it receives.  With a negative period it
    never cleans: the channel of [time.Tick] is nil and the store stays as
    it is.  With a positive period, on a store with the empty binding whose
    records are all JSON objects and at readings not before the zero time,
    the first tick empties the store and the later ticks find nothing. *)
Theorem NewMapStore_starts_the_sweeper
    (clock : nat -> time.Time) (b : accessCount)
    (options : list (option MapStoreOptions)) (s : MapStore) (g : goroutine) :
  NewMapStore b options = Return (s, g) ->
  s = mkMapStore ∅ b /\
  exists cleaningPeriod : time.Duration,
    g = go_CleanEvery cleaningPeriod /\
    newMapStoreOptions options = Return (mkMapStoreOptions cleaningPeriod) /\
    cleaningPeriod <> 0 /\
    forall (n : nat) (w : world MapStore),
      (forall r, fst (CleanEvery clock cleaningPeriod n w) <> Return r) /\
      (cleaningPeriod < 0 -> CleanEvery clock cleaningPeriod n w = (Blocked, w)) /\
      (0 < cleaningPeriod ->
       binding (kv w) = accessCount_zero ->
       (forall i, (tick w <= i)%nat -> 0 <= time.wall (clock i)) ->
       (forall k v, data (kv w) !! k = Some v ->
                    exists ms, v = json.Text (json.Object ms)) ->
       CleanEvery clock cleaningPeriod (Datatypes.S n) w
       = (Blocked, mkWorld (tick w + size (data (kv w))) (mu w)
                     (mkMapStore ∅ accessCount_zero))).
Proof.
  unfold NewMapStore. intros Hnew.
  destruct (newMapStoreOptions options) as [[cleaningPeriod]| |] eqn:Hopt;
    try discriminate.
  injection Hnew as <- <-. split; [reflexivity|].
  exists cleaningPeriod. split; [reflexivity|]. split; [reflexivity|].
  assert (Hdef : defaultCleaningPeriod <> 0) by (vm_compute; discriminate).
  assert (Hnz : cleaningPeriod <> 0).
  { destruct options as [|[o0|] rest]; cbn in Hopt.
    - injection Hopt as <-. exact Hdef.
    - destruct (Z.eqb_spec (CleaningPeriod o0) 0) as [He|Hne]; cbn in Hopt;
        injection Hopt as <-; [exact Hdef | exact Hne].
    - discriminate. }
  split; [exact Hnz|]. intros n w.
  split; [apply CleanEvery_does_not_return|]. split.
  - intros Hneg. destruct n as [|n]; [reflexivity|].
    cbn [CleanEvery]. unfold bind at 1, CleanEvery_turn.
    destruct (Z.leb_spec cleaningPeriod 0); [reflexivity | lia].
  - intros Hpos Hb Hclk Hall.
    cbn [CleanEvery]. unfold bind at 1, CleanEvery_turn.
    destruct (Z.leb_spec cleaningPeriod 0); [lia|].
    rewrite (MapStore_Clean_objects clock w Hb Hclk Hall).
    now apply CleanEvery_empty.
Qed.

(** * The further properties on sample values *)

Lemma sample_clock_not_before_zero (i : nat) : 0 <= time.wall (sample_clock i).
Proof.
  assert (Hi : 0 <= sample_instant) by (vm_compute; discriminate).
  unfold sample_clock, time.Millisecond. cbn [time.wall]. lia.
Defined.

Lemma sample_options_plain : plain_options sample_options sample_request "1.2.3.4".
Proof.
  split; [reflexivity|].
  exists (defaultIdentify sample_ParseIP sample_SplitHostPort),
         defaultSkipAccess, defaultSkipRegister.
  repeat split.
Defined.

(** Registering the sample identity leaves another key alone. *)
Lemma RegisterAccess_touches_one_key_witness :
  sample_id <> "throttle_5000000_5.6.7.8"%string /\
  data (kv (snd (RegisterAccess sample_clock sample_controller sample_id sample_world)))
    !! "throttle_5000000_5.6.7.8"%string
  = data (kv sample_world) !! "throttle_5000000_5.6.7.8"%string /\
  binding (kv (snd (RegisterAccess sample_clock sample_controller sample_id sample_world)))
  = binding (kv sample_world).
Proof.
  assert (Hne : sample_id <> "throttle_5000000_5.6.7.8"%string)
    by (unfold sample_id; discriminate).
  split; [exact Hne|].
  exact (RegisterAccess_touches_one_key sample_clock sample_controller sample_id
           "throttle_5000000_5.6.7.8" sample_world Hne).
Defined.

(** A counter of ten milliseconds, read two milliseconds after its start. *)
Lemma IsFresh_iff_within_window_witness :
  let r := sample_counter 1 (10 * time.Millisecond) in
  - 2 ^ 63 < Duration r < 2 ^ 63 /\
  fst (IsFresh sample_clock r (world_with r 2)) = Return true.
Proof.
  cbv zeta.
  assert (Hd : - 2 ^ 63 < Duration (sample_counter 1 (10 * time.Millisecond)) < 2 ^ 63)
    by machine_range.
  split; [exact Hd|].
  destruct (IsFresh_iff_within_window sample_clock MapStore
              (sample_counter 1 (10 * time.Millisecond))
              (world_with (sample_counter 1 (10 * time.Millisecond)) 2) Hd)
    as [[_ Hfresh] _].
  apply Hfresh. vm_compute. reflexivity.
Defined.

(** Count 5 under limit 2, read twenty milliseconds after the start of a
    window of ten. *)
Lemma stale_counter_counts_for_nothing_witness :
  let a := sample_counter 5 (10 * time.Millisecond) in
  let w := world_with a 20 in
  0 < Limit (quota sample_controller) < 2 ^ 64 /\
  data (kv w) !! sample_id = Some (marshalled a) /\
  Decode accessCount_zero (marshalled a) = Ok a /\
  fst (IsFresh sample_clock a w) = Return false /\
  DeniesAccess sample_clock sample_controller sample_id w = (Return false, tock w) /\
  RemainingLimit sample_clock sample_controller sample_id w = (Return 2, tock w).
Proof.
  cbv zeta.
  assert (HL : 0 < Limit (quota sample_controller) < 2 ^ 64) by machine_range.
  assert (Hd : Decode accessCount_zero (marshalled (sample_counter 5 (10 * time.Millisecond)))
               = Ok (sample_counter 5 (10 * time.Millisecond))) by (vm_compute; reflexivity).
  assert (Hf : fst (IsFresh sample_clock (sample_counter 5 (10 * time.Millisecond))
                      (world_with (sample_counter 5 (10 * time.Millisecond)) 20))
               = Return false) by (vm_compute; reflexivity).
  split; [exact HL|]. split; [reflexivity|]. split; [exact Hd|]. split; [exact Hf|].
  exact (stale_counter_counts_for_nothing sample_clock sample_controller sample_id
           (world_with (sample_counter 5 (10 * time.Millisecond)) 20)
           (marshalled (sample_counter 5 (10 * time.Millisecond)))
           (sample_counter 5 (10 * time.Millisecond)) HL eq_refl Hd Hf).
Defined.

(** Count 2 under limit 2, inside the window: nothing remains, access is
    denied. *)
Lemma DeniesAccess_iff_nothing_remains_witness :
  let a := sample_counter 2 (10 * time.Millisecond) in
  let w := world_with a 2 in
  Limit (quota sample_controller) < 2 ^ 64 /\
  data (kv w) !! sample_id = Some (marshalled a) /\
  Decode accessCount_zero (marshalled a) = Ok a /\
  fst (IsFresh sample_clock a w) = Return true /\
  fst (IsFresh sample_clock a (tock w)) = Return true /\
  Count a <= Limit (quota sample_controller) /\
  RemainingLimit sample_clock sample_controller sample_id w = (Return 0, tock w) /\
  DeniesAccess sample_clock sample_controller sample_id (tock w)
  = (Return true, tock (tock w)).
Proof.
  cbv zeta.
  assert (HL : Limit (quota sample_controller) < 2 ^ 64) by machine_range.
  assert (Hd : Decode accessCount_zero (marshalled (sample_counter 2 (10 * time.Millisecond)))
               = Ok (sample_counter 2 (10 * time.Millisecond))) by (vm_compute; reflexivity).
  assert (Hf : fst (IsFresh sample_clock (sample_counter 2 (10 * time.Millisecond))
                      (world_with (sample_counter 2 (10 * time.Millisecond)) 2))
               = Return true) by (vm_compute; reflexivity).
  assert (Hf2 : fst (IsFresh sample_clock (sample_counter 2 (10 * time.Millisecond))
                       (tock (world_with (sample_counter 2 (10 * time.Millisecond)) 2)))
                = Return true) by (vm_compute; reflexivity).
  assert (Hc : Count (sample_counter 2 (10 * time.Millisecond))
               <= Limit (quota sample_controller)) by machine_range.
  split; [exact HL|]. split; [reflexivity|]. split; [exact Hd|]. split; [exact Hf|].
  split; [exact Hf2|]. split; [exact Hc|].
  destruct (DeniesAccess_iff_nothing_remains sample_clock sample_controller sample_id
              (world_with (sample_counter 2 (10 * time.Millisecond)) 2)
              (tock (world_with (sample_counter 2 (10 * time.Millisecond)) 2))
              (marshalled (sample_counter 2 (10 * time.Millisecond)))
              (sample_counter 2 (10 * time.Millisecond)) HL eq_refl Hd eq_refl Hf Hf2 Hc)
    as (n & b & Hrem & Hden & Hn & Hb).
  assert (Hn0 : n = 0) by (rewrite Hn; reflexivity).
  split.
  - rewrite Hrem, Hn0. reflexivity.
  - rewrite Hden. rewrite (proj2 Hb Hn0). reflexivity.
Defined.

(** A record that is not JSON under the sample key. *)
Lemma undecodable_record_panics_witness :
  exists e,
    data (kv sample_world_malformed) !! sample_id = Some json.Malformed /\
    Decode accessCount_zero json.Malformed = Err e /\
    DeniesAccess sample_clock sample_controller sample_id sample_world_malformed
    = (Panic e, sample_world_malformed) /\
    RegisterAccess sample_clock sample_controller sample_id sample_world_malformed
    = (Panic e, sample_world_malformed).
Proof.
  eexists. split; [reflexivity|]. split; [reflexivity|].
  destruct (undecodable_record_panics sample_clock sample_controller sample_id
              sample_world_malformed json.Malformed _ eq_refl eq_refl)
    as (_ & Hden & _ & _ & Hreg).
  split; [exact Hden | exact (Hreg eq_refl)].
Defined.

(** One request a second and three requests a second, two identities. *)
Lemma makeKey_tells_policy_and_identity_witness :
  let q1 := mkQuota 1 time.Second in
  let q2 := mkQuota 3 time.Second in
  (0 < Limit q1 < 2 ^ 64 /\ 0 < Within q1 < 2 ^ 63) /\
  (0 < Limit q2 < 2 ^ 64 /\ 0 < Within q2 < 2 ^ 63) /\
  exists k1 k2,
    KeyId q1 = Return k1 /\ KeyId q2 = Return k2 /\
    (makeKey ["throttle"; k1; "1.2.3.4"]%string = makeKey ["throttle"; k2; "5.6.7.8"]%string
     <-> k1 = k2 /\ "1.2.3.4"%string = "5.6.7.8"%string).
Proof.
  cbv zeta.
  assert (H1 : 0 < Limit (mkQuota 1 time.Second) < 2 ^ 64) by (cbn [Limit]; lia).
  assert (H2 : 0 < Within (mkQuota 1 time.Second) < 2 ^ 63)
    by (cbn [Within]; unfold time.Second; lia).
  assert (H3 : 0 < Limit (mkQuota 3 time.Second) < 2 ^ 64) by (cbn [Limit]; lia).
  assert (H4 : 0 < Within (mkQuota 3 time.Second) < 2 ^ 63)
    by (cbn [Within]; unfold time.Second; lia).
  split; [split; assumption|]. split; [split; assumption|].
  exact (makeKey_tells_policy_and_identity (mkQuota 1 time.Second) (mkQuota 3 time.Second)
           "throttle" "1.2.3.4" "5.6.7.8" H1 H2 H3 H4).
Defined.


(** A store with one counter, fresh for an hour: the sweep empties it. *)
Lemma Clean_empties_the_store_or_panics_witness :
  let w := world_with (sample_counter 1 time.Hour) 1 in
  binding (kv w) = accessCount_zero /\
  (forall i, (tick w <= i)%nat -> 0 <= time.wall (sample_clock i)) /\
  size (data (kv w)) = 1%nat /\
  MapStore_Clean sample_clock w
  = (Return tt, mkWorld (tick w + size (data (kv w))) (mu w) (mkMapStore ∅ accessCount_zero)).
Proof.
  cbv zeta.
  assert (Hclk : forall i, (tick (world_with (sample_counter 1 time.Hour) 1) <= i)%nat ->
                           0 <= time.wall (sample_clock i))
    by (intros i _; apply sample_clock_not_before_zero).
  split; [reflexivity|]. split; [exact Hclk|]. split; [apply map_size_singleton|].
  apply (proj1 (Clean_empties_the_store_or_panics sample_clock
                  (world_with (sample_counter 1 time.Hour) 1) eq_refl Hclk)).
  intros k v Hl. cbn [world_with kv data] in Hl.
  apply lookup_singleton_Some in Hl as [_ <-].
  eexists. vm_compute. reflexivity.
Defined.

(** Options that give nothing but [Disabled]. *)
Lemma newOptions_is_complete_witness :
  exists (o : @Options Recorder) (started : list goroutine),
    newOptions sample_ParseIP sample_SplitHostPort
      [Some (mkOptions 0 "" None "" None true None None)] = Return (o, started) /\
    StatusCode o <> 0 /\ Message o <> ""%string /\ KeyPrefix o <> ""%string /\
    is_Some (IdentificationFunction o) /\ is_Some (Store o) /\
    is_Some (SkipRegisterFunction o) /\ is_Some (SkipAccessCheckFunction o).
Proof.
  do 2 eexists. split; [reflexivity|].
  eapply (newOptions_is_complete sample_ParseIP sample_SplitHostPort Recorder
            [Some (mkOptions 0 "" None "" None true None None)]).
  reflexivity.
Defined.

(** A request that is never counted, on a store that holds a counter, and
    the same request under the default options, disabled. *)
Lemma Policy_handler_writes_only_when_counting_witness :
  let w := world_with (sample_counter 1 (10 * time.Millisecond)) 2 in
  (exists sr, SkipRegisterFunction sample_options_uncounted = Some sr /\
              forall r b r', sr r sample_request = Return (b, r') -> b = true) /\
  kv (snd (Policy_handler sample_clock sample_quota sample_options_uncounted
             sample_controller NewRecorder sample_request w)) = kv w /\
  mu (snd (Policy_handler sample_clock sample_quota sample_options_uncounted
             sample_controller NewRecorder sample_request w)) = mu w /\
  Disabled sample_options_disabled = true /\
  Policy sample_clock sample_quota sample_options_disabled NewRecorder sample_request w
  = (Return NewRecorder, w).
Proof.
  cbv zeta.
  assert (Hsr : exists sr, SkipRegisterFunction sample_options_uncounted = Some sr /\
                  forall r b r', sr r sample_request = Return (b, r') -> b = true).
  { eexists. split; [reflexivity|]. intros r b r' [= <- _]. reflexivity. }
  split; [exact Hsr|].
  destruct (Policy_handler_writes_only_when_counting sample_clock MapStore _ Recorder _
              sample_quota sample_options_uncounted sample_controller NewRecorder
              sample_request (world_with (sample_counter 1 (10 * time.Millisecond)) 2))
    as [_ Hquiet].
  destruct (Hquiet (or_intror Hsr)) as [Hkv Hmu].
  split; [exact Hkv|]. split; [exact Hmu|]. split; [reflexivity|].
  exact (proj1 (Policy_handler_writes_only_when_counting sample_clock MapStore _ Recorder _
                  sample_quota sample_options_disabled sample_controller NewRecorder
                  sample_request (world_with (sample_counter 1 (10 * time.Millisecond)) 2))
           eq_refl).
Defined.

(** The third request of the window under limit 2: status 429. *)
Lemma Policy_refuses_at_the_limit_witness :
  let a := sample_counter 2 (10 * time.Millisecond) in
  let w := world_with a 2 in
  KeyId sample_quota = Return "5000000"%string /\
  plain_options sample_options sample_request "1.2.3.4" /\
  data (kv w) !! makeKey [KeyPrefix sample_options; "5000000"; "1.2.3.4"]%string
  = Some (marshalled a) /\
  Decode accessCount_zero (marshalled a) = Ok a /\
  fst (IsFresh sample_clock a w) = Return true /\
  fst (IsFresh sample_clock a (tock w)) = Return true /\
  Limit sample_quota <= Count a /\
  100 <= StatusCode sample_options <= 999 /\
  Code NewRecorder = None /\
  exists headers,
    Policy sample_clock sample_quota sample_options NewRecorder sample_request w
    = (Return (mkRecorder (Some 429) "Too Many Requests" headers), tock (tock w)) /\
    headers !! "X-Ratelimit-Remaining"%string = Some ["0"%string].
Proof.
  cbv zeta.
  assert (Hk : KeyId sample_quota = Return "5000000"%string) by (vm_compute; reflexivity).
  assert (Hd : Decode accessCount_zero (marshalled (sample_counter 2 (10 * time.Millisecond)))
               = Ok (sample_counter 2 (10 * time.Millisecond))) by (vm_compute; reflexivity).
  assert (Hf : fst (IsFresh sample_clock (sample_counter 2 (10 * time.Millisecond))
                      (world_with (sample_counter 2 (10 * time.Millisecond)) 2))
               = Return true) by (vm_compute; reflexivity).
  assert (Hf2 : fst (IsFresh sample_clock (sample_counter 2 (10 * time.Millisecond))
                       (tock (world_with (sample_counter 2 (10 * time.Millisecond)) 2)))
                = Return true) by (vm_compute; reflexivity).
  assert (Hc : Limit sample_quota <= Count (sample_counter 2 (10 * time.Millisecond)))
    by machine_range.
  assert (Hs : 100 <= StatusCode sample_options <= 999)
    by (cbn [sample_options StatusCode]; unfold defaultStatusCode, StatusTooManyRequests; lia).
  split; [exact Hk|]. split; [exact sample_options_plain|]. split; [reflexivity|].
  split; [exact Hd|]. split; [exact Hf|]. split; [exact Hf2|]. split; [exact Hc|].
  split; [exact Hs|]. split; [reflexivity|].
  eexists. split.
  - apply (Policy_refuses_at_the_limit sample_clock sample_quota sample_options
             sample_request "5000000" "1.2.3.4" NewRecorder
             (world_with (sample_counter 2 (10 * time.Millisecond)) 2)
             (marshalled (sample_counter 2 (10 * time.Millisecond)))
             (sample_counter 2 (10 * time.Millisecond))
             Hk sample_options_plain eq_refl Hd Hf Hf2 Hc Hs eq_refl).
  - vm_compute. reflexivity.
Defined.

(** The second request of the window under limit 2: counted, nothing
    remains. *)
Lemma Policy_admits_below_the_limit_witness :
  let a := sample_counter 1 (10 * time.Millisecond) in
  let w := world_with a 2 in
  KeyId sample_quota = Return "5000000"%string /\
  plain_options sample_options sample_request "1.2.3.4" /\
  mu w = false /\
  data (kv w) !! makeKey [KeyPrefix sample_options; "5000000"; "1.2.3.4"]%string
  = Some (marshalled a) /\
  Decode accessCount_zero (marshalled a) = Ok a /\
  (forall i, (tick w <= i < tick w + 4)%nat ->
             time.wall (sample_clock i) - time.wall (Start a) < Duration a) /\
  0 < Duration a /\
  Count a < Limit sample_quota < 2 ^ 64 /\
  exists w',
    Policy sample_clock sample_quota sample_options NewRecorder sample_request w
    = (Return (rate_headers 2
                 (time_Unix (time.Add (Start a) (Within sample_quota))) 0 NewRecorder),
       w') /\
    fst (GetAccessCount sample_clock (mkController sample_quota) sample_id w')
    = Return (mkAccessCount 2 (Start a) (Duration a)).
Proof.
  cbv zeta.
  assert (Hk : KeyId sample_quota = Return "5000000"%string) by (vm_compute; reflexivity).
  assert (Hd : Decode accessCount_zero (marshalled (sample_counter 1 (10 * time.Millisecond)))
               = Ok (sample_counter 1 (10 * time.Millisecond))) by (vm_compute; reflexivity).
  assert (Hclk : forall i,
            (tick (world_with (sample_counter 1 (10 * time.Millisecond)%Z) 2) <= i
             < tick (world_with (sample_counter 1 (10 * time.Millisecond)%Z) 2) + 4)%nat ->
            time.wall (sample_clock i)
            - time.wall (Start (sample_counter 1 (10 * time.Millisecond)))
            < Duration (sample_counter 1 (10 * time.Millisecond))).
  { intros i Hi. cbn [world_with tick] in Hi.
    apply (sample_clock_within i). unfold sample_counter, time.Millisecond.
    cbn [Duration]. lia. }
  assert (Hdur : 0 < Duration (sample_counter 1 (10 * time.Millisecond))) by machine_range.
  assert (Hc : Count (sample_counter 1 (10 * time.Millisecond)) < Limit sample_quota < 2 ^ 64)
    by machine_range.
  split; [exact Hk|]. split; [exact sample_options_plain|]. split; [reflexivity|].
  split; [reflexivity|]. split; [exact Hd|]. split; [exact Hclk|]. split; [exact Hdur|].
  split; [exact Hc|].
  destruct (Policy_admits_below_the_limit sample_clock sample_quota sample_options
              sample_request "5000000" "1.2.3.4" NewRecorder
              (world_with (sample_counter 1 (10 * time.Millisecond)) 2)
              (marshalled (sample_counter 1 (10 * time.Millisecond)))
              (sample_counter 1 (10 * time.Millisecond))
              Hk sample_options_plain eq_refl eq_refl Hd Hclk Hdur Hc)
    as (w' & Hrun & _ & _ & Hget).
  exists w'. split; [exact Hrun | exact Hget].
Defined.

(** Three requests under limit 2 inside a second, from an empty store:
    remaining 1, remaining 0, then status 429. *)
Lemma Policy_admits_limit_requests_then_refuses_witness :
  let reset := time_Unix (time.Add (time.UTC (sample_clock 5)) time.Second) in
  KeyId sample_quota_second = Return "500000000"%string /\
  plain_options sample_options sample_request "1.2.3.4" /\
  (0 < Limit sample_quota_second < 2 ^ 64 /\ 0 < Within sample_quota_second < 2 ^ 63) /\
  100 <= StatusCode sample_options <= 999 /\
  time.year_in_range (sample_clock 5) = true /\
  fst (serve sample_clock sample_quota_second sample_options sample_request 3 sample_world)
  = Return [rate_headers 2 reset 1 NewRecorder;
            rate_headers 2 reset 0 NewRecorder;
            mkRecorder (Some 429) "Too Many Requests"
              (HeaderMap (rate_headers 2 reset 0 NewRecorder))].
Proof.
  cbv zeta.
  assert (Hk : KeyId sample_quota_second = Return "500000000"%string)
    by (vm_compute; reflexivity).
  assert (HL : 0 < Limit sample_quota_second < 2 ^ 64)
    by (cbn [sample_quota_second Limit]; lia).
  assert (HW : 0 < Within sample_quota_second < 2 ^ 63)
    by (cbn [sample_quota_second Within]; unfold time.Second; lia).
  assert (Hs : 100 <= StatusCode sample_options <= 999)
    by (cbn [sample_options StatusCode]; unfold defaultStatusCode, StatusTooManyRequests; lia).
  assert (Hy : time.year_in_range (sample_clock 5) = true) by (vm_compute; reflexivity).
  split; [exact Hk|]. split; [exact sample_options_plain|]. split; [split; assumption|].
  split; [exact Hs|]. split; [exact Hy|].
  apply (Policy_admits_limit_requests_then_refuses sample_clock sample_quota_second
           sample_options sample_request "500000000" "1.2.3.4" 2 sample_world
           Hk sample_options_plain HL HW Hs eq_refl eq_refl Hy).
  intros i Hi. change (tick sample_world) with 0%nat in Hi.
  unfold sample_clock, sample_quota_second, time.Second, time.Millisecond.
  cbn [time.wall Within plus]. lia.
Defined.

(** Three requests under limit 2 inside a second through the policy without
    options, then a turn of the sweeper and a fourth request: remaining 1,
    remaining 0, status 429, and remaining 1 again. *)
Lemma default_Policy_counts_between_sweeps_witness :
  let reset := time_Unix (time.Add (time.UTC (sample_clock 5)) time.Second) in
  KeyId sample_quota_second = Return "500000000"%string /\
  Header_Get (ReqHeader sample_request) forwardedForHeader = EmptyString /\
  sample_SplitHostPort (RemoteAddr sample_request) = Ok ("1.2.3.4"%string, "5678"%string) /\
  (0 < Limit sample_quota_second < 2 ^ 64 /\ 0 < Within sample_quota_second < 2 ^ 63) /\
  (forall i, (0 <= i < 0 + 4 * (2 + 0) + 17)%nat ->
             time.year_in_range (sample_clock i) = true /\ 0 <= time.wall (sample_clock i))
  /\
  (forall i j, (0 <= i <= j)%nat -> (j < 0 + 4 * (2 + 0) + 17)%nat ->
               time.wall (sample_clock j) - time.wall (sample_clock i)
               < Within sample_quota_second) /\
  exists (o : @Options Recorder) (s : MapStore) (g : goroutine) (t' : nat),
    newOptions sample_ParseIP sample_SplitHostPort [] = Return (o, [g]) /\
    Store o = Some (MapStore_Storer s) /\
    fst (serve_events sample_clock sample_quota_second o sample_request g
           [ev_request; ev_request; ev_request] (mkWorld 0 false s))
    = Return [rate_headers 2 reset 1 NewRecorder;
              rate_headers 2 reset 0 NewRecorder;
              mkRecorder (Some 429) "Too Many Requests"
                (HeaderMap (rate_headers 2 reset 0 NewRecorder))] /\
    fst (serve_events sample_clock sample_quota_second o sample_request g
           [ev_request; ev_request; ev_request; ev_tick; ev_request] (mkWorld 0 false s))
    = Return [rate_headers 2 reset 1 NewRecorder;
              rate_headers 2 reset 0 NewRecorder;
              mkRecorder (Some 429) "Too Many Requests"
                (HeaderMap (rate_headers 2 reset 0 NewRecorder));
              rate_headers 2
                (time_Unix (time.Add (time.UTC (sample_clock (t' + 5))) time.Second))
                1 NewRecorder].
Proof.
  cbv zeta.
  assert (Hk : KeyId sample_quota_second = Return "500000000"%string)
    by (vm_compute; reflexivity).
  assert (HL : 0 < Limit sample_quota_second < 2 ^ 64)
    by (cbn [sample_quota_second Limit]; lia).
  assert (HW : 0 < Within sample_quota_second < 2 ^ 63)
    by (cbn [sample_quota_second Within]; unfold time.Second; lia).
  assert (Hclock : forall i, (0 <= i < 0 + 4 * (2 + 0) + 17)%nat ->
            time.year_in_range (sample_clock i) = true /\ 0 <= time.wall (sample_clock i)).
  { intros i Hi. split; [|apply sample_clock_not_before_zero].
    assert (H1 : time.year0 <= sample_instant) by (vm_compute; discriminate).
    assert (H2 : sample_instant + 25 * time.Millisecond < time.year10000)
      by (vm_compute; reflexivity).
    unfold time.year_in_range, sample_clock. cbn [time.wall].
    apply andb_true_iff. split; [apply Z.leb_le | apply Z.ltb_lt];
      unfold time.Millisecond in *; lia. }
  assert (Hwin : forall i j, (0 <= i <= j)%nat -> (j < 0 + 4 * (2 + 0) + 17)%nat ->
            time.wall (sample_clock j) - time.wall (sample_clock i)
            < Within sample_quota_second).
  { intros i j Hij Hj.
    unfold sample_clock, sample_quota_second, time.Second, time.Millisecond.
    cbn [time.wall Within]. lia. }
  split; [exact Hk|]. split; [reflexivity|]. split; [reflexivity|].
  split; [split; assumption|]. split; [exact Hclock|]. split; [exact Hwin|].
  destruct (default_Policy_counts_between_sweeps
              sample_ParseIP sample_SplitHostPort sample_clock sample_quota_second
              sample_request "500000000" "1.2.3.4" "5678" 2 0 0
              Hk eq_refl eq_refl HL HW Hclock Hwin)
    as (o & s & g & _ & _ & Ho & Hst & Hquiet & t' & _ & Hswept).
  exists o, s, g, t'. split; [exact Ho|]. split; [exact Hst|].
  split; [exact Hquiet | exact Hswept].
Defined.

(** The store of the package's cleaning test: a period of 5 milliseconds, one
    counter in the store, three ticks. *)
Lemma NewMapStore_starts_the_sweeper_witness :
  let w := world_with (sample_counter 64 (10 * time.Millisecond)) 1 in
  NewMapStore accessCount_zero [Some (mkMapStoreOptions (5 * time.Millisecond))]
  = Return (mkMapStore ∅ accessCount_zero, go_CleanEvery (5 * time.Millisecond)) /\
  CleanEvery sample_clock (5 * time.Millisecond) 3 w
  = (Blocked, mkWorld 2 false (mkMapStore ∅ accessCount_zero)).
Proof.
  cbv zeta.
  assert (Hnew : NewMapStore accessCount_zero
                   [Some (mkMapStoreOptions (5 * time.Millisecond))]
                 = Return (mkMapStore ∅ accessCount_zero,
                           go_CleanEvery (5 * time.Millisecond))) by reflexivity.
  split; [exact Hnew|].
  destruct (NewMapStore_starts_the_sweeper sample_clock accessCount_zero _ _ _ Hnew)
    as (_ & p & Hg & _ & _ & Hrun).
  injection Hg as <-.
  destruct (Hrun 2%nat (world_with (sample_counter 64 (10 * time.Millisecond)) 1))
    as (_ & _ & Hsweep).
  rewrite Hsweep.
  - cbn [world_with kv data tick mu]. now rewrite map_size_singleton.
  - unfold time.Millisecond. lia.
  - reflexivity.
  - intros i _. apply sample_clock_not_before_zero.
  - intros k v Hl. cbn [world_with kv data] in Hl.
    apply lookup_singleton_Some in Hl as [_ <-].
    eexists. vm_compute. reflexivity.
Defined.
